(** * E-commerce dashboard: data preparation and metric pipeline

    A shallow embedding of [data_loader.py], [business_metrics.py] and
    [app.py].  Monetary amounts and means are kept as exact rationals; the
    special values and the exceptions that Python, numpy and pandas produce
    on a zero divisor or on empty data are kept explicit, so that a
    statement such as "never NaN, never a division error" says something. *)

From Stdlib Require Import ZArith QArith Qround List String Ascii Bool Lia Lqa.
From Stdlib Require Import Sorted Permutation OrdersEx.
Import ListNotations.

Local Open Scope Z_scope.

(* ================================================================== *)
(** ** Python, numpy and pandas values                                  *)
(* ================================================================== *)

Module Py.

(** The messages of a [FileNotFoundError]: the two of
    [_validate_data_path], and the one of opening a file that is not
    there. *)
Inductive fnf_message : Type :=
| DataPathDoesNotExist (data_path : string)
| MissingRequiredFiles (missing_files : list string)
| NoSuchFile (path : string).

Inductive exn : Type :=
| FileNotFoundError (msg : fnf_message)
| IsADirectoryError (path : string)
| ZeroDivisionError
| KeyError (key : string)
| TypeError (msg : string)
| ValueError (msg : string).

Inductive result (A : Type) : Type :=
| Ok (a : A)
| Raise (e : exn).
Arguments Ok {A} a.
Arguments Raise {A} e.

Definition bind {A B : Type} (m : result A) (k : A -> result B) : result B :=
  match m with
  | Ok a => k a
  | Raise e => Raise e
  end.

Notation "x <- m ;; k" := (bind m (fun x => k))
  (at level 61, m at next level, right associativity).

(** A numpy [float64]: a finite value, an infinity, or NaN. *)
Inductive float64 : Type :=
| Fin (q : Q)
| PosInf
| NegInf
| NaN.

Definition Qltb (a b : Q) : bool := negb (Qle_bool b a).

Definition is_finite (x : float64) : bool :=
  match x with Fin _ => true | _ => false end.

Definition of_int (n : Z) : float64 := Fin (inject_Z n).

(** [x > 0]; every comparison with NaN is false. *)
Definition gt0 (x : float64) : bool :=
  match x with
  | Fin q => Qltb 0 q
  | PosInf => true
  | NegInf | NaN => false
  end.

(** [a - b] on float64. *)
Definition sub (a b : float64) : float64 :=
  match a, b with
  | Fin x, Fin y => Fin (x - y)
  | NaN, _ | _, NaN => NaN
  | PosInf, PosInf | NegInf, NegInf => NaN
  | PosInf, _ => PosInf
  | NegInf, _ => NegInf
  | Fin _, PosInf => NegInf
  | Fin _, NegInf => PosInf
  end.

(** [a * b] on float64. *)
Definition mul (a b : float64) : float64 :=
  match a, b with
  | Fin x, Fin y => Fin (x * y)
  | NaN, _ | _, NaN => NaN
  | Fin x, PosInf | PosInf, Fin x =>
      if Qltb 0 x then PosInf else if Qltb x 0 then NegInf else NaN
  | Fin x, NegInf | NegInf, Fin x =>
      if Qltb 0 x then NegInf else if Qltb x 0 then PosInf else NaN
  | PosInf, PosInf | NegInf, NegInf => PosInf
  | PosInf, NegInf | NegInf, PosInf => NaN
  end.

(** numpy's true division: a zero divisor gives an infinity or NaN (and a
    warning), never an exception. *)
Definition np_div (a b : float64) : float64 :=
  match a, b with
  | NaN, _ | _, NaN => NaN
  | Fin x, Fin y =>
      if Qeq_bool y 0
      then if Qltb 0 x then PosInf else if Qltb x 0 then NegInf else NaN
      else Fin (x / y)
  | Fin _, (PosInf | NegInf) => Fin 0
  | (PosInf | NegInf), (PosInf | NegInf) => NaN
  | PosInf, Fin y => if Qltb y 0 then NegInf else PosInf
  | NegInf, Fin y => if Qltb y 0 then PosInf else NegInf
  end.

(** Python's [int / int]: a zero divisor raises. *)
Definition int_truediv (a b : Z) : result float64 :=
  if b =? 0 then Raise ZeroDivisionError
  else Ok (Fin (inject_Z a / inject_Z b)).

(** [Series.sum()]: the sum of the values, 0 for an empty series. *)
Definition sum (xs : list Q) : Q := fold_right Qplus 0%Q xs.

(** [Series.mean()]: NaN for an empty series. *)
Definition mean (xs : list Q) : float64 :=
  match xs with
  | [] => NaN
  | _ => Fin (sum xs / inject_Z (Z.of_nat (List.length xs)))
  end.

(** [Series.nunique()] of a column of strings. *)
Definition nunique (xs : list string) : Z :=
  Z.of_nat (List.length (nodup string_dec xs)).

(** [round(x)] with one argument: to the nearest integer, a tie going to
    the even neighbour. *)
Definition round (x : Q) : Z :=
  let f := Qfloor x in
  let r := (x - inject_Z f)%Q in
  match Qcompare r (1 # 2) with
  | Lt => f
  | Gt => f + 1
  | Eq => if Z.even f then f else f + 1
  end.

End Py.

(* ================================================================== *)
(** ** Calendar: dates, timestamps, monthly periods                     *)
(* ================================================================== *)

Module Calendar.

(** [datetime.date]. *)
Record date : Type := mkdate { year : Z; month : Z; day : Z }.

Definition is_leap (y : Z) : bool :=
  (y mod 4 =? 0) && (negb (y mod 100 =? 0) || (y mod 400 =? 0)).

Definition days_before_year (y : Z) : Z :=
  let y' := y - 1 in y' * 365 + y' / 4 - y' / 100 + y' / 400.

Definition days_in_month (y m : Z) : Z :=
  if m =? 2 then (if is_leap y then 29 else 28)
  else if (m =? 4) || (m =? 6) || (m =? 9) || (m =? 11) then 30
  else 31.

Fixpoint days_before_month_aux (y : Z) (k : nat) : Z :=
  match k with
  | O => 0
  | S k' => days_before_month_aux y k' + days_in_month y (Z.of_nat k)
  end.

(** Days of the year before the first of month [m]. *)
Definition days_before_month (y m : Z) : Z :=
  days_before_month_aux y (Z.to_nat (m - 1)).

(** [date.toordinal()]: 0001-01-01 is day 1. *)
Definition toordinal (d : date) : Z :=
  days_before_year (year d) + days_before_month (year d) (month d) + day d.

Fixpoint month_of_yday (y : Z) (n : Z) (m : Z) (fuel : nat) : Z * Z :=
  match fuel with
  | O => (m, n + 1)
  | S fuel' =>
      if n <? days_in_month y m then (m, n + 1)
      else month_of_yday y (n - days_in_month y m) (m + 1) fuel'
  end.

(** [date.fromordinal(n)]. *)
Definition fromordinal (n : Z) : date :=
  let n0 := n - 1 in
  let n400 := n0 / 146097 in
  let r400 := n0 mod 146097 in
  let n100 := r400 / 36524 in
  let r100 := r400 mod 36524 in
  let n4 := r100 / 1461 in
  let r4 := r100 mod 1461 in
  let n1 := r4 / 365 in
  let r1 := r4 mod 365 in
  let y := n400 * 400 + 1 + n100 * 100 + n4 * 4 + n1 in
  if (n1 =? 4) || (n100 =? 4) then mkdate (y - 1) 12 31
  else
    let '(m, d) := month_of_yday y r1 1 11 in
    mkdate y m d.

(** Python orders dates as the triples (year, month, day). *)
Definition date_ltb (a b : date) : bool :=
  (year a <? year b)
  || ((year a =? year b)
      && ((month a <? month b)
          || ((month a =? month b) && (day a <? day b)))).

Definition date_geb (a b : date) : bool := negb (date_ltb a b).

(** A timezone-naive [pd.Timestamp], in seconds. *)
Definition Timestamp : Type := Z.

Definition seconds_per_day : Z := 86400.

(** [pd.Timestamp(d)]: midnight of [d]. *)
Definition Timestamp_of_date (d : date) : Timestamp :=
  toordinal d * seconds_per_day.

(** [Timestamp.date()]. *)
Definition date_of_Timestamp (t : Timestamp) : date :=
  fromordinal (t / seconds_per_day).

(** [(a - b).days]: whole days, rounded down. *)
Definition timedelta_days (a b : Timestamp) : Z := (a - b) / seconds_per_day.

(** [t - pd.DateOffset(days=n)]. *)
Definition minus_days (t : Timestamp) (n : Z) : Timestamp :=
  t - n * seconds_per_day.

(** A monthly period ([Series.dt.to_period('M')]), as months counted from
    year 0. *)
Definition Period : Type := Z.

Definition to_period_M (t : Timestamp) : Period :=
  let d := date_of_Timestamp t in year d * 12 + (month d - 1).

(** The model's timestamps are unbounded; pandas' are not.  At nanosecond
    resolution a [pd.Timestamp] lies between 1677-09-21 and 2262-04-11, and
    outside that range building one or subtracting an offset raises in
    some version of pandas.  These are the midnights safely inside. *)
Definition in_bounds (t : Timestamp) : bool :=
  (Timestamp_of_date (mkdate 1677 9 22) <=? t)
  && (t <=? Timestamp_of_date (mkdate 2262 4 11)).

End Calendar.

(* ================================================================== *)
(** ** Tables and joins                                                 *)
(* ================================================================== *)

Module Tables.
Import Calendar.

(** A row of [orders_dataset.csv] after [_process_orders_data]: a date
    that did not parse is [None] (NaT). *)
Module Order.
Record t : Type := mk {
  order_id : string;
  customer_id : string;
  order_status : string;
  order_purchase_timestamp : option Timestamp;
  order_delivered_customer_date : option Timestamp;
  order_estimated_delivery_date : option Timestamp
}.
End Order.

Module OrderItem.
Record t : Type := mk {
  order_id : string;
  order_item_id : Z;
  product_id : string;
  price : Q;
  freight_value : Q
}.
End OrderItem.

Module Product.
Record t : Type := mk {
  product_id : string;
  product_category_name : option string
}.
End Product.

Module Customer.
Record t : Type := mk {
  customer_id : string;
  customer_state : string;
  customer_city : string
}.
End Customer.

Module Review.
Record t : Type := mk {
  order_id : string;
  review_score : Z
}.
End Review.

(** [left.merge(right, on=key)], the default [how='inner']: every pair of
    rows with equal keys, in the order of the left rows. *)
Definition merge_inner {L R : Type}
    (lkey : L -> string) (rkey : R -> string)
    (left : list L) (right : list R) : list (L * R) :=
  flat_map
    (fun l => map (pair l) (filter (fun r => String.eqb (lkey l) (rkey r)) right))
    left.

(** [left.merge(right, on=key, how='left')]: as the inner join, and a left
    row without a partner is kept once with the right columns missing. *)
Definition merge_left {L R : Type}
    (lkey : L -> string) (rkey : R -> string)
    (left : list L) (right : list R) : list (L * option R) :=
  flat_map
    (fun l =>
       match filter (fun r => String.eqb (lkey l) (rkey r)) right with
       | [] => [(l, None)]
       | matches => map (fun r => (l, Some r)) matches
       end)
    left.

(** A row of the sales fact table ([sales_data] of
    [filter_data_by_date]). *)
Module SalesRow.
Record t : Type := mk {
  order_id : string;
  order_item_id : Z;
  product_id : string;
  price : Q;
  freight_value : Q;
  customer_id : string;
  order_status : string;
  order_purchase_timestamp : option Timestamp;
  delivery_days : option Z;
  product_category_name : option string;
  customer_state : option string;
  customer_city : option string;
  review_score : option Z
}.
End SalesRow.

(** The fact table as a DataFrame: the merged rows, and the columns
    assigned to the frame afterwards ([df[name] = values]), in the order
    of their first assignment. *)
Record SalesFrame : Type := mkframe {
  rows : list SalesRow.t;
  assigned : list (string * list (option Period))
}.

Definition merged_columns : list string :=
  ["order_id"; "order_item_id"; "product_id"; "price"; "freight_value";
   "customer_id"; "order_status"; "order_purchase_timestamp";
   "delivery_days"; "product_category_name"; "customer_state";
   "customer_city"; "review_score"]%string.

(** [df.columns]. *)
Definition columns (df : SalesFrame) : list string :=
  merged_columns ++ map fst (assigned df).

Fixpoint set_assoc {V : Type} (name : string) (values : V)
    (cols : list (string * V)) : list (string * V) :=
  match cols with
  | [] => [(name, values)]
  | (n, v) :: rest =>
      if String.eqb n name then (n, values) :: rest
      else (n, v) :: set_assoc name values rest
  end.

Fixpoint get_assoc {V : Type} (name : string) (cols : list (string * V))
    : option V :=
  match cols with
  | [] => None
  | (n, v) :: rest => if String.eqb n name then Some v else get_assoc name rest
  end.

(** [df[name] = values], in place: an existing column is overwritten, a
    new one is appended. *)
Definition setitem (df : SalesFrame) (name : string)
    (values : list (option Period)) : SalesFrame :=
  mkframe (rows df) (set_assoc name values (assigned df)).

(** [len(df)]. *)
Definition len (df : SalesFrame) : Z := Z.of_nat (List.length (rows df)).

(** [df.groupby(key)[value].sum()] for an integer key: one entry per key,
    keys ascending. *)
Fixpoint add_to_group (k : Z) (v : Q) (groups : list (Z * Q)) : list (Z * Q) :=
  match groups with
  | [] => [(k, v)]
  | (k', s) :: rest =>
      if k <? k' then (k, v) :: (k', s) :: rest
      else if k =? k' then (k', (s + v)%Q) :: rest
      else (k', s) :: add_to_group k v rest
  end.

Definition groupby_sum (kvs : list (Z * Q)) : list (Z * Q) :=
  fold_left (fun groups kv => add_to_group (fst kv) (snd kv) groups) kvs [].

(** [df.groupby(key)[value].sum()] for a string key, as the list of the
    sums, one per distinct key. *)
Definition group_sums {Row : Type} (key : Row -> string) (value : Row -> Q)
    (df : list Row) : list Q :=
  map (fun k =>
         Py.sum (map value (filter (fun r => String.eqb (key r) k) df)))
      (nodup string_dec (map key df)).

(** [df.groupby(key)[value].sum()] for a key that is a string: one entry
    per key, keys in ascending (lexicographic) order. *)
Fixpoint add_to_label_group (k : string) (v : Q) (groups : list (string * Q))
    : list (string * Q) :=
  match groups with
  | [] => [(k, v)]
  | (k', s) :: rest =>
      match String_as_OT.compare k k' with
      | Lt => (k, v) :: (k', s) :: rest
      | Eq => (k', (s + v)%Q) :: rest
      | Gt => (k', s) :: add_to_label_group k v rest
      end
  end.

Definition groupby_label_sum (kvs : list (string * Q)) : list (string * Q) :=
  fold_left (fun groups kv => add_to_label_group (fst kv) (snd kv) groups) kvs [].

(** The rows [groupby] sees: a row whose key is missing (NaN) is in no
    group. *)
Definition labelled {Row : Type} (key : Row -> option string) (value : Row -> Q)
    (df : list Row) : list (string * Q) :=
  flat_map (fun r => match key r with
                     | Some k => [(k, value r)]
                     | None => []
                     end) df.

(** [Series.sort_values(ascending=False)] rearranges the entries so that
    the values descend; with the default [kind='quicksort'] the order among
    entries of equal value is not fixed.  Whatever has this contract can
    stand for it. *)
Definition sorts_descending
    (sort_values : list (string * Q) -> list (string * Q)) : Prop :=
  forall series,
    Permutation series (sort_values series)
    /\ StronglySorted (fun a b => (snd b <= snd a)%Q) (sort_values series).

End Tables.

(* ================================================================== *)
(** ** data_loader.py                                                   *)
(* ================================================================== *)

Module DataLoader.
Import Py Calendar Tables.
Local Open Scope string_scope.
Local Open Scope Z_scope.

(** What [os] and [pd.read_csv] see: a path is absent, a directory, or a
    file with its parsed tables.  Reading the CSV text is not modelled;
    a file holds the rows a successful parse gives. *)
Inductive content : Type :=
| OrdersCsv (t : list Order.t)
| OrderItemsCsv (t : list OrderItem.t)
| ProductsCsv (t : list Product.t)
| CustomersCsv (t : list Customer.t)
| ReviewsCsv (t : list Review.t).

Inductive node : Type :=
| Dir
| File (c : content).

Definition FileSystem : Type := string -> option node.

(** [os.path.exists]. *)
Definition path_exists (fs : FileSystem) (p : string) : bool :=
  match fs p with Some _ => true | None => false end.

Fixpoint ends_with_slash (p : string) : bool :=
  match p with
  | EmptyString => false
  | String c EmptyString => Ascii.eqb c "/"%char
  | String _ rest => ends_with_slash rest
  end.

(** [os.path.join(a, b)] for a relative [b]. *)
Definition path_join (a b : string) : string :=
  match a with
  | EmptyString => b
  | _ => if ends_with_slash a then a ++ b else a ++ "/" ++ b
  end.

(** I/O with the log of the paths handed to [pd.read_csv] so far. *)
Definition IO (A : Type) : Type := list string -> result A * list string.

Definition ret {A : Type} (a : A) : IO A := fun log => (Ok a, log).

Definition raise {A : Type} (e : exn) : IO A := fun log => (Raise e, log).

Definition bindIO {A B : Type} (m : IO A) (k : A -> IO B) : IO B :=
  fun log =>
    match m log with
    | (Ok a, log') => k a log'
    | (Raise e, log') => (Raise e, log')
    end.

Notation "x <~ m ;; k" := (bindIO m (fun x => k))
  (at level 61, m at next level, right associativity).

(** [pd.read_csv(path)]. *)
Definition read_csv (fs : FileSystem) (path : string) : IO content :=
  fun log =>
    match fs path with
    | Some (File c) => (Ok c, (log ++ [path])%list)
    | Some Dir => (Raise (IsADirectoryError path), (log ++ [path])%list)
    | None => (Raise (FileNotFoundError (NoSuchFile path)), (log ++ [path])%list)
    end.

Record EcommerceDataLoader : Type := mkloader {
  data_path : string;
  orders : option (list Order.t);
  order_items : option (list OrderItem.t);
  products : option (list Product.t);
  customers : option (list Customer.t);
  reviews : option (list Review.t)
}.

Definition required_files : list string :=
  ["orders_dataset.csv";
   "order_items_dataset.csv";
   "products_dataset.csv";
   "customers_dataset.csv";
   "order_reviews_dataset.csv"].

(** The loop of [_validate_data_path] that collects [missing_files]. *)
Definition missing_files (fs : FileSystem) (path : string) : list string :=
  filter (fun file => negb (path_exists fs (path_join path file))) required_files.

Definition _validate_data_path (fs : FileSystem) (self : EcommerceDataLoader)
    : IO unit :=
  if negb (path_exists fs (data_path self))
  then raise (FileNotFoundError (DataPathDoesNotExist (data_path self)))
  else
    match missing_files fs (data_path self) with
    | [] => ret tt
    | missing => raise (FileNotFoundError (MissingRequiredFiles missing))
    end.

(** [EcommerceDataLoader(data_path)]: [__init__]. *)
Definition init (fs : FileSystem) (path : string) : IO EcommerceDataLoader :=
  let self := mkloader path None None None None None in
  _ <~ _validate_data_path fs self ;;
  ret self.

Definition wrong_table {A : Type} : IO A := raise (ValueError "unexpected columns").

Definition load_all_datasets (fs : FileSystem) (self : EcommerceDataLoader)
    : IO EcommerceDataLoader :=
  c1 <~ read_csv fs (path_join (data_path self) "orders_dataset.csv") ;;
  o <~ match c1 with OrdersCsv t => ret t | _ => wrong_table end ;;
  c2 <~ read_csv fs (path_join (data_path self) "order_items_dataset.csv") ;;
  i <~ match c2 with OrderItemsCsv t => ret t | _ => wrong_table end ;;
  c3 <~ read_csv fs (path_join (data_path self) "products_dataset.csv") ;;
  p <~ match c3 with ProductsCsv t => ret t | _ => wrong_table end ;;
  c4 <~ read_csv fs (path_join (data_path self) "customers_dataset.csv") ;;
  c <~ match c4 with CustomersCsv t => ret t | _ => wrong_table end ;;
  c5 <~ read_csv fs (path_join (data_path self) "order_reviews_dataset.csv") ;;
  r <~ match c5 with ReviewsCsv t => ret t | _ => wrong_table end ;;
  ret (mkloader (data_path self) (Some o) (Some i) (Some p) (Some c) (Some r)).

(** [categorize_delivery_speed(days)]. *)
Definition categorize_delivery_speed (days : Z) : string :=
  if days <=? 3 then "1-3 days"
  else if days <=? 7 then "4-7 days"
  else "8+ days".

Section Merges.
(** The sales frame handed in only needs the columns the merge selects. *)
Context {Row : Type}.
Variables (order_id product_id customer_id : Row -> string) (price : Row -> Q).

(** Row of [get_product_category_data]'s result. *)
Record CategoryRow : Type := mkcat {
  cat_product_id : string;
  cat_product_category_name : option string;
  cat_price : Q
}.

Definition get_product_category_data (self : EcommerceDataLoader)
    (sales_data : list Row) : result (list CategoryRow) :=
  match products self with
  | None => Raise (ValueError "Products dataset not loaded.")
  | Some products =>
      Ok (map (fun pr : Product.t * Row =>
                 mkcat (Product.product_id (fst pr))
                       (Product.product_category_name (fst pr))
                       (price (snd pr)))
              (merge_inner Product.product_id product_id products sales_data))
  end.

(** Row of [get_geographic_data]'s result. *)
Record GeoRow : Type := mkgeo {
  geo_order_id : string;
  geo_customer_id : string;
  geo_price : Q;
  geo_customer_state : string;
  geo_customer_city : string
}.

Definition get_geographic_data (self : EcommerceDataLoader)
    (sales_data : list Row) : result (list GeoRow) :=
  match customers self with
  | None => Raise (ValueError "Customers dataset not loaded.")
  | Some customers =>
      Ok (map (fun pr : Row * Customer.t =>
                 mkgeo (order_id (fst pr)) (customer_id (fst pr))
                       (price (fst pr))
                       (Customer.customer_state (snd pr))
                       (Customer.customer_city (snd pr)))
              (merge_inner customer_id Customer.customer_id sales_data customers))
  end.
End Merges.

(** The [year] and [month] columns [_process_orders_data] derives from the
    purchase timestamp; both are missing where it is NaT. *)
Definition order_year (o : Order.t) : option Z :=
  option_map (fun t => year (date_of_Timestamp t)) (Order.order_purchase_timestamp o).

Definition order_month (o : Order.t) : option Z :=
  option_map (fun t => month (date_of_Timestamp t)) (Order.order_purchase_timestamp o).

(** A row of [prepare_sales_data]'s result. *)
Module PreparedRow.
Record t : Type := mk {
  order_id : string;
  order_item_id : Z;
  product_id : string;
  price : Q;
  freight_value : Q;
  order_status : string;
  order_purchase_timestamp : option Timestamp;
  order_delivered_customer_date : option Timestamp;
  year : option Z;
  month : option Z;
  customer_id : string;
  delivery_days : option Z
}.
End PreparedRow.

(** The result of [prepare_sales_data]: its rows, and whether it has the
    [delivery_days] column (only for [status == 'delivered']). *)
Record PreparedFrame : Type := mkprepared {
  prepared_rows : list PreparedRow.t;
  delivery_days_column : bool
}.

Definition prepared_row (with_delivery_days : bool) (r : OrderItem.t * Order.t)
    : PreparedRow.t :=
  let '(item, order) := r in
  PreparedRow.mk
    (OrderItem.order_id item) (OrderItem.order_item_id item)
    (OrderItem.product_id item) (OrderItem.price item)
    (OrderItem.freight_value item)
    (Order.order_status order) (Order.order_purchase_timestamp order)
    (Order.order_delivered_customer_date order)
    (order_year order) (order_month order) (Order.customer_id order)
    (if with_delivery_days
     then match Order.order_delivered_customer_date order,
                Order.order_purchase_timestamp order with
          | Some d, Some p => Some (timedelta_days d p)
          | _, _ => None
          end
     else None).

(** [column == value] against an optional filter value: no filter for
    [None]; a missing cell equals nothing. *)
Definition matches (wanted : option Z) (cell : option Z) : bool :=
  match wanted with
  | None => true
  | Some w => match cell with Some c => c =? w | None => false end
  end.

(** [prepare_sales_data(year, month, status)]; an empty [status] is falsy
    and filters nothing. *)
Definition prepare_sales_data (self : EcommerceDataLoader)
    (year month : option Z) (status : string) : result PreparedFrame :=
  match orders self, order_items self with
  | Some orders, Some order_items =>
      let sales_data := merge_inner OrderItem.order_id Order.order_id order_items orders in
      let sales_data :=
        if String.eqb status ""
        then sales_data
        else filter (fun r => String.eqb (Order.order_status (snd r)) status) sales_data in
      let sales_data := filter (fun r => matches year (order_year (snd r))) sales_data in
      let sales_data := filter (fun r => matches month (order_month (snd r))) sales_data in
      let delivered := String.eqb status "delivered" in
      Ok (mkprepared (map (prepared_row delivered) sales_data) delivered)
  | _, _ =>
      Raise (ValueError "Datasets must be loaded first. Call load_all_datasets()")
  end.

(** A table of the loader that is used without a check; [None] before
    [load_all_datasets]. *)
Definition loaded {A : Type} (t : option (list A)) : result (list A) :=
  match t with
  | Some rows => Ok rows
  | None => Raise (TypeError "'NoneType' object is not subscriptable")
  end.

Section ReviewMerge.
Context {Row : Type}.
Variable order_id : Row -> string.

(** [get_review_data(sales_data)]: each sales row with its [review_score],
    missing where the order has no review. *)
Definition get_review_data (self : EcommerceDataLoader) (sales_data : list Row)
    : result (list (Row * option Z)) :=
  match reviews self with
  | None => Raise (ValueError "Reviews dataset not loaded.")
  | Some reviews =>
      Ok (map (fun pr : Row * option Review.t =>
                 (fst pr, option_map Review.review_score (snd pr)))
              (merge_left order_id Review.order_id sales_data reviews))
  end.
End ReviewMerge.

(** [get_sales_with_products(year, month)]: the delivered sales with the
    product's columns, missing where the product is unknown. *)
Definition get_sales_with_products (self : EcommerceDataLoader)
    (year month : option Z) : result (list (PreparedRow.t * option Product.t)) :=
  sales_data <- prepare_sales_data self year month "delivered" ;;
  products <- loaded (products self) ;;
  Ok (merge_left PreparedRow.product_id Product.product_id
        (prepared_rows sales_data) products).

(** [get_sales_with_customers(year, month)]. *)
Definition get_sales_with_customers (self : EcommerceDataLoader)
    (year month : option Z) : result (list (PreparedRow.t * option Customer.t)) :=
  sales_data <- prepare_sales_data self year month "delivered" ;;
  customers <- loaded (customers self) ;;
  Ok (merge_left PreparedRow.customer_id Customer.customer_id
        (prepared_rows sales_data) customers).

End DataLoader.


(* ================================================================== *)
(** ** business_metrics.py                                              *)
(* ================================================================== *)

Module BusinessMetrics.
Import Py Calendar Tables.
Local Open Scope string_scope.
Local Open Scope Z_scope.

(** The entries [metrics.update] adds when [comparison_data] is given. *)
Record Comparison : Type := mkcomparison {
  revenue_growth_rate : float64;
  order_growth_rate : float64;
  aov_growth_rate : float64;
  previous_revenue : float64;
  previous_orders : Z;
  previous_aov : float64
}.

Record RevenueMetrics : Type := mkrevenue {
  total_revenue : float64;
  total_orders : Z;
  avg_order_value : float64;
  total_items_sold : Z;
  comparison : option Comparison
}.

Section Revenue.
(** Any frame with the columns [order_id] and [price]. *)
Context {Row : Type}.
Variables (order_id : Row -> string) (price : Row -> Q).

Definition calculate_revenue_metrics (sales_data : list Row)
    (comparison_data : option (list Row)) : result RevenueMetrics :=
  let total_revenue := Fin (sum (map price sales_data)) in
  let total_orders := nunique (map order_id sales_data) in
  let avg_order_value := mean (group_sums order_id price sales_data) in
  let total_items_sold := Z.of_nat (List.length sales_data) in
  match comparison_data with
  | None =>
      Ok (mkrevenue total_revenue total_orders avg_order_value
            total_items_sold None)
  | Some comparison_data =>
      let prev_revenue := Fin (sum (map price comparison_data)) in
      let prev_orders := nunique (map order_id comparison_data) in
      let prev_aov := mean (group_sums order_id price comparison_data) in
      let revenue_growth_rate :=
        mul (np_div (sub total_revenue prev_revenue) prev_revenue) (Fin 100) in
      order_ratio <- int_truediv (total_orders - prev_orders) prev_orders ;;
      let order_growth_rate := mul order_ratio (Fin 100) in
      let aov_growth_rate :=
        mul (np_div (sub avg_order_value prev_aov) prev_aov) (Fin 100) in
      Ok (mkrevenue total_revenue total_orders avg_order_value
            total_items_sold
            (Some (mkcomparison revenue_growth_rate order_growth_rate
                     aov_growth_rate prev_revenue prev_orders prev_aov)))
  end.
End Revenue.

(** The lambda of [analyze_customer_experience]; a missing [delivery_days]
    (NaN) fails both comparisons. *)
Definition delivery_category (x : option Z) : string :=
  match x with
  | Some d => if d <=? 3 then "1-3 days" else if d <=? 7 then "4-7 days" else "8+ days"
  | None => "8+ days"
  end.

(** [Series.mean()] of a column with missing values: they are skipped. *)
Definition mean_skipna (xs : list (option Z)) : float64 :=
  mean (flat_map (fun x => match x with Some z => [inject_Z z] | None => [] end) xs).

Section Experience.
(** Any frame with the columns [review_score] and [delivery_days]. *)
Context {Row : Type}.
Variables (review_score delivery_days : Row -> option Z).

(** [review_data_copy.groupby('delivery_category')['review_score'].mean()]:
    one entry per category that occurs, categories in ascending order. *)
Definition satisfaction_by_delivery (review_data : list Row)
    : list (string * float64) :=
  flat_map
    (fun category =>
       match filter (fun r => String.eqb (delivery_category (delivery_days r)) category)
                    review_data with
       | [] => []
       | group => [(category, mean_skipna (map review_score group))]
       end)
    ["1-3 days"; "4-7 days"; "8+ days"].

(** The entries of [analyze_customer_experience]'s result that are scalars
    or come from the delivery categories. *)
Record CustomerExperience : Type := mkexperience {
  avg_rating : float64;
  avg_delivery_days : float64;
  satisfaction_by_delivery_speed : list (string * float64)
}.

Definition analyze_customer_experience (review_data : list Row)
    : CustomerExperience :=
  mkexperience
    (mean_skipna (map review_score review_data))
    (mean_skipna (map delivery_days review_data))
    (satisfaction_by_delivery review_data).
End Experience.

(** [Series.value_counts(normalize=True)] read as a map: the share of each
    value that occurs; a value that does not occur has no entry. *)
Definition value_counts_normalize (xs : list string) (x : string) : option Q :=
  match count_occ string_dec xs x with
  | O => None
  | c => Some (inject_Z (Z.of_nat c) / inject_Z (Z.of_nat (List.length xs)))%Q
  end.

(** [Series.get(key, default)]. *)
Definition get (series : string -> option Q) (key : string) (default : Q) : Q :=
  match series key with
  | Some v => v
  | None => default
  end.

Record FulfillmentMetrics : Type := mkfulfillment {
  fulfillment_rate : Q;
  cancellation_rate : Q;
  return_rate : Q;
  pending_rate : Q;
  status_distribution : string -> option Q
}.

Section Fulfillment.
(** Any frame with the column [order_status]. *)
Context {Row : Type}.
Variable order_status : Row -> string.

Definition calculate_order_fulfillment_metrics (orders_data : list Row)
    : FulfillmentMetrics :=
  let status_distribution := value_counts_normalize (map order_status orders_data) in
  mkfulfillment
    (get status_distribution "delivered" 0%Q)
    (get status_distribution "canceled" 0%Q)
    (get status_distribution "returned" 0%Q)
    (get status_distribution "pending" 0%Q + get status_distribution "processing" 0%Q)%Q
    status_distribution.
End Fulfillment.

(** [Series.pct_change()]: NaN first, then each value over the one before
    it, minus 1. *)
Fixpoint pct_change_from (previous : float64) (xs : list float64) : list float64 :=
  match xs with
  | [] => []
  | x :: rest => sub (np_div x previous) (Fin 1) :: pct_change_from x rest
  end.

Definition pct_change (xs : list float64) : list float64 :=
  match xs with
  | [] => []
  | x :: rest => NaN :: pct_change_from x rest
  end.

(** A row of the table [calculate_monthly_trends] returns. *)
Module Trend.
Record t : Type := mk {
  month : Z;
  revenue : Q;
  orders : Z;
  avg_order_value : float64;
  revenue_growth : float64;
  order_growth : float64;
  aov_growth : float64
}.
End Trend.

Section Trends.
(** Any frame with the columns [month], [order_id] and [price]; a missing
    month is NaN, and [groupby] leaves such rows out. *)
Context {Row : Type}.
Variables (month : Row -> option Z) (order_id : Row -> string) (price : Row -> Q).

Definition in_month (m : Z) (sales_data : list Row) : list Row :=
  filter (fun r => match month r with Some k => k =? m | None => false end)
    sales_data.

(** [sales_data.groupby('month')['price'].sum()]. *)
Definition monthly_revenue (sales_data : list Row) : list (Z * Q) :=
  groupby_sum
    (flat_map (fun r => match month r with
                        | Some m => [(m, price r)]
                        | None => []
                        end) sales_data).

(** [calculate_monthly_trends]: the columns are built one by one over the
    same months, and row [i] of the table takes entry [i] of each. *)
Definition calculate_monthly_trends (sales_data : list Row) : list Trend.t :=
  let monthly_revenue := monthly_revenue sales_data in
  let months := map fst monthly_revenue in
  let monthly_orders :=
    map (fun m => nunique (map order_id (in_month m sales_data))) months in
  let monthly_aov :=
    map (fun m => mean (group_sums order_id price (in_month m sales_data))) months in
  let revenue := map snd monthly_revenue in
  let percent := map (fun g => mul g (Fin 100)) in
  let revenue_growth := percent (pct_change (map Fin revenue)) in
  let order_growth := percent (pct_change (map of_int monthly_orders)) in
  let aov_growth := percent (pct_change monthly_aov) in
  map (fun i =>
         Trend.mk (nth i months 0) (nth i revenue 0%Q) (nth i monthly_orders 0)
           (nth i monthly_aov NaN) (nth i revenue_growth NaN)
           (nth i order_growth NaN) (nth i aov_growth NaN))
      (seq 0 (List.length months)).
End Trends.

Section Rankings.
(** Any frame with the column [price] and a column of names to group by:
    [product_category_name] in [analyze_product_performance],
    [customer_state] in [analyze_geographic_performance]. *)
Context {Row : Type}.
Variable sort_values : list (string * Q) -> list (string * Q).
Variables (name : Row -> option string) (price : Row -> Q).

(** [data.groupby(name)['price'].sum().sort_values(ascending=False)]:
    [category_revenue], [state_revenue]. *)
Definition revenue_ranking (data : list Row) : list (string * Q) :=
  sort_values (groupby_label_sum (labelled name price data)).

(** [.head(10)]: [top_categories_by_revenue], [top_states_by_revenue]. *)
Definition top_by_revenue (data : list Row) : list (string * Q) :=
  firstn 10 (revenue_ranking data).
End Rankings.

(** [list(d.keys())[0] if d else None], for the dict made of a ranking. *)
Definition first_key (d : list (string * Q)) : option string :=
  match d with
  | [] => None
  | (k, _) :: _ => Some k
  end.

Section Summary.
Context {Row : Type}.
Variable sort_values : list (string * Q) -> list (string * Q).
Variables (name : Row -> option string) (price : Row -> Q).

(** [top_product_category] and [top_state] of [generate_business_summary],
    over the metrics of [analyze_product_performance] and
    [analyze_geographic_performance]. *)
Definition top_performer (data : list Row) : option string :=
  first_key (top_by_revenue sort_values name price data).
End Summary.

Section DeliverySpeed.
Context {Row : Type}.
Variable delivery_days : Row -> option Z.

(** [review_data_copy['delivery_category'].value_counts(normalize=True)]. *)
Definition delivery_speed_distribution (review_data : list Row)
    : string -> option Q :=
  value_counts_normalize
    (map (fun r => delivery_category (delivery_days r)) review_data).

(** [fast_delivery_rate] of [generate_business_summary], over the metrics
    of [analyze_customer_experience]. *)
Definition fast_delivery_rate (review_data : list Row) : Q :=
  get (delivery_speed_distribution review_data) "1-3 days" 0%Q.
End DeliverySpeed.

End BusinessMetrics.

(* ================================================================== *)
(** ** app.py                                                           *)
(* ================================================================== *)

Module App.
Import Py Calendar Tables.
Local Open Scope string_scope.
Local Open Scope Z_scope.

(** [load_data()], for the data path [path] (["ecommerce_data/"] in the
    source). *)
Definition load_data_from (fs : DataLoader.FileSystem) (path : string)
    : DataLoader.IO DataLoader.EcommerceDataLoader :=
  DataLoader.bindIO (DataLoader.init fs path)
    (fun data_loader => DataLoader.load_all_datasets fs data_loader).

Definition load_data (fs : DataLoader.FileSystem)
    : DataLoader.IO DataLoader.EcommerceDataLoader :=
  load_data_from fs "ecommerce_data/".

(** A table of the loader; [None] before [load_all_datasets]. *)
Definition table {A : Type} (t : option (list A)) : result (list A) :=
  match t with
  | Some rows => Ok rows
  | None => Raise (TypeError "'NoneType' object is not subscriptable")
  end.

(** [start <= purchase <= end]; a comparison with NaT is false. *)
Definition in_window (start_date end_date : Timestamp) (o : Order.t) : bool :=
  match Order.order_purchase_timestamp o with
  | Some t => (start_date <=? t) && (t <=? end_date)
  | None => false
  end.

Definition is_delivered (o : Order.t) : bool :=
  String.eqb (Order.order_status o) "delivered"
  && match Order.order_delivered_customer_date o with
     | Some _ => true
     | None => false
     end.

(** [(delivered - purchase).dt.days]. *)
Definition delivery_days_of (o : Order.t) : option Z :=
  match Order.order_delivered_customer_date o, Order.order_purchase_timestamp o with
  | Some d, Some p => Some (timedelta_days d p)
  | _, _ => None
  end.

(** The columns of [delivered_orders] handed to the first merge. *)
Record DeliveredOrder : Type := mkdelivered {
  d_order_id : string;
  d_customer_id : string;
  d_order_status : string;
  d_order_purchase_timestamp : option Timestamp;
  d_delivery_days : option Z
}.

Definition delivered_order (o : Order.t) : DeliveredOrder :=
  mkdelivered (Order.order_id o) (Order.customer_id o) (Order.order_status o)
    (Order.order_purchase_timestamp o) (delivery_days_of o).

Definition sales_row
    (r : OrderItem.t * DeliveredOrder * option Product.t * option Customer.t
         * option Review.t) : SalesRow.t :=
  let '(item, d, product, customer, review) := r in
  SalesRow.mk
    (OrderItem.order_id item) (OrderItem.order_item_id item)
    (OrderItem.product_id item) (OrderItem.price item)
    (OrderItem.freight_value item)
    (d_customer_id d) (d_order_status d) (d_order_purchase_timestamp d)
    (d_delivery_days d)
    (match product with Some p => Product.product_category_name p | None => None end)
    (option_map Customer.customer_state customer)
    (option_map Customer.customer_city customer)
    (option_map Review.review_score review).

(** The four merges of [filter_data_by_date]. *)
Definition merge_sales (order_items : list OrderItem.t)
    (delivered_orders : list DeliveredOrder) (products : list Product.t)
    (customers : list Customer.t) (reviews : list Review.t) : list SalesRow.t :=
  let m1 := merge_inner OrderItem.order_id d_order_id order_items delivered_orders in
  let m2 := merge_left (fun r => OrderItem.product_id (fst r)) Product.product_id
              m1 products in
  let m3 := merge_left (fun r => d_customer_id (snd (fst r))) Customer.customer_id
              m2 customers in
  let m4 := merge_left (fun r => OrderItem.order_id (fst (fst (fst r))))
              Review.order_id m3 reviews in
  map sales_row m4.

Definition filter_data_by_date (_data_loader : DataLoader.EcommerceDataLoader)
    (start_date end_date : Timestamp) : result (SalesFrame * list Order.t) :=
  orders <- table (DataLoader.orders _data_loader) ;;
  let filtered_orders := filter (in_window start_date end_date) orders in
  let delivered_orders := map delivered_order (filter is_delivered filtered_orders) in
  order_items <- table (DataLoader.order_items _data_loader) ;;
  products <- table (DataLoader.products _data_loader) ;;
  customers <- table (DataLoader.customers _data_loader) ;;
  reviews <- table (DataLoader.reviews _data_loader) ;;
  Ok (mkframe (merge_sales order_items delivered_orders products customers reviews) [],
      filtered_orders).

(** [df['price'].sum()] and [df['order_id'].nunique()]. *)
Definition price_sum (df : SalesFrame) : Q := sum (map SalesRow.price (rows df)).

Definition order_count (df : SalesFrame) : Z :=
  nunique (map SalesRow.order_id (rows df)).

(** [df['order_purchase_timestamp'].dt.to_period('M')]. *)
Definition year_month_of (df : SalesFrame) : list (option Period) :=
  map (fun r => option_map to_period_M (SalesRow.order_purchase_timestamp r)) (rows df).

(** The (key, price) pairs of the rows whose key is present: [groupby]
    drops the rows with a missing key. *)
Fixpoint keyed_prices (keys : list (option Period)) (rs : list SalesRow.t)
    : list (Z * Q) :=
  match keys, rs with
  | Some k :: keys', r :: rs' => (k, SalesRow.price r) :: keyed_prices keys' rs'
  | None :: keys', _ :: rs' => keyed_prices keys' rs'
  | _, _ => []
  end.

(** [df.groupby('year_month')['price'].sum()]. *)
Definition monthly_revenue (df : SalesFrame) : result (list (Period * Q)) :=
  match get_assoc "year_month" (assigned df) with
  | Some keys => Ok (groupby_sum (keyed_prices keys (rows df)))
  | None => Raise (KeyError "year_month")
  end.

(** [((current - previous) / previous * 100) if previous > 0 else 0] on
    float64 operands. *)
Definition growth (current previous : float64) : float64 :=
  if gt0 previous then mul (np_div (sub current previous) previous) (Fin 100)
  else Fin 0.

Record KPIs : Type := mkkpis {
  total_revenue : float64;
  revenue_growth : float64;
  monthly_growth : float64;
  avg_order_value : float64;
  aov_growth : float64;
  total_orders : Z;
  orders_growth : float64
}.

(** [calculate_kpis]; the two frames are returned as the call leaves
    them. *)
Definition calculate_kpis (current_data previous_data : SalesFrame)
    : result (KPIs * SalesFrame * SalesFrame) :=
  let current_revenue := Fin (price_sum current_data) in
  let previous_revenue :=
    if len previous_data >? 0 then Fin (price_sum previous_data) else Fin 0 in
  let current_orders := order_count current_data in
  let previous_orders :=
    if len previous_data >? 0 then order_count previous_data else 0 in
  let current_aov :=
    if current_orders >? 0 then np_div current_revenue (of_int current_orders)
    else Fin 0 in
  let previous_aov :=
    if previous_orders >? 0 then np_div previous_revenue (of_int previous_orders)
    else Fin 0 in
  let revenue_growth := growth current_revenue previous_revenue in
  let aov_growth := growth current_aov previous_aov in
  orders_growth <-
    (if previous_orders >? 0
     then ratio <- int_truediv (current_orders - previous_orders) previous_orders ;;
          Ok (mul ratio (Fin 100))
     else Ok (Fin 0)) ;;
  let current_data := setitem current_data "year_month" (year_month_of current_data) in
  let previous_data :=
    setitem previous_data "year_month"
      (if len previous_data >? 0 then year_month_of previous_data else []) in
  current_monthly <- monthly_revenue current_data ;;
  _ <- (if len previous_data >? 0
        then monthly_revenue previous_data else Ok []) ;;
  let monthly_growth :=
    match rev current_monthly with
    | (_, latest_month) :: (_, prev_month) :: _ =>
        growth (Fin latest_month) (Fin prev_month)
    | _ => Fin 0
    end in
  Ok (mkkpis current_revenue revenue_growth monthly_growth current_aov
        aov_growth current_orders orders_growth,
      current_data, previous_data).

(** A line of the revenue trend figure: its name, months and revenues. *)
Record Trace : Type := mktrace {
  trace_name : string;
  trace_x : list Period;
  trace_y : list Q
}.

(** [create_revenue_trend_chart]; the two frames are returned as the call
    leaves them.  The previous period is drawn one year later. *)
Definition create_revenue_trend_chart (current_data previous_data : SalesFrame)
    : result (list Trace * SalesFrame * SalesFrame) :=
  let current_data := setitem current_data "year_month" (year_month_of current_data) in
  current_monthly <- monthly_revenue current_data ;;
  let fig := [mktrace "Current Period" (map fst current_monthly)
                (map snd current_monthly)] in
  if len previous_data >? 0
  then
    let previous_data :=
      setitem previous_data "year_month" (year_month_of previous_data) in
    previous_monthly <- monthly_revenue previous_data ;;
    match previous_monthly with
    | [] => Ok (fig, current_data, previous_data)
    | _ =>
        Ok ((fig ++ [mktrace "Previous Period"
                       (map (fun m => fst m + 12) previous_monthly)
                       (map snd previous_monthly)])%list,
            current_data, previous_data)
    end
  else Ok (fig, current_data, previous_data).

(** [pd.cut(days, bins=[0, 3, 7, 14, inf], labels=[...])]: the intervals
    are open on the left and closed on the right; a value outside all of
    them has no category. *)
Definition cut_delivery_days (days : Z) : option string :=
  if days <=? 0 then None
  else if days <=? 3 then Some "1-3 days"
  else if days <=? 7 then Some "4-7 days"
  else if days <=? 14 then Some "8-14 days"
  else Some "15+ days".

Definition delivery_bucket_labels : list string :=
  ["1-3 days"; "4-7 days"; "8-14 days"; "15+ days"].

Definition has_column (df : SalesFrame) (name : string) : bool :=
  existsb (String.eqb name) (columns df).

(** [data.dropna(subset=['review_score', 'delivery_days'])], as the pairs
    (delivery_days, review_score) of the rows kept. *)
Definition dropna_reviews_delivery (rs : list SalesRow.t) : list (Z * Z) :=
  flat_map
    (fun r =>
       match SalesRow.delivery_days r, SalesRow.review_score r with
       | Some d, Some s => [(d, s)]
       | _, _ => []
       end)
    rs.

Definition in_bucket (label : string) (r : Z * Z) : bool :=
  match cut_delivery_days (fst r) with
  | Some l => String.eqb l label
  | None => false
  end.

(** [groupby('delivery_bucket')['review_score'].mean()]: the bucket is a
    categorical column and the call passes no [observed=], so pandas'
    default decides what becomes of a category without rows.  With
    [observed=False] (the default before pandas 3) every category of the
    cut has an entry, NaN for one without rows; with [observed=True] (the
    default since) only the categories that have a row do.  The entries
    follow the order of the categories, and a row whose value got no
    category is in no group. *)
Definition satisfaction_by_delivery (observed : bool)
    (data_with_reviews : list (Z * Z)) : list (string * float64) :=
  flat_map
    (fun label =>
       match filter (in_bucket label) data_with_reviews with
       | [] => if observed then [] else [(label, NaN)]
       | group => [(label, mean (map (fun r => inject_Z (snd r)) group))]
       end)
    delivery_bucket_labels.

Inductive SatisfactionChart : Type :=
| Annotation (text : string)
| Bars (bars : list (string * float64)).

Definition create_satisfaction_delivery_chart (observed : bool)
    (data : SalesFrame) : SatisfactionChart :=
  if negb (has_column data "review_score") || negb (has_column data "delivery_days")
  then Annotation "No delivery or review data available for selected period"
  else
    match dropna_reviews_delivery (rows data) with
    | [] => Annotation "No data available with both delivery and review information"
    | data_with_reviews => Bars (satisfaction_by_delivery observed data_with_reviews)
    end.

Inductive star : Type := Filled | Hollow.

Inductive ReviewCard : Type :=
| ReviewScore (avg_review : Q) (stars : list star)
| NoReviewData.

(** [data.dropna(subset=['review_score'])['review_score']]. *)
Definition review_scores (rs : list SalesRow.t) : list Q :=
  flat_map
    (fun r => match SalesRow.review_score r with
              | Some s => [inject_Z s]
              | None => []
              end)
    rs.

Definition has_reviews (data : SalesFrame) : bool :=
  has_column data "review_score"
  && existsb (fun r => match SalesRow.review_score r with
                       | Some _ => true
                       | None => false
                       end) (rows data).

(** ["x" * n]: empty for a negative [n]. *)
Definition str_repeat (s : star) (n : Z) : list star := repeat s (Z.to_nat n).

(** The review card of [create_bottom_cards]. *)
Definition review_card (data : SalesFrame) : result ReviewCard :=
  if has_reviews data
  then
    match mean (review_scores (rows data)) with
    | Fin avg_review =>
        Ok (ReviewScore avg_review
              (str_repeat Filled (round avg_review)
               ++ str_repeat Hollow (5 - round avg_review))%list)
    | _ => Raise (ValueError "cannot convert float NaN to integer")
    end
  else Ok NoReviewData.

Inductive DeliveryCard : Type :=
| DeliveryTime (avg_delivery delivery_trend : float64)
| NoDeliveryData.

Definition has_delivery (data : SalesFrame) : bool :=
  has_column data "delivery_days"
  && existsb (fun r => match SalesRow.delivery_days r with
                       | Some _ => true
                       | None => false
                       end) (rows data).

(** [data.dropna(subset=['delivery_days'])], as the pairs (purchase month,
    delivery_days) of the rows kept. *)
Definition dropna_delivery (rs : list SalesRow.t) : list (option Period * Z) :=
  flat_map
    (fun r =>
       match SalesRow.delivery_days r with
       | Some d => [(option_map to_period_M (SalesRow.order_purchase_timestamp r), d)]
       | None => []
       end)
    rs.

(** [Series.max()] of a column of periods; NaT is skipped. *)
Definition max_period (ps : list (option Period)) : option Period :=
  fold_left
    (fun acc p =>
       match acc, p with
       | Some a, Some b => Some (Z.max a b)
       | None, _ => p
       | _, None => acc
       end)
    ps None.

Definition delivery_mean (rs : list (option Period * Z)) : float64 :=
  mean (map (fun r => inject_Z (snd r)) rs).

Definition in_month (m : option Period) (r : option Period * Z) : bool :=
  match m, fst r with
  | Some a, Some b => a =? b
  | _, _ => false
  end.

(** The delivery card of [create_bottom_cards]. *)
Definition delivery_card (data : SalesFrame) : DeliveryCard :=
  if has_delivery data
  then
    let data_with_delivery := dropna_delivery (rows data) in
    let avg_delivery := delivery_mean data_with_delivery in
    let delivery_trend :=
      if has_column data "order_purchase_timestamp"
      then
        let latest := max_period (map fst data_with_delivery) in
        let current_month_data := filter (in_month latest) data_with_delivery in
        let prev_month_data :=
          filter (in_month (option_map (fun m => m - 1) latest)) data_with_delivery in
        let current_delivery :=
          match current_month_data with
          | [] => avg_delivery
          | _ => delivery_mean current_month_data
          end in
        let prev_delivery :=
          match prev_month_data with
          | [] => avg_delivery
          | _ => delivery_mean prev_month_data
          end in
        if gt0 prev_delivery
        then mul (np_div (sub prev_delivery current_delivery) prev_delivery) (Fin 100)
        else Fin 0
      else Fin 0 in
    DeliveryTime avg_delivery delivery_trend
  else NoDeliveryData.

Definition create_bottom_cards (data : SalesFrame)
    : result (DeliveryCard * ReviewCard) :=
  review <- review_card data ;;
  Ok (delivery_card data, review).

Definition Window : Type := (Timestamp * Timestamp)%type.

(** What a run of [main] shows: the error banner, or the dashboard. *)
Inductive Page (A : Type) : Type :=
| StError (msg : string)
| Dashboard (a : A).
Arguments StError {A} msg.
Arguments Dashboard {A} a.

Definition period_length (start_date end_date : date) : Z :=
  timedelta_days (Timestamp_of_date end_date) (Timestamp_of_date start_date).

Definition previous_start (start_date end_date : date) : Timestamp :=
  minus_days (Timestamp_of_date start_date) (period_length start_date end_date).

Definition previous_end (start_date : date) : Timestamp :=
  minus_days (Timestamp_of_date start_date) 1.

(** The date-range check of [main] and the two windows it queries. *)
Definition windows (start_date end_date : date) : Page (Window * Window) :=
  if date_geb start_date end_date
  then StError "Start date must be before end date"
  else Dashboard
         ((Timestamp_of_date start_date, Timestamp_of_date end_date),
          (previous_start start_date end_date, previous_end start_date)).

Record Figures : Type := mkfigures {
  current_window : Window;
  previous_window : Window;
  kpis : KPIs;
  revenue_chart : list Trace;
  satisfaction_chart : SatisfactionChart;
  bottom_cards : DeliveryCard * ReviewCard;
  current_data_after : SalesFrame;
  previous_data_after : SalesFrame
}.

(** [main], from the date inputs on: the KPI row, the revenue trend, the
    satisfaction chart and the two bottom cards.  [observed] is the default
    of the installed pandas for grouping by a categorical column. *)
Definition main (observed : bool) (data_loader : DataLoader.EcommerceDataLoader)
    (start_date end_date : date) : result (Page Figures) :=
  match windows start_date end_date with
  | StError msg => Ok (StError msg)
  | Dashboard (current, previous) =>
      cur <- filter_data_by_date data_loader (fst current) (snd current) ;;
      let current_data := fst cur in
      prev <- filter_data_by_date data_loader (fst previous) (snd previous) ;;
      let previous_data := fst prev in
      k <- calculate_kpis current_data previous_data ;;
      let '(kpis, current_data, previous_data) := k in
      c <- create_revenue_trend_chart current_data previous_data ;;
      let '(revenue_chart, current_data, previous_data) := c in
      let satisfaction_chart :=
        create_satisfaction_delivery_chart observed current_data in
      cards <- create_bottom_cards current_data ;;
      Ok (Dashboard
            (mkfigures current previous kpis revenue_chart satisfaction_chart
               cards current_data previous_data))
  end.

(** [create_category_chart]: the series behind the bars, the ten
    categories of the highest revenue, by their names as in the data. *)
Definition create_category_chart
    (sort_values : list (string * Q) -> list (string * Q)) (data : SalesFrame)
    : list (string * Q) :=
  firstn 10
    (sort_values
       (groupby_label_sum
          (labelled SalesRow.product_category_name SalesRow.price (rows data)))).

(** [create_state_map]: the locations of the map and the revenue of each. *)
Record Choropleth : Type := mkchoropleth {
  locations : list string;
  z : list Q
}.

Definition create_state_map (data : SalesFrame) : Choropleth :=
  let state_revenue :=
    groupby_label_sum (labelled SalesRow.customer_state SalesRow.price (rows data)) in
  mkchoropleth (map fst state_revenue) (map snd state_revenue).

End App.

(* ================================================================== *)
(** ** Measures and sample data used in the statements                  *)
(* ================================================================== *)

Module Samples.
Import Py Calendar Tables.
Local Open Scope string_scope.
Local Open Scope Z_scope.

(** All five tables are loaded. *)
Definition is_loaded (l : DataLoader.EcommerceDataLoader) : bool :=
  match DataLoader.orders l, DataLoader.order_items l, DataLoader.products l,
        DataLoader.customers l, DataLoader.reviews l with
  | Some _, Some _, Some _, Some _, Some _ => true
  | _, _, _, _, _ => false
  end.

(** The length of a window in calendar days, both end days counted. *)
Definition window_days (w : App.Window) : Z :=
  timedelta_days (snd w) (fst w) + 1.

(** A fact row with the given order, product, customer, price, purchase
    time, delivery days and review score. *)
Definition fact (order product customer : string) (price : Q)
    (purchased : option Timestamp) (days score : option Z) : SalesRow.t :=
  SalesRow.mk order 1 product price 0%Q customer "delivered" purchased days
    None None None score.

Definition noon (y m d : Z) : option Timestamp :=
  Some (Timestamp_of_date (mkdate y m d) + 43200).

(** Two orders in January and February 2023, 100 and 50. *)
Definition two_orders : SalesFrame :=
  mkframe
    [fact "o1" "p1" "c1" 100%Q (noon 2023 1 10) (Some 3) (Some 2);
     fact "o2" "p2" "c2" 50%Q (noon 2023 2 10) (Some 14) (Some 3)]
    [].

Definition empty_frame : SalesFrame := mkframe [] [].

(** A loader whose tables are all loaded and empty. *)
Definition empty_loader : DataLoader.EcommerceDataLoader :=
  DataLoader.mkloader "ecommerce_data/" (Some []) (Some []) (Some []) (Some [])
    (Some []).

(** A loader that knows product [p1] and customer [c1] only. *)
Definition small_loader : DataLoader.EcommerceDataLoader :=
  DataLoader.mkloader "ecommerce_data/"
    (Some [Order.mk "o1" "c1" "delivered" (noon 2023 1 10) (noon 2023 1 13) None;
           Order.mk "o2" "c2" "delivered" (noon 2023 2 10) (noon 2023 2 24) None])
    (Some [OrderItem.mk "o1" 1 "p1" 100%Q 0%Q; OrderItem.mk "o2" 1 "p2" 50%Q 0%Q])
    (Some [Product.mk "p1" (Some "toys")])
    (Some [Customer.mk "c1" "SP" "sao paulo"])
    (Some []).

(** A data directory with every required file but the reviews and the
    customers. *)
Definition three_files : DataLoader.FileSystem :=
  fun p =>
    if String.eqb p "ecommerce_data/" then Some DataLoader.Dir
    else if String.eqb p "ecommerce_data/orders_dataset.csv"
    then Some (DataLoader.File (DataLoader.OrdersCsv []))
    else if String.eqb p "ecommerce_data/order_items_dataset.csv"
    then Some (DataLoader.File (DataLoader.OrderItemsCsv []))
    else if String.eqb p "ecommerce_data/products_dataset.csv"
    then Some (DataLoader.File (DataLoader.ProductsCsv []))
    else None.

Definition no_files : DataLoader.FileSystem := fun _ => None.

(** The data directory with all five files, each an empty table. *)
Definition all_files : DataLoader.FileSystem :=
  fun p =>
    if String.eqb p "ecommerce_data/customers_dataset.csv"
    then Some (DataLoader.File (DataLoader.CustomersCsv []))
    else if String.eqb p "ecommerce_data/order_reviews_dataset.csv"
    then Some (DataLoader.File (DataLoader.ReviewsCsv []))
    else three_files p.

(** What [datetime.date(year, month, day)] accepts. *)
Definition valid_date (d : date) : bool :=
  (1 <=? year d) && (1 <=? month d) && (month d <=? 12)
  && (1 <=? day d) && (day d <=? days_in_month (year d) (month d)).

(** The frames [calculate_kpis] leaves behind. *)
Definition current_after (current_data : SalesFrame) : SalesFrame :=
  setitem current_data "year_month" (App.year_month_of current_data).

Definition previous_after (previous_data : SalesFrame) : SalesFrame :=
  setitem previous_data "year_month"
    (if len previous_data >? 0 then App.year_month_of previous_data else []).

(** A fact row of a category and a state. *)
Definition sale (order category state : string) (price : Q) : SalesRow.t :=
  SalesRow.mk order 1 "p" price 0%Q "c" "delivered" None None
    (Some category) (Some state) None None.

Definition three_sales : SalesFrame :=
  mkframe [sale "o1" "toys" "SP" 10%Q; sale "o2" "books" "RJ" 30%Q;
           sale "o3" "toys" "SP" 5%Q] [].

(** A [sort_values(ascending=False)]: insertion from the right, an entry
    going before the first one that is not greater. *)
Fixpoint insert_descending (x : string * Q) (sorted : list (string * Q))
    : list (string * Q) :=
  match sorted with
  | [] => [x]
  | y :: rest =>
      if Qle_bool (snd y) (snd x) then x :: y :: rest
      else y :: insert_descending x rest
  end.

Definition insertion_sort_values (series : list (string * Q)) : list (string * Q) :=
  fold_right insert_descending [] series.

End Samples.

(* ================================================================== *)
(** ** Properties                                                       *)
(* ================================================================== *)

Import Py Calendar Tables Samples.
Local Open Scope string_scope.
Local Open Scope Z_scope.

(** *** Delivery speed labels *)

(** C10: [categorize_delivery_speed] is defined on every integer and
    answers with one of three labels: ['1-3 days'] for [days <= 3] (zero
    and negative counts included), ['4-7 days'] for [3 < days <= 7] and
    ['8+ days'] for [days > 7]. *)
Theorem categorize_delivery_speed_total (days : Z) :
  (days <= 3 -> DataLoader.categorize_delivery_speed days = "1-3 days")
  /\ (3 < days <= 7 -> DataLoader.categorize_delivery_speed days = "4-7 days")
  /\ (7 < days -> DataLoader.categorize_delivery_speed days = "8+ days")
  /\ In (DataLoader.categorize_delivery_speed days)
        ["1-3 days"; "4-7 days"; "8+ days"].
Proof.
  unfold DataLoader.categorize_delivery_speed.
  destruct (Z.leb_spec days 3) as [H3 | H3];
    [ | destruct (Z.leb_spec days 7) as [H7 | H7] ].
  - repeat split; intros; try lia; simpl; auto.
  - repeat split; intros; try lia; simpl; auto.
  - repeat split; intros; try lia; simpl; auto.
Qed.

Example categorize_delivery_speed_corrupt :
  map DataLoader.categorize_delivery_speed [-400; -1; 0; 3; 4; 7; 8; 1000]
  = ["1-3 days"; "1-3 days"; "1-3 days"; "1-3 days";
     "4-7 days"; "4-7 days"; "8+ days"; "8+ days"].
Proof. reflexivity. Qed.

(** *** Frames: assigned columns *)

Lemma get_set_assoc {V : Type} (name : string) (v : V) (cols : list (string * V)) :
  get_assoc name (set_assoc name v cols) = Some v.
Proof.
  induction cols as [| [n w] rest IH]; simpl.
  - now rewrite String.eqb_refl.
  - destruct (String.eqb n name) eqn:E; simpl; rewrite E; auto.
Qed.

Lemma get_set_assoc_other {V : Type} (name other : string) (v : V)
    (cols : list (string * V)) :
  other <> name -> get_assoc other (set_assoc name v cols) = get_assoc other cols.
Proof.
  intros Hne.
  induction cols as [| [n w] rest IH]; simpl.
  - destruct (String.eqb_spec name other); congruence.
  - destruct (String.eqb_spec n name) as [-> | Hn]; simpl.
    + destruct (String.eqb_spec name other); congruence.
    + destruct (String.eqb_spec n other); auto.
Qed.

Lemma set_assoc_twice {V : Type} (name : string) (v w : V) (cols : list (string * V)) :
  set_assoc name w (set_assoc name v cols) = set_assoc name w cols.
Proof.
  induction cols as [| [n u] rest IH]; simpl.
  - now rewrite String.eqb_refl.
  - destruct (String.eqb n name) eqn:E; simpl; rewrite E; congruence.
Qed.

Lemma setitem_twice (df : SalesFrame) (name : string) (v w : list (option Period)) :
  setitem (setitem df name v) name w = setitem df name w.
Proof. unfold setitem; simpl. now rewrite set_assoc_twice. Qed.

Lemma monthly_revenue_setitem (df : SalesFrame) (keys : list (option Period)) :
  App.monthly_revenue (setitem df "year_month" keys)
  = Ok (groupby_sum (App.keyed_prices keys (rows df))).
Proof.
  unfold App.monthly_revenue, setitem; simpl assigned.
  now rewrite get_set_assoc.
Qed.

(** *** The guarded divisions of [calculate_kpis] *)

Lemma Qltb_true (a b : Q) : Qltb a b = true <-> (a < b)%Q.
Proof.
  unfold Qltb. rewrite negb_true_iff.
  split; intros H.
  - apply Qnot_le_lt. intros Hle. apply Qle_bool_iff in Hle. congruence.
  - destruct (Qle_bool b a) eqn:E; auto.
    apply Qle_bool_iff in E. exfalso. now apply (Qlt_not_le a b).
Qed.

Lemma Qltb_false (a b : Q) : Qltb a b = false <-> (b <= a)%Q.
Proof.
  unfold Qltb. rewrite negb_false_iff. apply Qle_bool_iff.
Qed.

Lemma Qeq_bool_pos (p : Q) : (0 < p)%Q -> Qeq_bool p 0 = false.
Proof.
  intros Hp. destruct (Qeq_bool p 0) eqn:E; auto.
  apply Qeq_bool_iff in E. rewrite E in Hp. now apply Qlt_irrefl in Hp.
Qed.

Lemma growth_spec (c p : Q) :
  App.growth (Fin c) (Fin p)
  = if Qltb 0 p then Fin ((c - p) / p * 100) else Fin 0.
Proof.
  unfold App.growth; simpl.
  destruct (Qltb 0 p) eqn:E; auto.
  apply Qltb_true in E. now rewrite (Qeq_bool_pos p E).
Qed.

Lemma growth_finite (c p : Q) : is_finite (App.growth (Fin c) (Fin p)) = true.
Proof. rewrite growth_spec. now destruct (Qltb 0 p). Qed.

Lemma orders_growth_spec (current_orders previous_orders : Z) :
  (if previous_orders >? 0
   then ratio <- int_truediv (current_orders - previous_orders) previous_orders ;;
        Ok (mul ratio (Fin 100))
   else Ok (Fin 0))
  = Ok (if previous_orders >? 0
        then Fin (inject_Z (current_orders - previous_orders)
                  / inject_Z previous_orders * 100)
        else Fin 0).
Proof.
  destruct (Z.gtb_spec previous_orders 0) as [H | H]; auto.
  unfold int_truediv.
  destruct (Z.eqb_spec previous_orders 0); [lia | reflexivity].
Qed.

Lemma inject_Z_pos_nonzero (n : Z) : n > 0 -> Qeq_bool (inject_Z n) 0 = false.
Proof.
  intros Hn. apply Qeq_bool_pos.
  change 0%Q with (inject_Z 0). rewrite <- Zlt_Qlt. lia.
Qed.

Lemma previous_totals (previous_data : SalesFrame) :
  (if len previous_data >? 0 then Fin (App.price_sum previous_data) else Fin 0)
  = Fin (App.price_sum previous_data)
  /\ (if len previous_data >? 0 then App.order_count previous_data else 0)
     = App.order_count previous_data.
Proof.
  unfold len, App.price_sum, App.order_count.
  destruct (rows previous_data); simpl; auto.
Qed.

(** [calculate_kpis] never raises, and its seven numbers are these. *)
Lemma calculate_kpis_runs (current_data previous_data : SalesFrame) :
  exists k,
    App.calculate_kpis current_data previous_data
    = Ok (k, current_after current_data, previous_after previous_data)
    /\ App.total_revenue k = Fin (App.price_sum current_data)
    /\ App.total_orders k = App.order_count current_data
    /\ App.avg_order_value k
       = (if App.order_count current_data >? 0
          then Fin (App.price_sum current_data
                    / inject_Z (App.order_count current_data))
          else Fin 0)
    /\ App.revenue_growth k
       = App.growth (Fin (App.price_sum current_data))
           (Fin (App.price_sum previous_data))
    /\ App.orders_growth k
       = (if App.order_count previous_data >? 0
          then Fin (inject_Z (App.order_count current_data
                              - App.order_count previous_data)
                    / inject_Z (App.order_count previous_data) * 100)
          else Fin 0)
    /\ App.aov_growth k
       = App.growth (App.avg_order_value k)
           (if App.order_count previous_data >? 0
            then Fin (App.price_sum previous_data
                      / inject_Z (App.order_count previous_data))
            else Fin 0).
Proof.
  destruct (previous_totals previous_data) as [Hrev Hord].
  unfold App.calculate_kpis. cbv zeta.
  rewrite Hrev, Hord, orders_growth_spec. cbn [bind].
  rewrite monthly_revenue_setitem. cbn [bind].
  assert (Hprev :
    exists m, (if len (setitem previous_data "year_month"
                         (if len previous_data >? 0
                          then App.year_month_of previous_data else [])) >? 0
               then App.monthly_revenue
                      (setitem previous_data "year_month"
                         (if len previous_data >? 0
                          then App.year_month_of previous_data else []))
               else Ok []) = Ok m).
  { destruct (len _ >? 0); [rewrite monthly_revenue_setitem |]; eauto. }
  destruct Hprev as [m Hm]. rewrite Hm. cbn [bind].
  eexists. split; [reflexivity |].
  cbn [App.total_revenue App.total_orders App.avg_order_value
       App.revenue_growth App.orders_growth App.aov_growth].
  assert (Haov : forall df,
    (if App.order_count df >? 0
     then np_div (Fin (App.price_sum df)) (of_int (App.order_count df))
     else Fin 0)
    = (if App.order_count df >? 0
       then Fin (App.price_sum df / inject_Z (App.order_count df))
       else Fin 0)).
  { intros df. destruct (Z.gtb_spec (App.order_count df) 0) as [H | H]; auto.
    unfold np_div, of_int. rewrite inject_Z_pos_nonzero by lia. reflexivity. }
  rewrite !Haov. repeat split; reflexivity.
Qed.

(** Running [calculate_kpis] on the frames it left behind gives the same
    result and leaves them as they are. *)
Lemma calculate_kpis_again (current_data previous_data : SalesFrame) :
  App.calculate_kpis (current_after current_data) (previous_after previous_data)
  = App.calculate_kpis current_data previous_data.
Proof.
  unfold App.calculate_kpis, current_after, previous_after.
  cbv zeta.
  unfold App.price_sum, App.order_count, App.year_month_of, len.
  cbn [rows setitem].
  change (set_assoc "year_month" ?v (set_assoc "year_month" ?w ?c))
    with (set_assoc "year_month" v (set_assoc "year_month" w c)).
  unfold setitem. cbn [rows assigned].
  rewrite !set_assoc_twice. reflexivity.
Qed.

(** *** The charts and cards never raise *)

Lemma year_month_of_setitem (df : SalesFrame) (name : string)
    (v : list (option Period)) :
  App.year_month_of (setitem df name v) = App.year_month_of df.
Proof. reflexivity. Qed.

Lemma len_setitem (df : SalesFrame) (name : string) (v : list (option Period)) :
  len (setitem df name v) = len df.
Proof. reflexivity. Qed.

Lemma current_after_again (df : SalesFrame) :
  setitem (current_after df) "year_month" (App.year_month_of (current_after df))
  = current_after df.
Proof. unfold current_after. now rewrite year_month_of_setitem, setitem_twice. Qed.

Lemma previous_after_again (df : SalesFrame) :
  (len df >? 0) = true ->
  setitem (previous_after df) "year_month" (App.year_month_of (previous_after df))
  = previous_after df.
Proof.
  intros Hlen. unfold previous_after.
  now rewrite year_month_of_setitem, setitem_twice, Hlen.
Qed.

(** [create_revenue_trend_chart] never raises; it writes the column into
    the current frame, and into the previous frame when that has rows. *)
Lemma create_revenue_trend_chart_frames (current_data previous_data : SalesFrame) :
  exists fig,
    App.create_revenue_trend_chart current_data previous_data
    = Ok (fig, current_after current_data,
          if len previous_data >? 0 then previous_after previous_data
          else previous_data).
Proof.
  unfold App.create_revenue_trend_chart. cbv zeta.
  rewrite monthly_revenue_setitem. cbn [bind].
  unfold previous_after, current_after.
  destruct (len previous_data >? 0) eqn:Hlen.
  - rewrite monthly_revenue_setitem. cbn [bind].
    destruct (groupby_sum _); eauto.
  - eauto.
Qed.

(** After [calculate_kpis], [create_revenue_trend_chart] returns a figure
    and writes back the column that is already there. *)
Lemma create_revenue_trend_chart_runs (current_data previous_data : SalesFrame) :
  exists fig,
    App.create_revenue_trend_chart (current_after current_data)
      (previous_after previous_data)
    = Ok (fig, current_after current_data, previous_after previous_data).
Proof.
  unfold App.create_revenue_trend_chart. cbv zeta.
  rewrite current_after_again.
  unfold current_after at 1. rewrite monthly_revenue_setitem. cbn [bind].
  unfold previous_after at 1. rewrite len_setitem.
  destruct (len previous_data >? 0) eqn:Hlen.
  - rewrite (previous_after_again _ Hlen).
    unfold previous_after at 1. rewrite monthly_revenue_setitem. cbn [bind].
    destruct (groupby_sum _); eauto.
  - eauto.
Qed.

Lemma review_scores_nonempty (rs : list SalesRow.t) :
  existsb (fun r => match SalesRow.review_score r with
                    | Some _ => true
                    | None => false
                    end) rs = true ->
  App.review_scores rs <> [].
Proof.
  induction rs as [| r rs IH]; simpl; [discriminate |].
  unfold App.review_scores; simpl.
  destruct (SalesRow.review_score r); simpl; [discriminate | exact IH].
Qed.

Lemma mean_nonempty (xs : list Q) :
  xs <> [] -> mean xs = Fin (sum xs / inject_Z (Z.of_nat (List.length xs))).
Proof. destruct xs; [congruence | reflexivity]. Qed.

(** [create_bottom_cards] never raises: with a review present the mean is a
    number, so [round] is defined on it. *)
Lemma create_bottom_cards_runs (data : SalesFrame) :
  exists cards, App.create_bottom_cards data = Ok cards.
Proof.
  unfold App.create_bottom_cards, App.review_card.
  destruct (App.has_reviews data) eqn:Hrev; cbn [bind]; eauto.
  unfold App.has_reviews in Hrev. apply andb_true_iff in Hrev as [_ Hany].
  rewrite (mean_nonempty _ (review_scores_nonempty _ Hany)). cbn [bind]. eauto.
Qed.

Lemma filter_data_by_date_runs (l : DataLoader.EcommerceDataLoader)
    (start_date end_date : Timestamp) :
  is_loaded l = true ->
  exists sales filtered,
    App.filter_data_by_date l start_date end_date = Ok (sales, filtered).
Proof.
  unfold is_loaded, App.filter_data_by_date.
  destruct (DataLoader.orders l), (DataLoader.order_items l),
    (DataLoader.products l), (DataLoader.customers l), (DataLoader.reviews l);
    try discriminate.
  intros _. cbn [App.table bind]. eauto.
Qed.

(** With the tables loaded and the dates in order, [main] draws the
    dashboard for the two windows. *)
Lemma main_runs (observed : bool) (l : DataLoader.EcommerceDataLoader)
    (start_date end_date : date) :
  is_loaded l = true ->
  date_geb start_date end_date = false ->
  exists figs,
    App.main observed l start_date end_date = Ok (App.Dashboard figs)
    /\ App.current_window figs
       = (Timestamp_of_date start_date, Timestamp_of_date end_date)
    /\ App.previous_window figs
       = (App.previous_start start_date end_date, App.previous_end start_date).
Proof.
  intros Hl Hdates. unfold App.main, App.windows. rewrite Hdates.
  cbn [fst snd].
  destruct (filter_data_by_date_runs l (Timestamp_of_date start_date)
              (Timestamp_of_date end_date) Hl) as (cur & fo & ->).
  destruct (filter_data_by_date_runs l (App.previous_start start_date end_date)
              (App.previous_end start_date) Hl) as (prev & fo' & ->).
  cbn [bind fst].
  destruct (calculate_kpis_runs cur prev) as (k & -> & _). cbn [bind].
  destruct (create_revenue_trend_chart_runs cur prev) as (fig & ->). cbn [bind].
  destruct (create_bottom_cards_runs (current_after cur)) as (cards & ->).
  cbn [bind]. eexists. repeat split.
Qed.

(** *** The date-range check and the previous window *)

Lemma timedelta_days_midnights (a b : Z) :
  timedelta_days (a * seconds_per_day) (b * seconds_per_day) = a - b.
Proof.
  unfold timedelta_days, seconds_per_day.
  replace (a * 86400 - b * 86400) with ((a - b) * 86400) by lia.
  apply Z.div_mul. lia.
Qed.

Lemma date_of_midnight (n : Z) :
  date_of_Timestamp (n * seconds_per_day) = fromordinal n.
Proof.
  unfold date_of_Timestamp, seconds_per_day. now rewrite Z.div_mul by lia.
Qed.




(** C3: what [main] computes.  For start before end the previous window
    ends one day before the current window starts, as the design asks, but
    it starts only [end - start] days before it: [period_length] leaves the
    end date out of the count, so the previous window always holds one
    calendar day less than the current one, where the design asks for
    windows of equal length. *)
Theorem previous_window_resolved (start_date end_date : date) :
  date_ltb start_date end_date = true ->
  exists current previous,
    App.windows start_date end_date = App.Dashboard (current, previous)
    /\ current = (Timestamp_of_date start_date, Timestamp_of_date end_date)
    /\ snd previous = minus_days (fst current) 1
    /\ fst previous
       = minus_days (fst current) (timedelta_days (snd current) (fst current))
    /\ date_of_Timestamp (snd previous) = fromordinal (toordinal start_date - 1)
    /\ date_of_Timestamp (fst previous)
       = fromordinal (toordinal start_date
                      - (toordinal end_date - toordinal start_date))
    /\ window_days previous = window_days current - 1.
Proof.
  intros Hlt. unfold App.windows, date_geb. rewrite Hlt. cbn [negb].
  do 2 eexists. split; [reflexivity |]. split; [reflexivity |].
  cbn [fst snd].
  unfold App.previous_end, App.previous_start, App.period_length, window_days,
    minus_days, Timestamp_of_date.
  cbn [fst snd]. rewrite !timedelta_days_midnights.
  set (s := toordinal start_date). set (e := toordinal end_date).
  replace (s * seconds_per_day - 1 * seconds_per_day)
    with ((s - 1) * seconds_per_day) by lia.
  replace (s * seconds_per_day - (e - s) * seconds_per_day)
    with ((s - (e - s)) * seconds_per_day) by lia.
  rewrite !date_of_midnight, !timedelta_days_midnights.
  repeat split; lia.
Qed.

Lemma previous_window_resolved_witness :
  date_ltb (mkdate 2023 1 1) (mkdate 2023 6 30) = true
  /\ exists current previous,
       App.windows (mkdate 2023 1 1) (mkdate 2023 6 30)
       = App.Dashboard (current, previous)
       /\ date_of_Timestamp (fst previous) = mkdate 2022 7 5
       /\ date_of_Timestamp (snd previous) = mkdate 2022 12 31
       /\ window_days previous = window_days current - 1.
Proof.
  split; [reflexivity |].
  destruct (previous_window_resolved (mkdate 2023 1 1) (mkdate 2023 6 30)
              eq_refl)
    as (current & previous & Hw & _ & _ & _ & Hend & Hstart & Hdays).
  exists current, previous.
  split; [exact Hw |].
  split; [rewrite Hstart; vm_compute; reflexivity |].
  split; [rewrite Hend; vm_compute; reflexivity | exact Hdays].
Defined.

(** C3 on its own example: the window 2023-01-01 to 2023-06-30 holds 181
    days; the previous window the code queries is 2022-07-05 to 2022-12-31
    and holds 180.  A previous window of 181 days would start on
    2022-07-04. *)
Lemma previous_window_example :
  match App.windows (mkdate 2023 1 1) (mkdate 2023 6 30) with
  | App.Dashboard (current, previous) =>
      window_days current = 181
      /\ window_days previous = 180
      /\ date_of_Timestamp (fst previous) = mkdate 2022 7 5
      /\ date_of_Timestamp (snd previous) = mkdate 2022 12 31
      /\ window_days previous <> window_days current
      /\ date_of_Timestamp (fst previous) <> mkdate 2022 7 3
      /\ date_of_Timestamp (minus_days (fst current) (window_days current))
         = mkdate 2022 7 4
  | App.StError _ => False
  end.
Proof.
  vm_compute. repeat split; discriminate.
Qed.

(** *** What the metrics pass does to the fact tables *)

(** C8 as stated fails: [calculate_kpis] assigns a ['year_month'] column to
    both frames it is given, the empty previous frame included. *)
Lemma calculate_kpis_adds_column :
  match App.calculate_kpis two_orders empty_frame with
  | Ok (_, current_data, previous_data) =>
      columns current_data = (columns two_orders ++ ["year_month"])%list
      /\ assigned two_orders = []
      /\ assigned current_data = [("year_month", [Some 24276; Some 24277])]
      /\ assigned empty_frame = []
      /\ assigned previous_data = [("year_month", [])]
      /\ current_data <> two_orders
      /\ previous_data <> empty_frame
  | Raise _ => False
  end.
Proof. vm_compute. repeat split; discriminate. Qed.

(** C8, as the code has it: [calculate_kpis] and
    [create_revenue_trend_chart] write one column, ['year_month'], into the
    frames they are given; rows and every other assigned column stay as
    they were, and a second pass over the frames computes the same numbers
    and leaves the frames as the first pass left them. *)
Theorem metrics_pass_frame_effect (current_data previous_data : SalesFrame) :
  exists k fig,
    App.calculate_kpis current_data previous_data
    = Ok (k, current_after current_data, previous_after previous_data)
    /\ App.create_revenue_trend_chart (current_after current_data)
         (previous_after previous_data)
       = Ok (fig, current_after current_data, previous_after previous_data)
    /\ App.calculate_kpis (current_after current_data)
         (previous_after previous_data)
       = Ok (k, current_after current_data, previous_after previous_data)
    /\ rows (current_after current_data) = rows current_data
    /\ rows (previous_after previous_data) = rows previous_data
    /\ (forall name, name <> "year_month" ->
        get_assoc name (assigned (current_after current_data))
        = get_assoc name (assigned current_data)
        /\ get_assoc name (assigned (previous_after previous_data))
           = get_assoc name (assigned previous_data))
    /\ get_assoc "year_month" (assigned (current_after current_data))
       = Some (map (fun r => option_map to_period_M
                               (SalesRow.order_purchase_timestamp r))
                 (rows current_data))
    /\ (exists fig',
          App.create_revenue_trend_chart current_data previous_data
          = Ok (fig', current_after current_data,
                if len previous_data >? 0 then previous_after previous_data
                else previous_data)).
Proof.
  destruct (calculate_kpis_runs current_data previous_data) as (k & Hk & _).
  destruct (create_revenue_trend_chart_runs current_data previous_data)
    as (fig & Hfig).
  exists k, fig.
  split; [exact Hk |]. split; [exact Hfig |].
  split; [now rewrite calculate_kpis_again |].
  split; [reflexivity |]. split; [reflexivity |].
  split; [| split].
  - intros name Hname. unfold current_after, previous_after, setitem.
    cbn [assigned]. now rewrite !get_set_assoc_other.
  - unfold current_after, setitem. cbn [assigned]. apply get_set_assoc.
  - apply create_revenue_trend_chart_frames.
Qed.

(** *** Stars of the review card *)

(** [round] answers with a nearest integer, and with the even one of the
    two when the value lies halfway. *)
Lemma round_nearest_even (x : Q) :
  (inject_Z (round x) - (1 # 2) <= x <= inject_Z (round x) + (1 # 2))%Q
  /\ ((x - inject_Z (Qfloor x) == 1 # 2)%Q -> Z.even (round x) = true).
Proof.
  pose proof (Qfloor_le x) as Hlo.
  pose proof (Qlt_floor x) as Hhi.
  rewrite inject_Z_plus in Hhi. change (inject_Z 1) with 1%Q in Hhi.
  unfold round.
  destruct (Qcompare_spec (x - inject_Z (Qfloor x)) (1 # 2)) as [He | Hl | Hg].
  - destruct (Z.even (Qfloor x)) eqn:Hev.
    + split; [split; lra | auto].
    + split.
      * rewrite inject_Z_plus. change (inject_Z 1) with 1%Q. split; lra.
      * intros _. rewrite Z.even_add, Hev. reflexivity.
  - split; [split; lra |]. intros He. lra.
  - split.
    + rewrite inject_Z_plus. change (inject_Z 1) with 1%Q. split; lra.
    + intros He. lra.
Qed.

(** C9 as stated fails: reviews of 2 and 3 average 2.5, and the card shows
    two filled stars, not three. *)
Lemma review_stars_example :
  match App.create_bottom_cards two_orders with
  | Ok (_, App.ReviewScore avg_review stars) =>
      (avg_review == 5 # 2)%Q
      /\ stars = [App.Filled; App.Filled; App.Hollow; App.Hollow; App.Hollow]
      /\ round (5 # 2) = 2
      /\ round (5 # 2) <> 3
  | _ => False
  end.
Proof. vm_compute. repeat split; discriminate. Qed.

(** C9, as the code has it: the number of filled stars is the mean review
    score rounded to the nearest integer, a mean halfway between two
    integers going to the even one (2.5 gives 2, 3.5 gives 4). *)
Theorem review_stars_round_half_even (data : SalesFrame) :
  App.has_reviews data = true ->
  exists delivery avg_review,
    App.create_bottom_cards data
    = Ok (delivery,
          App.ReviewScore avg_review
            (repeat App.Filled (Z.to_nat (round avg_review))
             ++ repeat App.Hollow (Z.to_nat (5 - round avg_review)))%list)
    /\ mean (App.review_scores (rows data)) = Fin avg_review
    /\ (inject_Z (round avg_review) - (1 # 2) <= avg_review
        <= inject_Z (round avg_review) + (1 # 2))%Q
    /\ ((avg_review - inject_Z (Qfloor avg_review) == 1 # 2)%Q ->
        Z.even (round avg_review) = true)
    /\ round (5 # 2) = 2 /\ round (7 # 2) = 4.
Proof.
  intros Hrev.
  unfold App.create_bottom_cards, App.review_card. rewrite Hrev.
  unfold App.has_reviews in Hrev. apply andb_true_iff in Hrev as [_ Hany].
  rewrite (mean_nonempty _ (review_scores_nonempty _ Hany)). cbn [bind].
  do 2 eexists. split; [reflexivity |]. split; [reflexivity |].
  split; [apply round_nearest_even |].
  split; [apply round_nearest_even |].
  split; reflexivity.
Qed.

Lemma review_stars_round_half_even_witness :
  App.has_reviews two_orders = true
  /\ exists delivery avg_review,
       App.create_bottom_cards two_orders
       = Ok (delivery,
             App.ReviewScore avg_review
               (repeat App.Filled (Z.to_nat (round avg_review))
                ++ repeat App.Hollow (Z.to_nat (5 - round avg_review)))%list)
       /\ (avg_review == 5 # 2)%Q.
Proof.
  split; [reflexivity |].
  destruct (review_stars_round_half_even two_orders eq_refl)
    as (delivery & avg_review & Hcards & Hmean & _).
  exists delivery, avg_review. split; [exact Hcards |].
  vm_compute in Hmean. injection Hmean as <-. reflexivity.
Defined.

(** *** Delivery buckets of the satisfaction chart *)

Lemma in_bucket_1_3 (r : Z * Z) :
  App.in_bucket "1-3 days" r = (0 <? fst r) && (fst r <=? 3).
Proof.
  unfold App.in_bucket, App.cut_delivery_days.
  destruct (Z.leb_spec (fst r) 0), (Z.leb_spec (fst r) 3), (Z.leb_spec (fst r) 7),
    (Z.leb_spec (fst r) 14), (Z.ltb_spec 0 (fst r)); try lia; reflexivity.
Qed.

Lemma in_bucket_4_7 (r : Z * Z) :
  App.in_bucket "4-7 days" r = (3 <? fst r) && (fst r <=? 7).
Proof.
  unfold App.in_bucket, App.cut_delivery_days.
  destruct (Z.leb_spec (fst r) 0), (Z.leb_spec (fst r) 3), (Z.leb_spec (fst r) 7),
    (Z.leb_spec (fst r) 14), (Z.ltb_spec 3 (fst r)); try lia; reflexivity.
Qed.

Lemma in_bucket_8_14 (r : Z * Z) :
  App.in_bucket "8-14 days" r = (7 <? fst r) && (fst r <=? 14).
Proof.
  unfold App.in_bucket, App.cut_delivery_days.
  destruct (Z.leb_spec (fst r) 0), (Z.leb_spec (fst r) 3), (Z.leb_spec (fst r) 7),
    (Z.leb_spec (fst r) 14), (Z.ltb_spec 7 (fst r)); try lia; reflexivity.
Qed.

Lemma in_bucket_15_plus (r : Z * Z) :
  App.in_bucket "15+ days" r = (14 <? fst r).
Proof.
  unfold App.in_bucket, App.cut_delivery_days.
  destruct (Z.leb_spec (fst r) 0), (Z.leb_spec (fst r) 3), (Z.leb_spec (fst r) 7),
    (Z.leb_spec (fst r) 14), (Z.ltb_spec 14 (fst r)); try lia; reflexivity.
Qed.

Lemma cut_delivery_days_spec (days : Z) :
  (App.cut_delivery_days days = Some "1-3 days" <-> 0 < days <= 3)
  /\ (App.cut_delivery_days days = Some "4-7 days" <-> 3 < days <= 7)
  /\ (App.cut_delivery_days days = Some "8-14 days" <-> 7 < days <= 14)
  /\ (App.cut_delivery_days days = Some "15+ days" <-> 14 < days)
  /\ (App.cut_delivery_days days = None <-> days <= 0).
Proof.
  unfold App.cut_delivery_days.
  destruct (Z.leb_spec days 0), (Z.leb_spec days 3), (Z.leb_spec days 7),
    (Z.leb_spec days 14); try lia;
    repeat split; intros; try lia; try discriminate; reflexivity.
Qed.

(** C4 as stated fails for the second place it names:
    [analyze_customer_experience] knows three categories, and puts 14 and
    15 days alike under ['8+ days']. *)
Lemma delivery_category_example :
  BusinessMetrics.satisfaction_by_delivery SalesRow.review_score
    SalesRow.delivery_days (rows two_orders)
  = [("1-3 days", Fin 2); ("8+ days", Fin 3)]
  /\ BusinessMetrics.delivery_category (Some 14) = "8+ days"
  /\ BusinessMetrics.delivery_category (Some 15) = "8+ days"
  /\ BusinessMetrics.delivery_category (Some 14) <> "8-14 days"
  /\ BusinessMetrics.delivery_category (Some 15) <> "15+ days".
Proof. vm_compute. repeat split; discriminate. Qed.

(** C4, as the code has it: the chart of
    [create_satisfaction_delivery_chart] cuts [delivery_days] into the four
    buckets 1-3, 4-7, 8-14 and 15+, each closed at its upper edge and the
    last one open-ended (so 3, 4, 14 and 15 fall in 1-3, 4-7, 8-14 and
    15+), leaves a value of 0 or less without a bucket, and shows, in the
    order of the buckets, the mean review score of each bucket that has a
    row; a bucket without rows is shown as NaN or left out, as the default
    of the installed pandas has it.  [analyze_customer_experience] labels
    the days 1-3, 4-7 and 8+ instead. *)
Theorem delivery_buckets (days : Z) (data : SalesFrame) :
  (App.cut_delivery_days days = Some "1-3 days" <-> 0 < days <= 3)
  /\ (App.cut_delivery_days days = Some "4-7 days" <-> 3 < days <= 7)
  /\ (App.cut_delivery_days days = Some "8-14 days" <-> 7 < days <= 14)
  /\ (App.cut_delivery_days days = Some "15+ days" <-> 14 < days)
  /\ (App.cut_delivery_days days = None <-> days <= 0)
  /\ map App.cut_delivery_days [3; 4; 14; 15]
     = [Some "1-3 days"; Some "4-7 days"; Some "8-14 days"; Some "15+ days"]
  /\ (forall observed,
        App.create_satisfaction_delivery_chart observed data
        = match App.dropna_reviews_delivery (rows data) with
          | [] => App.Annotation
                    "No data available with both delivery and review information"
          | kept =>
              let bar (label : string) (keep : Z -> bool) :=
                match filter (fun r => keep (fst r)) kept with
                | [] => if observed then [] else [(label, NaN)]
                | scored => [(label, mean (map (fun r => inject_Z (snd r)) scored))]
                end in
              App.Bars
                (bar "1-3 days" (fun d => (0 <? d) && (d <=? 3))
                 ++ bar "4-7 days" (fun d => (3 <? d) && (d <=? 7))
                 ++ bar "8-14 days" (fun d => (7 <? d) && (d <=? 14))
                 ++ bar "15+ days" (fun d => 14 <? d))%list
          end)
  /\ BusinessMetrics.delivery_category (Some days)
     = (if days <=? 3 then "1-3 days"
        else if days <=? 7 then "4-7 days" else "8+ days").
Proof.
  destruct (cut_delivery_days_spec days) as (H1 & H2 & H3 & H4 & H5).
  repeat (split; [assumption |]).
  split; [reflexivity |].
  split; [| reflexivity].
  intros observed. unfold App.create_satisfaction_delivery_chart.
  replace (App.has_column data "review_score") with true by reflexivity.
  replace (App.has_column data "delivery_days") with true by reflexivity.
  cbn [negb orb].
  destruct (App.dropna_reviews_delivery (rows data)) as [| r kept]; [reflexivity |].
  unfold App.satisfaction_by_delivery, App.delivery_bucket_labels.
  cbn [flat_map]. cbv zeta.
  rewrite (filter_ext _ _ in_bucket_1_3), (filter_ext _ _ in_bucket_4_7),
    (filter_ext _ _ in_bucket_8_14), (filter_ext _ _ in_bucket_15_plus).
  now rewrite app_nil_r.
Qed.

(** *** Loading: validation comes first *)

Lemma missing_files_spec (fs : DataLoader.FileSystem) (path file : string) :
  In file (DataLoader.missing_files fs path)
  <-> In file DataLoader.required_files
      /\ DataLoader.path_exists fs (DataLoader.path_join path file) = false.
Proof.
  unfold DataLoader.missing_files. rewrite filter_In, negb_true_iff. tauto.
Qed.

Lemma init_fails_without_path (fs : DataLoader.FileSystem) (path : string)
    (log : list string) :
  DataLoader.path_exists fs path = false ->
  DataLoader.init fs path log
  = (Raise (FileNotFoundError (DataPathDoesNotExist path)), log).
Proof.
  intros Hno.
  unfold DataLoader.init, DataLoader.bindIO, DataLoader._validate_data_path.
  cbn [DataLoader.data_path]. now rewrite Hno.
Qed.

Lemma init_fails_with_missing (fs : DataLoader.FileSystem) (path : string)
    (log : list string) :
  DataLoader.path_exists fs path = true ->
  DataLoader.missing_files fs path <> [] ->
  DataLoader.init fs path log
  = (Raise (FileNotFoundError
              (MissingRequiredFiles (DataLoader.missing_files fs path))), log).
Proof.
  intros Hyes Hmiss.
  unfold DataLoader.init, DataLoader.bindIO, DataLoader._validate_data_path.
  cbn [DataLoader.data_path]. rewrite Hyes. cbn [negb].
  destruct (DataLoader.missing_files fs path); [congruence | reflexivity].
Qed.

(** C6: loading fails with the "data path does not exist" error when the
    root path is absent; otherwise, when required files are absent, it
    fails with one "missing required files" error that lists every absent
    file of the five and no other; in both cases nothing has been handed to
    the CSV parser, and whenever something was parsed the validation had
    passed. *)
Theorem load_data_validates_first (fs : DataLoader.FileSystem) (path : string)
    (log : list string) :
  (DataLoader.path_exists fs path = false ->
   App.load_data_from fs path log
   = (Raise (FileNotFoundError (DataPathDoesNotExist path)), log))
  /\ (DataLoader.path_exists fs path = true ->
      DataLoader.missing_files fs path <> [] ->
      App.load_data_from fs path log
      = (Raise (FileNotFoundError
                  (MissingRequiredFiles (DataLoader.missing_files fs path))),
         log))
  /\ (forall file,
        In file (DataLoader.missing_files fs path)
        <-> In file DataLoader.required_files
            /\ DataLoader.path_exists fs (DataLoader.path_join path file) = false)
  /\ List.length DataLoader.required_files = 5%nat
  /\ (snd (App.load_data_from fs path log) <> log ->
      DataLoader.path_exists fs path = true
      /\ DataLoader.missing_files fs path = []).
Proof.
  split; [| split; [| split; [| split]]].
  - intros Hno. unfold App.load_data_from, DataLoader.bindIO.
    now rewrite (init_fails_without_path fs path log Hno).
  - intros Hyes Hmiss. unfold App.load_data_from, DataLoader.bindIO.
    now rewrite (init_fails_with_missing fs path log Hyes Hmiss).
  - intros file. apply missing_files_spec.
  - reflexivity.
  - intros Hlog.
    destruct (DataLoader.path_exists fs path) eqn:Hp.
    + split; [reflexivity |].
      destruct (DataLoader.missing_files fs path) as [| f rest] eqn:Hm;
        [reflexivity |].
      exfalso. apply Hlog.
      unfold App.load_data_from, DataLoader.bindIO.
      rewrite (init_fails_with_missing fs path log Hp) by (rewrite Hm; discriminate).
      reflexivity.
    + exfalso. apply Hlog.
      unfold App.load_data_from, DataLoader.bindIO.
      now rewrite (init_fails_without_path fs path log Hp).
Qed.

Lemma load_data_validates_first_witness :
  App.load_data no_files []
  = (Raise (FileNotFoundError (DataPathDoesNotExist "ecommerce_data/")), [])
  /\ App.load_data three_files []
     = (Raise (FileNotFoundError
                 (MissingRequiredFiles
                    ["customers_dataset.csv"; "order_reviews_dataset.csv"])),
        []).
Proof.
  split.
  - apply (load_data_validates_first no_files "ecommerce_data/" []).
    reflexivity.
  - apply (load_data_validates_first three_files "ecommerce_data/" []).
    + reflexivity.
    + vm_compute. discriminate.
Defined.

(** *** Totals and growth rates *)

(** [nunique] counts each value once. *)
Lemma nunique_counts_distinct (xs : list string) :
  exists distinct,
    NoDup distinct
    /\ (forall x, In x distinct <-> In x xs)
    /\ nunique xs = Z.of_nat (List.length distinct).
Proof.
  exists (nodup string_dec xs). split; [apply NoDup_nodup |].
  split; [intros x; apply nodup_In | reflexivity].
Qed.

(** X2: the totals of [calculate_kpis], for every pair of frames: revenue is
    the sum of [price], orders the number of distinct [order_id], and the
    average order value their quotient, 0 (and no NaN, no exception) when
    there is no order. *)
Theorem calculate_kpis_totals (current_data previous_data : SalesFrame) :
  exists k current' previous',
    App.calculate_kpis current_data previous_data = Ok (k, current', previous')
    /\ App.total_revenue k = Fin (sum (map SalesRow.price (rows current_data)))
    /\ App.total_orders k
       = Z.of_nat (List.length
                     (nodup string_dec (map SalesRow.order_id (rows current_data))))
    /\ (App.total_orders k > 0 ->
        App.avg_order_value k
        = Fin (sum (map SalesRow.price (rows current_data))
               / inject_Z (App.total_orders k)))
    /\ (App.total_orders k = 0 -> App.avg_order_value k = Fin 0)
    /\ (rows current_data = [] ->
        App.total_revenue k = Fin 0 /\ App.total_orders k = 0
        /\ App.avg_order_value k = Fin 0).
Proof.
  destruct (calculate_kpis_runs current_data previous_data)
    as (k & Hk & Hrev & Hord & Haov & _).
  exists k, (current_after current_data), (previous_after previous_data).
  split; [exact Hk |]. split; [exact Hrev |]. split; [exact Hord |].
  rewrite Haov, Hord, Hrev.
  split; [| split].
  - intros Hpos. destruct (Z.gtb_spec (App.order_count current_data) 0); [reflexivity | lia].
  - intros Hzero. now rewrite Hzero.
  - intros Hempty. unfold App.price_sum, App.order_count. rewrite Hempty.
    repeat split.
Qed.

(** The scenario of two orders worth 100 and 50: revenue 150, two orders,
    average order value 75. *)
Example calculate_kpis_two_orders :
  match App.calculate_kpis two_orders empty_frame with
  | Ok (k, _, _) =>
      App.total_revenue k = Fin 150 /\ App.total_orders k = 2
      /\ (exists aov, App.avg_order_value k = Fin aov /\ (aov == 75)%Q)
      /\ App.revenue_growth k = Fin 0
      /\ App.orders_growth k = Fin 0
      /\ App.aov_growth k = Fin 0
  | Raise _ => False
  end.
Proof.
  vm_compute. repeat split. eexists. split; reflexivity.
Qed.

(** X1: the growth rates of [calculate_kpis], for every pair of frames: each is
    [(current - previous) / previous * 100] over a positive previous value
    and 0 otherwise, an empty previous frame included; none is infinite or
    NaN and nothing is raised. *)
Theorem calculate_kpis_growth_rates (current_data previous_data : SalesFrame) :
  exists k current' previous' aov previous_aov,
    App.calculate_kpis current_data previous_data = Ok (k, current', previous')
    /\ App.revenue_growth k
       = (if Qltb 0 (App.price_sum previous_data)
          then Fin ((App.price_sum current_data - App.price_sum previous_data)
                    / App.price_sum previous_data * 100)
          else Fin 0)
    /\ App.orders_growth k
       = (if App.order_count previous_data >? 0
          then Fin (inject_Z (App.order_count current_data
                              - App.order_count previous_data)
                    / inject_Z (App.order_count previous_data) * 100)
          else Fin 0)
    /\ App.avg_order_value k = Fin aov
    /\ previous_aov
       = (if App.order_count previous_data >? 0
          then (App.price_sum previous_data
                / inject_Z (App.order_count previous_data))%Q
          else 0%Q)
    /\ App.aov_growth k
       = (if Qltb 0 previous_aov
          then Fin ((aov - previous_aov) / previous_aov * 100)
          else Fin 0)
    /\ (rows previous_data = [] ->
        App.revenue_growth k = Fin 0 /\ App.orders_growth k = Fin 0
        /\ App.aov_growth k = Fin 0).
Proof.
  destruct (calculate_kpis_runs current_data previous_data)
    as (k & Hk & Hrev & Hord & Haov & Hrg & Hog & Hag).
  exists k, (current_after current_data), (previous_after previous_data).
  exists (if App.order_count current_data >? 0
          then (App.price_sum current_data
                / inject_Z (App.order_count current_data))%Q
          else 0%Q).
  eexists.
  split; [exact Hk |].
  split; [rewrite Hrg; apply growth_spec |].
  split; [exact Hog |].
  split; [rewrite Haov; now destruct (App.order_count current_data >? 0) |].
  split; [reflexivity |].
  assert (Hag' :
    App.aov_growth k
    = App.growth
        (Fin (if App.order_count current_data >? 0
              then (App.price_sum current_data
                    / inject_Z (App.order_count current_data))%Q
              else 0%Q))
        (Fin (if App.order_count previous_data >? 0
              then (App.price_sum previous_data
                    / inject_Z (App.order_count previous_data))%Q
              else 0%Q))).
  { rewrite Hag, Haov.
    destruct (App.order_count current_data >? 0),
      (App.order_count previous_data >? 0); reflexivity. }
  split; [rewrite Hag'; apply growth_spec |].
  intros Hempty.
  rewrite Hrg, Hog, Hag', !growth_spec.
  unfold App.price_sum, App.order_count. rewrite Hempty. repeat split.
Qed.

(** C1: [calculate_revenue_metrics] divides without looking at the divisor.
    With an empty comparison frame its revenue growth is infinite and its
    order growth raises [ZeroDivisionError], where the claim asks for a
    growth of 0; [calculate_kpis], on the same two frames, answers 0 three
    times. *)
Theorem calculate_revenue_metrics_empty_comparison :
  BusinessMetrics.calculate_revenue_metrics SalesRow.order_id SalesRow.price
    (rows two_orders) (Some (rows empty_frame))
  = Raise ZeroDivisionError
  /\ mul (np_div (sub (Fin (App.price_sum two_orders))
                    (Fin (App.price_sum empty_frame)))
            (Fin (App.price_sum empty_frame))) (Fin 100)
     = PosInf
  /\ int_truediv (App.order_count two_orders - App.order_count empty_frame)
       (App.order_count empty_frame)
     = Raise ZeroDivisionError
  /\ match App.calculate_kpis two_orders empty_frame with
     | Ok (k, _, _) =>
         App.revenue_growth k = Fin 0 /\ App.orders_growth k = Fin 0
         /\ App.aov_growth k = Fin 0
     | Raise _ => False
     end.
Proof. vm_compute. repeat split. Qed.

(** C2: for an empty sales frame [calculate_revenue_metrics] reports an
    average order value of NaN, where the claim asks for 0; revenue 0 and
    0 orders are as claimed, and [calculate_kpis], on the same frame,
    answers 0. *)
Theorem calculate_revenue_metrics_empty_sales :
  BusinessMetrics.calculate_revenue_metrics SalesRow.order_id SalesRow.price
    (rows empty_frame) None
  = Ok (BusinessMetrics.mkrevenue (Fin 0) 0 NaN 0 None)
  /\ mean (group_sums SalesRow.order_id SalesRow.price (rows empty_frame)) = NaN
  /\ match App.calculate_kpis empty_frame empty_frame with
     | Ok (k, _, _) =>
         App.total_revenue k = Fin 0 /\ App.total_orders k = 0
         /\ App.avg_order_value k = Fin 0
     | Raise _ => False
     end.
Proof. vm_compute. repeat split. Qed.

(** *** Joins: which rows survive *)

Lemma merge_inner_In {L R : Type} (lkey : L -> string) (rkey : R -> string)
    (left : list L) (right : list R) (l : L) (r : R) :
  In (l, r) (merge_inner lkey rkey left right)
  <-> In l left /\ In r right /\ lkey l = rkey r.
Proof.
  unfold merge_inner. rewrite in_flat_map. split.
  - intros (l' & Hl' & Hin). apply in_map_iff in Hin as (r' & Heq & Hr').
    injection Heq as -> ->. apply filter_In in Hr' as [Hr' Hk].
    apply String.eqb_eq in Hk. auto.
  - intros (Hl & Hr & Hk). exists l. split; [assumption |].
    apply in_map, filter_In. split; [assumption |]. now apply String.eqb_eq.
Qed.

(** A left join keeps every left row, and pairs it with nothing when no
    right row has its key. *)
Lemma merge_left_keeps {L R : Type} (lkey : L -> string) (rkey : R -> string)
    (left : list L) (right : list R) (l : L) :
  In l left ->
  exists o,
    In (l, o) (merge_left lkey rkey left right)
    /\ ((forall r, In r right -> rkey r <> lkey l) -> o = None).
Proof.
  intros Hl. unfold merge_left.
  destruct (filter (fun r => String.eqb (lkey l) (rkey r)) right) as [| r rest] eqn:Hf.
  - exists None. split; [| reflexivity].
    apply in_flat_map. exists l. split; [assumption |]. rewrite Hf. now left.
  - exists (Some r). split.
    + apply in_flat_map. exists l. split; [assumption |]. rewrite Hf. now left.
    + intros Hnone. exfalso.
      assert (Hr : In r (filter (fun r => String.eqb (lkey l) (rkey r)) right))
        by (rewrite Hf; now left).
      apply filter_In in Hr as [Hr Hk]. apply String.eqb_eq in Hk.
      now apply (Hnone r Hr).
Qed.

(** X4: in the fact table of [filter_data_by_date] every order item of a
    delivered order keeps a row with its own fields; a product or customer
    that is not in its table leaves the category, state and city of that
    row missing and drops nothing. *)
Theorem merge_sales_keeps_unmatched (order_items : list OrderItem.t)
    (delivered_orders : list App.DeliveredOrder) (products : list Product.t)
    (customers : list Customer.t) (reviews : list Review.t)
    (item : OrderItem.t) (d : App.DeliveredOrder) :
  In item order_items ->
  In d delivered_orders ->
  OrderItem.order_id item = App.d_order_id d ->
  exists row,
    In row (App.merge_sales order_items delivered_orders products customers reviews)
    /\ SalesRow.order_id row = OrderItem.order_id item
    /\ SalesRow.order_item_id row = OrderItem.order_item_id item
    /\ SalesRow.product_id row = OrderItem.product_id item
    /\ SalesRow.price row = OrderItem.price item
    /\ SalesRow.freight_value row = OrderItem.freight_value item
    /\ SalesRow.customer_id row = App.d_customer_id d
    /\ SalesRow.order_purchase_timestamp row = App.d_order_purchase_timestamp d
    /\ SalesRow.delivery_days row = App.d_delivery_days d
    /\ ((forall p, In p products ->
                   Product.product_id p <> OrderItem.product_id item) ->
        SalesRow.product_category_name row = None)
    /\ ((forall c, In c customers ->
                   Customer.customer_id c <> App.d_customer_id d) ->
        SalesRow.customer_state row = None /\ SalesRow.customer_city row = None).
Proof.
  intros Hitem Hd Hkey.
  assert (H1 : In (item, d)
                 (merge_inner OrderItem.order_id App.d_order_id order_items
                    delivered_orders))
    by (apply merge_inner_In; auto).
  destruct (merge_left_keeps (fun r => OrderItem.product_id (fst r))
              Product.product_id _ products (item, d) H1) as (product & H2 & Hp).
  destruct (merge_left_keeps (fun r => App.d_customer_id (snd (fst r)))
              Customer.customer_id _ customers (item, d, product) H2)
    as (customer & H3 & Hc).
  destruct (merge_left_keeps (fun r => OrderItem.order_id (fst (fst (fst r))))
              Review.order_id _ reviews (item, d, product, customer) H3)
    as (review & H4 & _).
  exists (App.sales_row (item, d, product, customer, review)).
  split; [unfold App.merge_sales; now apply in_map |].
  cbn. repeat (split; [reflexivity |]).
  split.
  - intros Hnone. now rewrite (Hp Hnone).
  - intros Hnone. now rewrite (Hc Hnone).
Qed.

Lemma merge_sales_keeps_unmatched_witness :
  exists row,
    In row
      (App.merge_sales
         [OrderItem.mk "o2" 1 "p2" 50%Q 0%Q]
         [App.mkdelivered "o2" "c2" "delivered" (noon 2023 2 10) (Some 14)]
         [Product.mk "p1" (Some "toys")]
         [Customer.mk "c1" "SP" "sao paulo"]
         [])
    /\ SalesRow.price row = 50%Q
    /\ SalesRow.product_category_name row = None
    /\ SalesRow.customer_state row = None.
Proof.
  destruct (merge_sales_keeps_unmatched
              [OrderItem.mk "o2" 1 "p2" 50%Q 0%Q]
              [App.mkdelivered "o2" "c2" "delivered" (noon 2023 2 10) (Some 14)]
              [Product.mk "p1" (Some "toys")]
              [Customer.mk "c1" "SP" "sao paulo"]
              []
              (OrderItem.mk "o2" 1 "p2" 50%Q 0%Q)
              (App.mkdelivered "o2" "c2" "delivered" (noon 2023 2 10) (Some 14))
              (or_introl eq_refl) (or_introl eq_refl) eq_refl)
    as (row & Hin & _ & _ & _ & Hprice & _ & _ & _ & _ & Hcat & Hstate).
  exists row. split; [exact Hin |]. split; [exact Hprice |].
  split.
  - apply Hcat. intros p [<- | []]. discriminate.
  - apply Hstate. intros c [<- | []]. discriminate.
Defined.

(** C5: [get_product_category_data] and [get_geographic_data] merge with
    the default inner join.  From a fact table worth 150 whose second row
    has an unknown product and an unknown customer, each keeps the first
    row only, worth 100. *)
Theorem inner_joins_drop_unmatched :
  match App.filter_data_by_date small_loader
          (Timestamp_of_date (mkdate 2023 1 1))
          (Timestamp_of_date (mkdate 2023 6 30)) with
  | Ok (sales_data, _) =>
      map SalesRow.price (rows sales_data) = [100%Q; 50%Q]
      /\ map SalesRow.product_category_name (rows sales_data) = [Some "toys"; None]
      /\ map SalesRow.customer_state (rows sales_data) = [Some "SP"; None]
      /\ DataLoader.get_product_category_data SalesRow.product_id SalesRow.price
           small_loader (rows sales_data)
         = Ok [DataLoader.mkcat "p1" (Some "toys") 100%Q]
      /\ DataLoader.get_geographic_data SalesRow.order_id SalesRow.customer_id
           SalesRow.price small_loader (rows sales_data)
         = Ok [DataLoader.mkgeo "o1" "c1" 100%Q "SP" "sao paulo"]
  | Raise _ => False
  end.
Proof. vm_compute. repeat split. Qed.

(** *** Revenue is counted once *)

Lemma filter_unique_key {R : Type} (rkey : R -> string) (k : string)
    (right : list R) :
  NoDup (map rkey right) ->
  (List.length (filter (fun r => String.eqb k (rkey r)) right) <= 1)%nat.
Proof.
  induction right as [| r rs IH]; simpl; [lia |].
  intros Hnd. apply NoDup_cons_iff in Hnd as [Hnotin Hnd].
  destruct (String.eqb_spec k (rkey r)) as [-> | Hne]; [| auto].
  assert (Hnone : filter (fun r0 => String.eqb (rkey r) (rkey r0)) rs = []).
  { destruct (filter _ rs) as [| x xs] eqn:Hf; [reflexivity |].
    exfalso. apply Hnotin.
    assert (Hx : In x (filter (fun r0 => String.eqb (rkey r) (rkey r0)) rs))
      by (rewrite Hf; now left).
    apply filter_In in Hx as [Hx Hk]. apply String.eqb_eq in Hk.
    rewrite Hk. now apply in_map. }
  rewrite Hnone. simpl. lia.
Qed.

(** With unique keys on the right, a left join returns the left rows as
    they are: none dropped, none repeated. *)
Lemma merge_left_unique {L R : Type} (lkey : L -> string) (rkey : R -> string)
    (left : list L) (right : list R) :
  NoDup (map rkey right) ->
  map fst (merge_left lkey rkey left right) = left.
Proof.
  intros Hnd. unfold merge_left.
  induction left as [| l ls IH]; [reflexivity |].
  cbn [flat_map]. rewrite map_app, IH.
  pose proof (filter_unique_key rkey (lkey l) right Hnd) as Hlen.
  destruct (filter (fun r => String.eqb (lkey l) (rkey r)) right) as [| r [| r' rest]];
    simpl in *; [reflexivity | reflexivity | lia].
Qed.

(** X5: when product ids, customer ids and the reviews' order ids are
    unique, the fact table has exactly one row per order item joined to a
    delivered order, with that item's price: the joins to products,
    customers and reviews neither drop nor repeat revenue. *)
Theorem merge_sales_counts_once (order_items : list OrderItem.t)
    (delivered_orders : list App.DeliveredOrder) (products : list Product.t)
    (customers : list Customer.t) (reviews : list Review.t) :
  NoDup (map Product.product_id products) ->
  NoDup (map Customer.customer_id customers) ->
  NoDup (map Review.order_id reviews) ->
  map SalesRow.price
    (App.merge_sales order_items delivered_orders products customers reviews)
  = map (fun r => OrderItem.price (fst r))
      (merge_inner OrderItem.order_id App.d_order_id order_items delivered_orders)
  /\ map SalesRow.order_id
       (App.merge_sales order_items delivered_orders products customers reviews)
     = map (fun r => OrderItem.order_id (fst r))
         (merge_inner OrderItem.order_id App.d_order_id order_items
            delivered_orders).
Proof.
  intros Hp Hc Hr. unfold App.merge_sales. cbv zeta.
  set (m1 := merge_inner OrderItem.order_id App.d_order_id order_items
               delivered_orders).
  set (m2 := merge_left (fun r => OrderItem.product_id (fst r))
               Product.product_id m1 products).
  set (m3 := merge_left (fun r => App.d_customer_id (snd (fst r)))
               Customer.customer_id m2 customers).
  set (m4 := merge_left (fun r => OrderItem.order_id (fst (fst (fst r))))
               Review.order_id m3 reviews).
  assert (H2 : map fst m2 = m1) by (apply merge_left_unique; assumption).
  assert (H3 : map fst m3 = m2) by (apply merge_left_unique; assumption).
  assert (H4 : map fst m4 = m3) by (apply merge_left_unique; assumption).
  assert (Hitem : map (fun r => fst (fst (fst r))) m4 = m1).
  { rewrite <- H2, <- H3, <- H4, !map_map. reflexivity. }
  split.
  - rewrite <- Hitem, !map_map. apply map_ext.
    intros [[[[item d] product] customer] review]. reflexivity.
  - rewrite <- Hitem, !map_map. apply map_ext.
    intros [[[[item d] product] customer] review]. reflexivity.
Qed.

Lemma merge_sales_counts_once_witness :
  map SalesRow.price
    (App.merge_sales
       [OrderItem.mk "o1" 1 "p1" 100%Q 0%Q; OrderItem.mk "o2" 1 "p2" 50%Q 0%Q]
       [App.mkdelivered "o1" "c1" "delivered" (noon 2023 1 10) (Some 3);
        App.mkdelivered "o2" "c2" "delivered" (noon 2023 2 10) (Some 14)]
       [Product.mk "p1" (Some "toys")]
       [Customer.mk "c1" "SP" "sao paulo"]
       [Review.mk "o1" 5])
  = [100%Q; 50%Q].
Proof.
  refine (eq_trans
            (proj1 (merge_sales_counts_once
                      [OrderItem.mk "o1" 1 "p1" 100%Q 0%Q;
                       OrderItem.mk "o2" 1 "p2" 50%Q 0%Q]
                      [App.mkdelivered "o1" "c1" "delivered" (noon 2023 1 10) (Some 3);
                       App.mkdelivered "o2" "c2" "delivered" (noon 2023 2 10) (Some 14)]
                      [Product.mk "p1" (Some "toys")]
                      [Customer.mk "c1" "SP" "sao paulo"]
                      [Review.mk "o1" 5] _ _ _)) _).
  - repeat constructor; simpl; tauto.
  - repeat constructor; simpl; tauto.
  - repeat constructor; simpl; tauto.
  - reflexivity.
Defined.

(** *** [calculate_revenue_metrics] away from zero divisors *)

Section GroupSums.
Context {Row : Type}.
Variables (key : Row -> string) (value : Row -> Q).

Lemma sum_zeros {A : Type} (ks : list A) :
  (sum (map (fun _ => 0%Q) ks) == 0)%Q.
Proof. induction ks as [| k ks IH]; simpl; [reflexivity | rewrite IH; ring]. Qed.

Lemma sum_add_at (a : string) (v : Q) (f : string -> Q) (ks : list string) :
  NoDup ks ->
  (sum (map (fun k => if String.eqb a k then v + f k else f k) ks)
   == (if in_dec string_dec a ks then v else 0) + sum (map f ks))%Q.
Proof.
  induction ks as [| k ks IH]; intros Hnd.
  - simpl. ring.
  - apply NoDup_cons_iff in Hnd as [Hnotin Hnd]. cbn [map sum fold_right].
    change (fold_right Qplus 0%Q ?l) with (sum l).
    rewrite (IH Hnd).
    destruct (String.eqb_spec a k) as [<- | Hne].
    + destruct (in_dec string_dec a (a :: ks)) as [_ | Hn]; [| exfalso; apply Hn; now left].
      destruct (in_dec string_dec a ks) as [Hin | _]; [contradiction | ring].
    + destruct (in_dec string_dec a (k :: ks)) as [[Heq | Hin] | Hn];
        destruct (in_dec string_dec a ks) as [Hin' | Hn']; try congruence;
        try ring; try contradiction.
      exfalso. apply Hn. now right.
Qed.

Lemma group_sums_over (ks : list string) (df : list Row) :
  NoDup ks ->
  (forall r, In r df -> In (key r) ks) ->
  (sum (map (fun k => sum (map value (filter (fun r => String.eqb (key r) k) df))) ks)
   == sum (map value df))%Q.
Proof.
  intros Hnd. induction df as [| r df IH]; intros Hkeys.
  - simpl. apply sum_zeros.
  - rewrite (map_ext _
               (fun k => if String.eqb (key r) k
                         then (value r
                               + sum (map value
                                        (filter (fun r0 => String.eqb (key r0) k) df)))%Q
                         else sum (map value
                                     (filter (fun r0 => String.eqb (key r0) k) df)))).
    2:{ intros k. simpl. destruct (String.eqb (key r) k); reflexivity. }
    rewrite (sum_add_at (key r) (value r) _ ks Hnd).
    destruct (in_dec string_dec (key r) ks) as [_ | Hn].
    + rewrite IH by (intros r0 Hr0; apply Hkeys; now right). reflexivity.
    + exfalso. apply Hn, Hkeys. now left.
Qed.

(** The per-order sums add up to the total. *)
Lemma group_sums_total (df : list Row) :
  (sum (group_sums key value df) == sum (map value df))%Q.
Proof.
  unfold group_sums. apply group_sums_over.
  - apply NoDup_nodup.
  - intros r Hr. apply nodup_In. now apply in_map.
Qed.

Lemma nunique_positive (df : list Row) :
  df <> [] -> nunique (map key df) > 0.
Proof.
  intros Hne. unfold nunique.
  destruct df as [| r df]; [congruence |].
  assert (Hin : In (key r) (nodup string_dec (map key (r :: df))))
    by (apply nodup_In; now left).
  destruct (nodup string_dec (map key (r :: df))); [contradiction | simpl; lia].
Qed.

(** X3: on a non-empty sales frame [calculate_revenue_metrics] reports the
    sum of [price], the number of distinct [order_id], at least 1, and, as
    average order value, the mean it takes: the sum of the totals per
    order divided by the number of orders.  Against a comparison frame
    with a positive revenue it returns, and reports revenue and order
    growth as [(current - previous) / previous * 100]. *)
Theorem calculate_revenue_metrics_nonempty (sales_data comparison_data : list Row) :
  sales_data <> [] ->
  (0 < sum (map value comparison_data))%Q ->
  exists m c,
    BusinessMetrics.calculate_revenue_metrics key value sales_data None
    = Ok (BusinessMetrics.mkrevenue (Fin (sum (map value sales_data)))
            (nunique (map key sales_data))
            (Fin (sum (group_sums key value sales_data)
                  / inject_Z (nunique (map key sales_data))))
            (Z.of_nat (List.length sales_data)) None)
    /\ nunique (map key sales_data) > 0
    /\ Z.of_nat (List.length (group_sums key value sales_data))
       = nunique (map key sales_data)
    /\ (forall total, In total (group_sums key value sales_data) ->
        exists order,
          In order (map key sales_data)
          /\ total = sum (map value
                            (filter (fun r => String.eqb (key r) order) sales_data)))
    /\ BusinessMetrics.calculate_revenue_metrics key value sales_data
         (Some comparison_data) = Ok m
    /\ BusinessMetrics.comparison m = Some c
    /\ BusinessMetrics.revenue_growth_rate c
       = Fin ((sum (map value sales_data) - sum (map value comparison_data))
              / sum (map value comparison_data) * 100)
    /\ BusinessMetrics.order_growth_rate c
       = Fin (inject_Z (nunique (map key sales_data)
                        - nunique (map key comparison_data))
              / inject_Z (nunique (map key comparison_data)) * 100).
Proof.
  intros Hne Hpos.
  pose proof (nunique_positive sales_data Hne) as Hn.
  assert (Hlen : Z.of_nat (List.length (group_sums key value sales_data))
                 = nunique (map key sales_data))
    by (unfold group_sums, nunique; now rewrite length_map).
  assert (Hgs : group_sums key value sales_data <> []).
  { intros Hnil. rewrite Hnil in Hlen. simpl in Hlen. lia. }
  assert (Hcmp : comparison_data <> []).
  { intros ->. simpl in Hpos. now apply Qlt_irrefl in Hpos. }
  pose proof (nunique_positive comparison_data Hcmp) as Hcn.
  unfold BusinessMetrics.calculate_revenue_metrics.
  rewrite (mean_nonempty _ Hgs), Hlen.
  unfold int_truediv.
  destruct (Z.eqb_spec (nunique (map key comparison_data)) 0) as [H0 | _]; [lia |].
  cbn [bind].
  do 2 eexists.
  split; [reflexivity |]. split; [exact Hn |]. split; [reflexivity |].
  split.
  { intros total Hin. unfold group_sums in Hin.
    apply in_map_iff in Hin as (order & <- & Horder).
    exists order. split; [now apply nodup_In in Horder | reflexivity]. }
  split; [reflexivity |]. split; [reflexivity |].
  cbn [BusinessMetrics.revenue_growth_rate BusinessMetrics.order_growth_rate].
  split; [| reflexivity].
  unfold sub, np_div. rewrite (Qeq_bool_pos _ Hpos). reflexivity.
Qed.
End GroupSums.

Lemma calculate_revenue_metrics_nonempty_witness :
  BusinessMetrics.calculate_revenue_metrics SalesRow.order_id SalesRow.price
    (rows two_orders) None
  = Ok (BusinessMetrics.mkrevenue (Fin 150) 2 (Fin ((100 + (50 + 0)) / 2)) 2 None)
  /\ nunique (map SalesRow.order_id (rows two_orders)) > 0.
Proof.
  destruct (calculate_revenue_metrics_nonempty SalesRow.order_id SalesRow.price
              (rows two_orders) (rows two_orders))
    as (m & c & Hm & Hn & _).
  - discriminate.
  - reflexivity.
  - split; [exact Hm | exact Hn].
Defined.

(** *** Loading: the five tables *)

(** X6: with the data path and the five files in place, loading validates,
    then reads the five files in the order orders, order items, products,
    customers, reviews, and returns a loader holding all five tables. *)
Theorem load_data_reads_all (fs : DataLoader.FileSystem) (path : string)
    (log : list string) (o : list Order.t) (i : list OrderItem.t)
    (p : list Product.t) (c : list Customer.t) (r : list Review.t) :
  DataLoader.path_exists fs path = true ->
  fs (DataLoader.path_join path "orders_dataset.csv")
  = Some (DataLoader.File (DataLoader.OrdersCsv o)) ->
  fs (DataLoader.path_join path "order_items_dataset.csv")
  = Some (DataLoader.File (DataLoader.OrderItemsCsv i)) ->
  fs (DataLoader.path_join path "products_dataset.csv")
  = Some (DataLoader.File (DataLoader.ProductsCsv p)) ->
  fs (DataLoader.path_join path "customers_dataset.csv")
  = Some (DataLoader.File (DataLoader.CustomersCsv c)) ->
  fs (DataLoader.path_join path "order_reviews_dataset.csv")
  = Some (DataLoader.File (DataLoader.ReviewsCsv r)) ->
  App.load_data_from fs path log
  = (Ok (DataLoader.mkloader path (Some o) (Some i) (Some p) (Some c) (Some r)),
     (log ++ map (DataLoader.path_join path) DataLoader.required_files)%list)
  /\ is_loaded (DataLoader.mkloader path (Some o) (Some i) (Some p) (Some c) (Some r))
     = true.
Proof.
  intros Hpath Ho Hi Hp Hc Hr. split; [| reflexivity].
  unfold App.load_data_from, DataLoader.init, DataLoader.bindIO,
    DataLoader._validate_data_path, DataLoader.missing_files,
    DataLoader.required_files.
  cbn [DataLoader.data_path filter]. rewrite Hpath.
  unfold DataLoader.path_exists. rewrite Ho, Hi, Hp, Hc, Hr.
  cbn [negb DataLoader.ret].
  unfold DataLoader.load_all_datasets, DataLoader.bindIO, DataLoader.read_csv.
  cbn [DataLoader.data_path]. rewrite Ho, Hi, Hp, Hc, Hr.
  cbn [DataLoader.ret map]. rewrite <- !app_assoc. reflexivity.
Qed.

Lemma load_data_reads_all_witness :
  App.load_data all_files []
  = (Ok empty_loader,
     ["ecommerce_data/orders_dataset.csv";
      "ecommerce_data/order_items_dataset.csv";
      "ecommerce_data/products_dataset.csv";
      "ecommerce_data/customers_dataset.csv";
      "ecommerce_data/order_reviews_dataset.csv"]).
Proof.
  exact (proj1 (load_data_reads_all all_files "ecommerce_data/" [] [] [] [] [] []
                  eq_refl eq_refl eq_refl eq_refl eq_refl eq_refl)).
Defined.

(** *** Dates in order are days in order *)

Lemma days_before_next_year (y : Z) :
  days_before_year (y + 1)
  = days_before_year y + (if is_leap y then 366 else 365).
Proof.
  unfold days_before_year, is_leap. cbv zeta.
  replace (y + 1 - 1) with y by lia.
  destruct (Z.eqb_spec (y mod 4) 0), (Z.eqb_spec (y mod 100) 0),
    (Z.eqb_spec (y mod 400) 0); cbn [negb orb andb];
    Z.div_mod_to_equations; lia.
Qed.

Lemma days_before_year_mono (y1 y2 : Z) :
  y1 <= y2 -> days_before_year y1 <= days_before_year y2.
Proof.
  intros Hle. unfold days_before_year. cbv zeta.
  Z.div_mod_to_equations. lia.
Qed.

Lemma month_cases (m : Z) :
  1 <= m <= 12 ->
  m = 1 \/ m = 2 \/ m = 3 \/ m = 4 \/ m = 5 \/ m = 6
  \/ m = 7 \/ m = 8 \/ m = 9 \/ m = 10 \/ m = 11 \/ m = 12.
Proof. lia. Qed.

Ltac month_table :=
  unfold days_before_month;
  repeat match goal with
         | |- context [Z.to_nat ?e] =>
             let n := eval vm_compute in (Z.to_nat e) in
             change (Z.to_nat e) with n
         end;
  cbn [days_before_month_aux]; cbn [Z.of_nat Pos.of_succ_nat Pos.succ];
  unfold days_in_month; cbn [Z.eqb Pos.eqb orb].

Ltac each_month H :=
  destruct (month_cases _ H) as
    [-> | [-> | [-> | [-> | [-> | [-> | [-> | [-> | [-> | [-> | [-> | ->]]]]]]]]]]].

Lemma days_through_month (y m : Z) :
  1 <= m <= 12 ->
  0 <= days_before_month y m
  /\ days_before_month y m + days_in_month y m
     <= (if is_leap y then 366 else 365).
Proof.
  intros Hm. each_month Hm;
    month_table; destruct (is_leap y); lia.
Qed.

Lemma days_before_later_month (y m1 m2 : Z) :
  1 <= m1 -> m1 < m2 <= 12 ->
  days_before_month y m1 + days_in_month y m1 <= days_before_month y m2.
Proof.
  intros H1 H2.
  assert (Hm1 : 1 <= m1 <= 12) by lia. assert (Hm2 : 1 <= m2 <= 12) by lia.
  each_month Hm1; each_month Hm2; try lia;
    month_table; destruct (is_leap y); lia.
Qed.

Lemma valid_date_bounds (d : date) :
  valid_date d = true ->
  1 <= month d <= 12 /\ 1 <= day d <= days_in_month (year d) (month d).
Proof.
  unfold valid_date. rewrite !andb_true_iff, !Z.leb_le. lia.
Qed.

(** Python's order on dates is the order of their day numbers. *)
Lemma toordinal_lt (a b : date) :
  valid_date a = true -> valid_date b = true ->
  date_ltb a b = true -> toordinal a < toordinal b.
Proof.
  intros Ha Hb Hlt.
  pose proof (valid_date_bounds a Ha) as [Hma Hda].
  pose proof (valid_date_bounds b Hb) as [Hmb Hdb].
  unfold date_ltb in Hlt. unfold toordinal.
  repeat (rewrite orb_true_iff in Hlt || rewrite andb_true_iff in Hlt).
  rewrite !Z.ltb_lt, !Z.eqb_eq in Hlt.
  destruct Hlt as [Hy | [Hy [Hm | [Hm Hd]]]].
  - pose proof (days_through_month (year a) (month a) Hma) as [_ Hall].
    pose proof (days_through_month (year b) (month b) Hmb) as [Hpos _].
    pose proof (days_before_next_year (year a)) as Hnext.
    pose proof (days_before_year_mono (year a + 1) (year b)) as Hmono.
    lia.
  - rewrite Hy in *.
    pose proof (days_before_later_month (year b) (month a) (month b)). lia.
  - rewrite Hy, Hm in *. lia.
Qed.

(** X7: for two valid dates with start before end, the window [main]
    queries before the current one is a window: it spans at least one day
    and ends before the current one starts. *)
Theorem previous_window_in_order (start_date end_date : date) :
  valid_date start_date = true ->
  valid_date end_date = true ->
  date_ltb start_date end_date = true ->
  1 <= App.period_length start_date end_date
  /\ App.previous_start start_date end_date <= App.previous_end start_date
  /\ App.previous_end start_date < Timestamp_of_date start_date
  /\ Timestamp_of_date start_date < Timestamp_of_date end_date.
Proof.
  intros Hs He Hlt.
  pose proof (toordinal_lt _ _ Hs He Hlt) as Hord.
  unfold App.period_length, App.previous_start, App.previous_end,
    App.period_length, minus_days, Timestamp_of_date.
  rewrite timedelta_days_midnights. unfold seconds_per_day. lia.
Qed.

Lemma previous_window_in_order_witness :
  1 <= App.period_length (mkdate 2023 1 1) (mkdate 2023 6 30)
  /\ App.previous_start (mkdate 2023 1 1) (mkdate 2023 6 30)
     <= App.previous_end (mkdate 2023 1 1)
  /\ App.previous_end (mkdate 2023 1 1) < Timestamp_of_date (mkdate 2023 1 1)
  /\ Timestamp_of_date (mkdate 2023 1 1) < Timestamp_of_date (mkdate 2023 6 30).
Proof.
  exact (previous_window_in_order (mkdate 2023 1 1) (mkdate 2023 6 30)
           eq_refl eq_refl eq_refl).
Defined.

(** *** Five stars in all *)

Lemma review_scores_bounds (rs : list SalesRow.t) :
  Forall (fun r => match SalesRow.review_score r with
                   | Some s => 1 <= s <= 5
                   | None => True
                   end) rs ->
  (inject_Z (Z.of_nat (List.length (App.review_scores rs)))
   <= sum (App.review_scores rs)
   <= 5 * inject_Z (Z.of_nat (List.length (App.review_scores rs))))%Q.
Proof.
  induction 1 as [| r rs Hr _ IH]; [split; unfold Qle; simpl; lia |].
  unfold App.review_scores in *. cbn [flat_map].
  destruct (SalesRow.review_score r) as [s |]; [| exact IH].
  cbn [app List.length sum fold_right]. change (fold_right Qplus 0%Q ?l) with (sum l).
  rewrite Nat2Z.inj_succ, <- Z.add_1_r, inject_Z_plus.
  change (inject_Z 1) with 1%Q.
  assert (Hs : (1 <= inject_Z s <= 5)%Q).
  { change 1%Q with (inject_Z 1). change 5%Q with (inject_Z 5).
    rewrite <- !Zle_Qle. exact Hr. }
  split; lra.
Qed.

Lemma round_between (x : Q) (lo hi : Z) :
  (inject_Z lo <= x <= inject_Z hi)%Q -> lo <= round x <= hi.
Proof.
  intros [Hlo Hhi].
  destruct (round_nearest_even x) as [[Hl Hu] _].
  assert (H1 : (inject_Z (lo - 1) < inject_Z (round x))%Q).
  { unfold Z.sub. rewrite inject_Z_plus. change (inject_Z (- (1))) with (- (1))%Q. lra. }
  assert (H2 : (inject_Z (round x) < inject_Z (hi + 1))%Q).
  { rewrite inject_Z_plus. change (inject_Z 1) with 1%Q. lra. }
  rewrite <- Zlt_Qlt in H1, H2. lia.
Qed.

(** X8: when every review score lies between 1 and 5, the mean lies
    between 1 and 5, and the card shows between one and five filled stars
    followed by hollow ones, five stars in all. *)
Theorem review_stars_one_to_five (data : SalesFrame) :
  App.has_reviews data = true ->
  Forall (fun r => match SalesRow.review_score r with
                   | Some s => 1 <= s <= 5
                   | None => True
                   end) (rows data) ->
  exists delivery avg_review filled,
    App.create_bottom_cards data
    = Ok (delivery,
          App.ReviewScore avg_review
            (repeat App.Filled filled ++ repeat App.Hollow (5 - filled))%list)
    /\ (1 <= avg_review <= 5)%Q
    /\ Z.of_nat filled = round avg_review
    /\ (1 <= filled <= 5)%nat
    /\ List.length (repeat App.Filled filled ++ repeat App.Hollow (5 - filled))%list
       = 5%nat.
Proof.
  intros Hrev Hscores.
  pose proof (review_scores_bounds (rows data) Hscores) as [Hlo Hhi].
  unfold App.create_bottom_cards, App.review_card. rewrite Hrev.
  unfold App.has_reviews in Hrev. apply andb_true_iff in Hrev as [_ Hany].
  pose proof (review_scores_nonempty _ Hany) as Hne.
  rewrite (mean_nonempty _ Hne). cbn [bind].
  set (n := inject_Z (Z.of_nat (List.length (App.review_scores (rows data))))) in *.
  set (avg := (sum (App.review_scores (rows data)) / n)%Q).
  assert (Hn : (0 < n)%Q).
  { subst n. change 0%Q with (inject_Z 0). rewrite <- Zlt_Qlt.
    destruct (App.review_scores (rows data)); [congruence | simpl; lia]. }
  assert (Havg : (1 <= avg <= 5)%Q).
  { subst avg. split.
    - apply Qle_shift_div_l; [exact Hn | lra].
    - apply Qle_shift_div_r; [exact Hn | lra]. }
  assert (Hround : 1 <= round avg <= 5) by (apply round_between; exact Havg).
  exists (App.delivery_card data), avg, (Z.to_nat (round avg)).
  split.
  { unfold App.str_repeat.
    replace (5 - Z.to_nat (round avg))%nat with (Z.to_nat (5 - round avg)) by lia.
    reflexivity. }
  split; [exact Havg |].
  split; [lia |]. split; [lia |].
  rewrite length_app, !repeat_length. lia.
Qed.

Lemma review_stars_one_to_five_witness :
  exists delivery avg_review filled,
    App.create_bottom_cards two_orders
    = Ok (delivery,
          App.ReviewScore avg_review
            (repeat App.Filled filled ++ repeat App.Hollow (5 - filled))%list)
    /\ (1 <= filled <= 5)%nat.
Proof.
  destruct (review_stars_one_to_five two_orders eq_refl)
    as (delivery & avg_review & filled & Hcards & _ & _ & Hfilled & _).
  - repeat constructor; simpl; lia.
  - exists delivery, avg_review, filled. split; assumption.
Defined.

(** *** Where the fact rows come from *)

Lemma merge_left_In {L R : Type} (lkey : L -> string) (rkey : R -> string)
    (left : list L) (right : list R) (l : L) (o : option R) :
  In (l, o) (merge_left lkey rkey left right) ->
  In l left
  /\ match o with
     | Some r => In r right /\ lkey l = rkey r
     | None => forall r, In r right -> lkey l <> rkey r
     end.
Proof.
  unfold merge_left. rewrite in_flat_map. intros (l' & Hl' & Hin).
  destruct (filter (fun r => String.eqb (lkey l') (rkey r)) right) as [| r0 rest] eqn:Hf.
  - destruct Hin as [Heq | []]. injection Heq as Hl Ho. subst l' o.
    split; [assumption |]. intros r Hr Hk.
    assert (Hin : In r (filter (fun r => String.eqb (lkey l) (rkey r)) right))
      by (apply filter_In; split; [assumption | now apply String.eqb_eq]).
    rewrite Hf in Hin. contradiction.
  - apply in_map_iff in Hin as (r & Heq & Hr). injection Heq as Hl Ho. subst l' o.
    split; [assumption |]. rewrite <- Hf in Hr.
    apply filter_In in Hr as [Hr Hk]. apply String.eqb_eq in Hk. auto.
Qed.

(** A fact row was purchased inside the window it was built for. *)
Lemma fact_row_purchased_in_window (l : DataLoader.EcommerceDataLoader)
    (start_date end_date : Timestamp) (sales_data : SalesFrame)
    (filtered_orders : list Order.t) (row : SalesRow.t) (t : Timestamp) :
  App.filter_data_by_date l start_date end_date = Ok (sales_data, filtered_orders) ->
  In row (rows sales_data) ->
  SalesRow.order_purchase_timestamp row = Some t ->
  start_date <= t <= end_date.
Proof.
  unfold App.filter_data_by_date.
  destruct (DataLoader.orders l) as [orders |]; [| discriminate].
  destruct (DataLoader.order_items l) as [order_items |]; [| discriminate].
  destruct (DataLoader.products l) as [products |]; [| discriminate].
  destruct (DataLoader.customers l) as [customers |]; [| discriminate].
  destruct (DataLoader.reviews l) as [reviews |]; [| discriminate].
  cbn [App.table bind]. intros Heq. injection Heq as <- <-.
  cbn [rows]. unfold App.merge_sales. intros Hrow Ht.
  apply in_map_iff in Hrow as ([[[[item d] product] customer] review] & <- & H4).
  apply merge_left_In in H4 as [H3 _].
  apply merge_left_In in H3 as [H2 _].
  apply merge_left_In in H2 as [H1 _].
  apply merge_inner_In in H1 as (_ & Hd & _).
  apply in_map_iff in Hd as (order & <- & Horder).
  apply filter_In in Horder as [Horder _].
  apply filter_In in Horder as [_ Hw].
  cbn in Ht. unfold App.in_window in Hw. rewrite Ht in Hw.
  apply andb_true_iff in Hw as [H1 H2]. apply Z.leb_le in H1, H2. lia.
Qed.

(** X9: every row of the fact table [filter_data_by_date] returns comes
    from an order item and an order of the loader with the same
    [order_id]; the order is delivered, was purchased inside the window
    (both ends included) and has a delivery date, and the row carries the
    item's price and the whole days between purchase and delivery.  No
    column has been assigned to the frame yet, and the orders returned
    beside it all lie inside the window. *)
Theorem fact_rows_delivered_in_window (l : DataLoader.EcommerceDataLoader)
    (start_date end_date : Timestamp) (sales_data : SalesFrame)
    (filtered_orders : list Order.t) :
  App.filter_data_by_date l start_date end_date = Ok (sales_data, filtered_orders) ->
  assigned sales_data = []
  /\ (forall row, In row (rows sales_data) ->
      exists item order purchased delivered,
        In item (match DataLoader.order_items l with Some t => t | None => [] end)
        /\ In order (match DataLoader.orders l with Some t => t | None => [] end)
        /\ OrderItem.order_id item = Order.order_id order
        /\ Order.order_status order = "delivered"
        /\ Order.order_purchase_timestamp order = Some purchased
        /\ Order.order_delivered_customer_date order = Some delivered
        /\ start_date <= purchased <= end_date
        /\ SalesRow.order_id row = Order.order_id order
        /\ SalesRow.customer_id row = Order.customer_id order
        /\ SalesRow.order_status row = "delivered"
        /\ SalesRow.product_id row = OrderItem.product_id item
        /\ SalesRow.price row = OrderItem.price item
        /\ SalesRow.order_purchase_timestamp row = Some purchased
        /\ SalesRow.delivery_days row = Some (timedelta_days delivered purchased))
  /\ (forall order, In order filtered_orders ->
      exists purchased,
        Order.order_purchase_timestamp order = Some purchased
        /\ start_date <= purchased <= end_date).
Proof.
  unfold App.filter_data_by_date.
  destruct (DataLoader.orders l) as [orders |]; [| discriminate].
  destruct (DataLoader.order_items l) as [order_items |]; [| discriminate].
  destruct (DataLoader.products l) as [products |]; [| discriminate].
  destruct (DataLoader.customers l) as [customers |]; [| discriminate].
  destruct (DataLoader.reviews l) as [reviews |]; [| discriminate].
  cbn [App.table bind]. intros Heq. injection Heq as <- <-.
  assert (Hwin : forall order, In order (filter (App.in_window start_date end_date) orders) ->
            In order orders
            /\ exists purchased,
                 Order.order_purchase_timestamp order = Some purchased
                 /\ start_date <= purchased <= end_date).
  { intros order Hin. apply filter_In in Hin as [Hin Hw]. split; [assumption |].
    unfold App.in_window in Hw.
    destruct (Order.order_purchase_timestamp order) as [t |]; [| discriminate].
    apply andb_true_iff in Hw as [H1 H2]. apply Z.leb_le in H1, H2. eauto. }
  split; [reflexivity |]. split.
  - cbn [rows]. intros row Hrow. unfold App.merge_sales in Hrow.
    apply in_map_iff in Hrow as ([[[[item d] product] customer] review] & <- & H4).
    apply merge_left_In in H4 as [H3 _].
    apply merge_left_In in H3 as [H2 _].
    apply merge_left_In in H2 as [H1 _].
    apply merge_inner_In in H1 as (Hitem & Hd & Hkey).
    apply in_map_iff in Hd as (order & <- & Horder).
    apply filter_In in Horder as [Horder Hdel].
    destruct (Hwin order Horder) as (Hin & purchased & Hp & Hrange).
    unfold App.is_delivered in Hdel. apply andb_true_iff in Hdel as [Hstatus Hdate].
    apply String.eqb_eq in Hstatus.
    destruct (Order.order_delivered_customer_date order) as [delivered |] eqn:Hdd;
      [| discriminate].
    exists item, order, purchased, delivered.
    cbn. unfold App.delivery_days_of. rewrite Hdd, Hp.
    repeat (split; [assumption || reflexivity || lia |]). reflexivity.
  - intros order Hin. now apply Hwin.
Qed.

Lemma fact_rows_delivered_in_window_witness :
  exists sales_data filtered_orders,
    App.filter_data_by_date small_loader
      (Timestamp_of_date (mkdate 2023 1 1)) (Timestamp_of_date (mkdate 2023 1 31))
    = Ok (sales_data, filtered_orders)
    /\ map SalesRow.order_id (rows sales_data) = ["o1"]
    /\ assigned sales_data = [].
Proof.
  do 2 eexists. split; [reflexivity |].
  split; [reflexivity |].
  exact (proj1 (fact_rows_delivered_in_window small_loader
                  (Timestamp_of_date (mkdate 2023 1 1))
                  (Timestamp_of_date (mkdate 2023 1 31)) _ _ eq_refl)).
Defined.

(** *** The two windows on the time line *)

(** X10: the two fact tables [main] builds never share a purchase: every
    row of the previous table was purchased at least a day before every
    row of the current one.  The windows are bounded by midnights, so a
    purchase during the day before the start date, later than midnight,
    is in neither table, and a purchase on the end date is in the current
    table only if it was made at midnight sharp. *)
Theorem windows_bounded_by_midnights (l : DataLoader.EcommerceDataLoader)
    (start_date end_date : date) (current_data previous_data : SalesFrame)
    (current_orders previous_orders : list Order.t) :
  App.filter_data_by_date l (Timestamp_of_date start_date)
    (Timestamp_of_date end_date) = Ok (current_data, current_orders) ->
  App.filter_data_by_date l (App.previous_start start_date end_date)
    (App.previous_end start_date) = Ok (previous_data, previous_orders) ->
  (forall current previous t t',
      In current (rows current_data) -> In previous (rows previous_data) ->
      SalesRow.order_purchase_timestamp current = Some t ->
      SalesRow.order_purchase_timestamp previous = Some t' ->
      t' + seconds_per_day <= t)
  /\ (forall row t,
        In row (rows current_data) \/ In row (rows previous_data) ->
        SalesRow.order_purchase_timestamp row = Some t ->
        ~ (Timestamp_of_date start_date - seconds_per_day < t
           < Timestamp_of_date start_date))
  /\ (forall row t,
        In row (rows current_data) ->
        SalesRow.order_purchase_timestamp row = Some t ->
        t / seconds_per_day = toordinal end_date ->
        t = Timestamp_of_date end_date).
Proof.
  intros Hcur Hprev.
  assert (Hc' : forall row t, In row (rows current_data) ->
            SalesRow.order_purchase_timestamp row = Some t ->
            Timestamp_of_date start_date <= t <= Timestamp_of_date end_date)
    by (intros row t; apply (fact_row_purchased_in_window _ _ _ _ _ row t Hcur)).
  assert (Hp' : forall row t, In row (rows previous_data) ->
            SalesRow.order_purchase_timestamp row = Some t ->
            t <= Timestamp_of_date start_date - seconds_per_day).
  { intros row t Hin Ht.
    pose proof (fact_row_purchased_in_window _ _ _ _ _ row t Hprev Hin Ht) as H.
    unfold App.previous_end, minus_days in H. lia. }
  split; [| split].
  - intros c p t t' Hinc Hinp Ht Ht'.
    specialize (Hc' c t Hinc Ht). specialize (Hp' p t' Hinp Ht'). lia.
  - intros row t [Hin | Hin] Ht Hgap.
    + specialize (Hc' row t Hin Ht). lia.
    + specialize (Hp' row t Hin Ht). lia.
  - intros row t Hin Ht Hday.
    specialize (Hc' row t Hin Ht). unfold Timestamp_of_date in *.
    rewrite <- Hday in *. unfold seconds_per_day in *.
    Z.div_mod_to_equations. lia.
Qed.

Lemma windows_bounded_by_midnights_witness :
  exists current_data previous_data current_orders previous_orders,
    App.filter_data_by_date small_loader (Timestamp_of_date (mkdate 2023 2 1))
      (Timestamp_of_date (mkdate 2023 2 28)) = Ok (current_data, current_orders)
    /\ App.filter_data_by_date small_loader
         (App.previous_start (mkdate 2023 2 1) (mkdate 2023 2 28))
         (App.previous_end (mkdate 2023 2 1)) = Ok (previous_data, previous_orders)
    /\ map SalesRow.order_id (rows current_data) = ["o2"]
    /\ map SalesRow.order_id (rows previous_data) = ["o1"]
    /\ forall current previous t t',
         In current (rows current_data) -> In previous (rows previous_data) ->
         SalesRow.order_purchase_timestamp current = Some t ->
         SalesRow.order_purchase_timestamp previous = Some t' ->
         t' + seconds_per_day <= t.
Proof.
  do 4 eexists.
  split; [reflexivity |]. split; [reflexivity |].
  split; [reflexivity |]. split; [reflexivity |].
  exact (proj1 (windows_bounded_by_midnights small_loader (mkdate 2023 2 1)
                  (mkdate 2023 2 28) _ _ _ _ eq_refl eq_refl)).
Defined.

(** *** Monthly series *)

Lemma add_to_group_keys (k : Z) (v : Q) (groups : list (Z * Q)) (k' : Z) :
  In k' (map fst (add_to_group k v groups)) <-> k' = k \/ In k' (map fst groups).
Proof.
  induction groups as [| [k0 s] rest IH]; simpl.
  - intuition.
  - destruct (Z.ltb_spec k k0); [simpl; intuition |].
    destruct (Z.eqb_spec k k0) as [-> | Hne]; simpl; [intuition |].
    rewrite IH. intuition.
Qed.

Lemma add_to_group_sorted (k : Z) (v : Q) (groups : list (Z * Q)) :
  StronglySorted Z.lt (map fst groups) ->
  StronglySorted Z.lt (map fst (add_to_group k v groups)).
Proof.
  induction groups as [| [k0 s] rest IH]; simpl; intros Hs.
  - repeat constructor.
  - apply StronglySorted_inv in Hs as [Hrest Hall].
    destruct (Z.ltb_spec k k0) as [Hlt | Hge].
    + simpl. constructor; [constructor; assumption |].
      constructor; [assumption |].
      eapply Forall_impl; [| exact Hall]. intros a Ha. cbn in *. lia.
    + destruct (Z.eqb_spec k k0) as [-> | Hne]; simpl.
      * constructor; assumption.
      * constructor; [now apply IH |].
        apply Forall_forall. intros a Ha.
        apply add_to_group_keys in Ha as [-> | Ha]; [lia |].
        rewrite Forall_forall in Hall. now apply Hall.
Qed.

Lemma add_to_group_sum (k : Z) (v : Q) (groups : list (Z * Q)) :
  (sum (map snd (add_to_group k v groups)) == v + sum (map snd groups))%Q.
Proof.
  induction groups as [| [k0 s] rest IH]; simpl.
  - reflexivity.
  - destruct (k <? k0); [simpl; reflexivity |].
    destruct (k =? k0); simpl.
    + ring.
    + change (fold_right Qplus 0%Q ?l) with (sum l). rewrite IH. ring.
Qed.

Lemma groupby_sum_from (kvs : list (Z * Q)) (groups : list (Z * Q)) :
  let result := fold_left (fun g kv => add_to_group (fst kv) (snd kv) g) kvs groups in
  (StronglySorted Z.lt (map fst groups) -> StronglySorted Z.lt (map fst result))
  /\ (forall k, In k (map fst result) <-> In k (map fst kvs) \/ In k (map fst groups))
  /\ (sum (map snd result) == sum (map snd kvs) + sum (map snd groups))%Q.
Proof.
  revert groups. induction kvs as [| [k v] kvs IH]; intros groups; cbn zeta.
  - simpl. split; [auto |]. split; [intuition | ring].
  - cbn [fold_left fst snd]. destruct (IH (add_to_group k v groups)) as (Hs & Hk & Hsum).
    split; [| split].
    + intros Hg. apply Hs. now apply add_to_group_sorted.
    + intros k'. rewrite Hk, add_to_group_keys. simpl. intuition.
    + rewrite Hsum, add_to_group_sum. simpl. ring.
Qed.

(** [groupby(...).sum()] gives one entry per key, keys ascending, and the
    sums add up to the total. *)
Lemma groupby_sum_spec (kvs : list (Z * Q)) :
  StronglySorted Z.lt (map fst (groupby_sum kvs))
  /\ (forall k, In k (map fst (groupby_sum kvs)) <-> In k (map fst kvs))
  /\ (sum (map snd (groupby_sum kvs)) == sum (map snd kvs))%Q.
Proof.
  unfold groupby_sum. destruct (groupby_sum_from kvs []) as (Hs & Hk & Hsum).
  split; [apply Hs; constructor |]. split.
  - intros k. rewrite Hk. simpl. intuition.
  - rewrite Hsum. simpl. ring.
Qed.

Lemma add_to_group_lookup (k : Z) (v : Q) (groups : list (Z * Q)) (k0 : Z) :
  (sum (map snd (filter (fun kv => fst kv =? k0) (add_to_group k v groups)))
   == (if k =? k0 then v else 0)
      + sum (map snd (filter (fun kv => fst kv =? k0) groups)))%Q.
Proof.
  unfold sum. induction groups as [| [k' s] rest IH].
  - cbn. destruct (k =? k0); cbn; ring.
  - cbn [add_to_group].
    destruct (Z.ltb_spec k k') as [Hlt | Hge].
    + cbn [filter fst]. destruct (k =? k0), (k' =? k0);
        cbn [map snd fold_right]; ring.
    + destruct (Z.eqb_spec k k') as [-> | Hne].
      * cbn [filter fst]. destruct (k' =? k0); cbn [map snd fold_right]; ring.
      * cbn [filter fst]. destruct (k' =? k0); cbn [map snd fold_right];
          rewrite IH; destruct (k =? k0); ring.
Qed.

Lemma groupby_sum_lookup_from (kvs groups : list (Z * Q)) (k0 : Z) :
  (sum (map snd (filter (fun kv => fst kv =? k0)
                   (fold_left (fun g kv => add_to_group (fst kv) (snd kv) g)
                      kvs groups)))
   == sum (map snd (filter (fun kv => fst kv =? k0) kvs))
      + sum (map snd (filter (fun kv => fst kv =? k0) groups)))%Q.
Proof.
  revert groups. induction kvs as [| [k v] kvs IH]; intros groups.
  - cbn [fold_left filter map]. unfold sum at 2. cbn [fold_right]. ring.
  - cbn [fold_left fst snd]. rewrite IH, add_to_group_lookup.
    cbn [filter fst]. unfold sum.
    destruct (k =? k0); cbn [map snd fold_right]; ring.
Qed.

Lemma sorted_lookup (groups : list (Z * Q)) (k : Z) (s : Q) :
  StronglySorted Z.lt (map fst groups) ->
  In (k, s) groups ->
  (sum (map snd (filter (fun kv => fst kv =? k) groups)) == s)%Q.
Proof.
  induction groups as [| [k' s'] rest IH]; [contradiction |].
  cbn [map fst]. intros Hs Hin. apply StronglySorted_inv in Hs as [Hrest Hall].
  rewrite Forall_forall in Hall.
  destruct Hin as [Heq | Hin].
  - injection Heq as -> ->. cbn [filter fst]. rewrite Z.eqb_refl.
    cbn [map snd sum fold_right]. change (fold_right Qplus 0%Q ?l) with (sum l).
    assert (Hnone : filter (fun kv : Z * Q => fst kv =? k) rest = []).
    { clear - Hall. induction rest as [| [a b] rest IH]; [reflexivity |].
      cbn [filter fst].
      assert (k < a) by (apply Hall; now left).
      destruct (Z.eqb_spec a k); [lia |]. apply IH.
      intros x Hx. apply Hall. now right. }
    rewrite Hnone. unfold sum. cbn [map fold_right]. ring.
  - assert (Hlt : k' < k) by (apply Hall; apply (in_map fst) in Hin; exact Hin).
    cbn [filter fst]. destruct (Z.eqb_spec k' k); [lia |]. now apply IH.
Qed.

(** An entry of a [groupby] sum is the sum over the rows with its key. *)
Lemma groupby_sum_entry (kvs : list (Z * Q)) (k : Z) (s : Q) :
  In (k, s) (groupby_sum kvs) ->
  (s == sum (map snd (filter (fun kv => fst kv =? k) kvs)))%Q.
Proof.
  intros Hin. destruct (groupby_sum_spec kvs) as (Hs & _ & _).
  rewrite <- (sorted_lookup _ _ _ Hs Hin). unfold groupby_sum.
  rewrite groupby_sum_lookup_from. cbn [filter map]. unfold sum at 2.
  cbn [fold_right]. ring.
Qed.

(** The rows that have a purchase month, with it. *)
Lemma keyed_prices_year_month (rs : list SalesRow.t) :
  App.keyed_prices
    (map (fun r => option_map to_period_M (SalesRow.order_purchase_timestamp r)) rs) rs
  = flat_map (fun r => match SalesRow.order_purchase_timestamp r with
                       | Some t => [(to_period_M t, SalesRow.price r)]
                       | None => []
                       end) rs.
Proof.
  induction rs as [| r rs IH]; [reflexivity |].
  cbn [map App.keyed_prices flat_map].
  destruct (SalesRow.order_purchase_timestamp r); cbn [option_map]; now rewrite IH.
Qed.

Lemma monthly_keys (df : SalesFrame) (m : Z) :
  In m (map fst (App.keyed_prices (App.year_month_of df) (rows df)))
  <-> exists row t, In row (rows df)
                    /\ SalesRow.order_purchase_timestamp row = Some t
                    /\ to_period_M t = m.
Proof.
  unfold App.year_month_of. rewrite keyed_prices_year_month.
  rewrite in_map_iff. split.
  - intros ([k v] & <- & Hin). apply in_flat_map in Hin as (row & Hrow & Hin).
    destruct (SalesRow.order_purchase_timestamp row) as [t |] eqn:Ht; [| contradiction].
    destruct Hin as [Heq | []]. injection Heq as <- <-. eauto.
  - intros (row & t & Hrow & Ht & <-).
    exists (to_period_M t, SalesRow.price row). split; [reflexivity |].
    apply in_flat_map. exists row. split; [assumption |]. rewrite Ht. now left.
Qed.

Lemma monthly_total (df : SalesFrame) :
  (sum (map snd (App.keyed_prices (App.year_month_of df) (rows df)))
   == sum (map SalesRow.price
             (filter (fun r => match SalesRow.order_purchase_timestamp r with
                               | Some _ => true
                               | None => false
                               end) (rows df))))%Q.
Proof.
  unfold App.year_month_of. rewrite keyed_prices_year_month.
  induction (rows df) as [| r rs IH]; [reflexivity |].
  cbn [flat_map filter].
  destruct (SalesRow.order_purchase_timestamp r); cbn [app map snd sum fold_right];
    change (fold_right Qplus 0%Q ?l) with (sum l); rewrite IH; reflexivity.
Qed.


(** *** Month-over-month growth *)

Lemma calculate_kpis_monthly (current_data previous_data : SalesFrame) :
  exists k,
    App.calculate_kpis current_data previous_data
    = Ok (k, current_after current_data, previous_after previous_data)
    /\ App.monthly_growth k
       = match rev (groupby_sum
                      (App.keyed_prices (App.year_month_of current_data)
                         (rows current_data))) with
         | (_, latest_month) :: (_, prev_month) :: _ =>
             App.growth (Fin latest_month) (Fin prev_month)
         | _ => Fin 0
         end.
Proof.
  destruct (previous_totals previous_data) as [Hrev Hord].
  unfold App.calculate_kpis. cbv zeta.
  rewrite Hrev, Hord, orders_growth_spec. cbn [bind].
  rewrite monthly_revenue_setitem. cbn [bind].
  rewrite len_setitem. unfold current_after, previous_after.
  destruct (len previous_data >? 0);
    [rewrite monthly_revenue_setitem |]; cbn [bind]; eexists; split; reflexivity.
Qed.

Lemma sorted_last_two (series : list (Z * Q)) (m1 m2 : Z) (r1 r2 : Q)
    (earlier : list (Z * Q)) :
  StronglySorted Z.lt (map fst series) ->
  series = (earlier ++ [(m1, r1); (m2, r2)])%list ->
  m1 < m2 /\ (forall m, In m (map fst series) -> m < m1 \/ m = m1 \/ m = m2).
Proof.
  intros Hs ->. revert Hs. induction earlier as [| [k v] rest IH]; cbn [app map fst].
  - intros Hs. apply StronglySorted_inv in Hs as [_ Hall].
    apply Forall_inv in Hall. split; [assumption |].
    intros m [<- | [<- | []]]; auto.
  - intros Hs. apply StronglySorted_inv in Hs as [Hrest Hall].
    destruct (IH Hrest) as [Hlt Hin]. split; [assumption |].
    intros m [<- | Hm]; [| now apply Hin].
    left. rewrite Forall_forall in Hall. apply Hall.
    rewrite map_app. apply in_or_app. right. now left.
Qed.

Lemma monthly_lookup (df : SalesFrame) (m : Z) :
  (sum (map snd (filter (fun kv => fst kv =? m)
                   (App.keyed_prices (App.year_month_of df) (rows df))))
   == sum (map SalesRow.price
             (filter (fun r => match SalesRow.order_purchase_timestamp r with
                               | Some t => to_period_M t =? m
                               | None => false
                               end) (rows df))))%Q.
Proof.
  unfold App.year_month_of. rewrite keyed_prices_year_month. unfold sum.
  induction (rows df) as [| r rs IH]; [reflexivity |].
  cbn [flat_map filter].
  destruct (SalesRow.order_purchase_timestamp r) as [t |]; [| exact IH].
  cbn [app filter fst]. destruct (to_period_M t =? m); [| exact IH].
  cbn [map snd fold_right]. now rewrite IH.
Qed.


(** *** The delivery card *)

Lemma dropna_delivery_nonempty (rs : list SalesRow.t) :
  existsb (fun r => match SalesRow.delivery_days r with
                    | Some _ => true
                    | None => false
                    end) rs = true ->
  App.dropna_delivery rs <> [].
Proof.
  induction rs as [| r rs IH]; simpl; [discriminate |].
  unfold App.dropna_delivery; simpl.
  destruct (SalesRow.delivery_days r); simpl; [discriminate | exact IH].
Qed.

Lemma dropna_delivery_none (rs : list SalesRow.t) :
  existsb (fun r => match SalesRow.delivery_days r with
                    | Some _ => true
                    | None => false
                    end) rs = false
  <-> Forall (fun r => SalesRow.delivery_days r = None) rs.
Proof.
  induction rs as [| r rs IH]; simpl.
  - split; [constructor | reflexivity].
  - destruct (SalesRow.delivery_days r) eqn:Hd; simpl.
    + split; [discriminate |]. intros H. inversion H. congruence.
    + rewrite IH. split; [now constructor |]. intros H. now inversion H.
Qed.

Lemma delivery_mean_nonempty (rs : list (option Period * Z)) :
  rs <> [] -> exists q, App.delivery_mean rs = Fin q.
Proof.
  intros Hne. unfold App.delivery_mean. rewrite mean_nonempty; eauto.
  destruct rs; [congruence | discriminate].
Qed.

Lemma max_period_same (m : Period) (ps : list (option Period)) (acc : option Period) :
  Forall (fun p => p = Some m) ps ->
  (acc = None \/ acc = Some m) ->
  fold_left (fun acc p => match acc, p with
                          | Some a, Some b => Some (Z.max a b)
                          | None, _ => p
                          | _, None => acc
                          end) ps acc
  = match ps with [] => acc | _ => Some m end.
Proof.
  intros Hall. revert acc. induction Hall as [| p ps -> _ IH]; intros acc Hacc.
  - reflexivity.
  - cbn [fold_left].
    destruct Hacc as [-> | ->]; rewrite ?Z.max_id, IH by auto; now destruct ps.
Qed.

Lemma max_period_from (ps : list (option Period)) (acc : option Period) :
  fold_left
    (fun acc p =>
       match acc, p with
       | Some a, Some b => Some (Z.max a b)
       | None, _ => p
       | _, None => acc
       end) ps acc
  = match acc, App.max_period ps with
    | Some a, Some b => Some (Z.max a b)
    | None, latest => latest
    | _, None => acc
    end.
Proof.
  unfold App.max_period.
  revert acc. induction ps as [| p ps IH]; intros acc.
  - now destruct acc.
  - cbn [fold_left].
    match goal with |- fold_left _ ps ?x = _ => rewrite (IH x) end.
    destruct p as [b |].
    + rewrite (IH (Some b)).
      destruct acc as [a |];
        match goal with |- context [fold_left ?f ps None] =>
          destruct (fold_left f ps None) as [c |] end;
        try reflexivity.
      f_equal. lia.
    + destruct acc as [a |]; reflexivity.
Qed.

(** [Series.max()] of the purchase months: the latest one, NaT when there
    is none. *)
Lemma max_period_spec (ps : list (option Period)) :
  match App.max_period ps with
  | Some latest =>
      In (Some latest) ps /\ forall m, In (Some m) ps -> m <= latest
  | None => forall m, ~ In (Some m) ps
  end.
Proof.
  induction ps as [| p ps IH]; [intros m [] |].
  assert (Hstep : App.max_period (p :: ps)
                  = match p, App.max_period ps with
                    | Some a, Some b => Some (Z.max a b)
                    | None, latest => latest
                    | _, None => p
                    end).
  { unfold App.max_period at 1. cbn [fold_left]. apply max_period_from. }
  rewrite Hstep. clear Hstep.
  destruct p as [b |], (App.max_period ps) as [c |].
  - destruct IH as [Hin Hmax]. split.
    + destruct (Z.max_spec b c) as [[_ ->] | [_ ->]]; [now right | now left].
    + intros m [Heq | Hm]; [injection Heq as <-; lia |].
      specialize (Hmax m Hm). lia.
  - split; [now left |]. intros m [Heq | Hm]; [injection Heq as <-; lia |].
    now apply IH in Hm.
  - destruct IH as [Hin Hmax]. split; [now right |].
    intros m [Heq | Hm]; [discriminate | now apply Hmax].
  - intros m [Heq | Hm]; [discriminate | now apply IH in Hm].
Qed.

Lemma delivery_days_all (rs : list SalesRow.t) (keep : option Timestamp -> bool) :
  (forall purchased, keep purchased = true) ->
  map (fun r => inject_Z (snd r)) (App.dropna_delivery rs)
  = flat_map (fun r => match SalesRow.delivery_days r with
                       | Some d =>
                           if keep (SalesRow.order_purchase_timestamp r)
                           then [inject_Z d] else []
                       | None => []
                       end) rs.
Proof.
  intros Hkeep. unfold App.dropna_delivery.
  induction rs as [| r rs IH]; [reflexivity |].
  cbn [flat_map]. rewrite map_app, IH.
  destruct (SalesRow.delivery_days r); [| reflexivity].
  now rewrite Hkeep.
Qed.

Lemma delivery_days_in (rs : list SalesRow.t) (m : Period) :
  map (fun r => inject_Z (snd r))
    (filter (App.in_month (Some m)) (App.dropna_delivery rs))
  = flat_map (fun r => match SalesRow.delivery_days r with
                       | Some d =>
                           if match SalesRow.order_purchase_timestamp r with
                              | Some t => to_period_M t =? m
                              | None => false
                              end
                           then [inject_Z d] else []
                       | None => []
                       end) rs.
Proof.
  unfold App.dropna_delivery.
  induction rs as [| r rs IH]; [reflexivity |].
  cbn [flat_map]. rewrite filter_app, map_app, IH. f_equal.
  destruct (SalesRow.delivery_days r) as [d |]; [| reflexivity].
  cbn [filter]. unfold App.in_month. cbn [fst].
  destruct (SalesRow.order_purchase_timestamp r) as [t |]; cbn [option_map];
    [| reflexivity].
  rewrite (Z.eqb_sym m). now destruct (to_period_M t =? m).
Qed.

Lemma no_month_no_rows (rs : list (option Period * Z)) :
  filter (App.in_month None) rs = [].
Proof. induction rs as [| r rs IH]; [reflexivity | exact IH]. Qed.

Lemma month_of_delivery (rs : list SalesRow.t) (m : Period) :
  In (Some m) (map fst (App.dropna_delivery rs))
  <-> filter (App.in_month (Some m)) (App.dropna_delivery rs) <> [].
Proof.
  split.
  - intros Hin Hnil. apply in_map_iff in Hin as ([p d] & Hp & Hin). cbn in Hp. subst p.
    assert (H : In (Some m, d) (filter (App.in_month (Some m)) (App.dropna_delivery rs))).
    { apply filter_In. split; [exact Hin |]. unfold App.in_month. cbn.
      apply Z.eqb_refl. }
    rewrite Hnil in H. contradiction.
  - intros Hne.
    destruct (filter (App.in_month (Some m)) (App.dropna_delivery rs))
      as [| [p d] rest] eqn:Hf; [congruence |].
    assert (H : In (p, d) (filter (App.in_month (Some m)) (App.dropna_delivery rs)))
      by (rewrite Hf; now left).
    apply filter_In in H as [Hin Hm]. unfold App.in_month in Hm. cbn in Hm.
    destruct p as [b |]; [| discriminate]. apply Z.eqb_eq in Hm. subst b.
    exact (in_map fst _ _ Hin).
Qed.

Lemma map_nonempty {A B : Type} (f : A -> B) (l : list A) :
  map f l <> [] <-> l <> [].
Proof. destruct l; simpl; split; congruence. Qed.

Lemma fallback_mean (rs : list (option Period * Z)) (fallback : float64) :
  match map (fun r => inject_Z (snd r)) rs with
  | [] => fallback
  | compared => mean compared
  end
  = match rs with
    | [] => fallback
    | _ => App.delivery_mean rs
    end.
Proof. destruct rs; reflexivity. Qed.

Lemma nonempty_mean (rs : list (option Period * Z)) (fallback : float64) :
  rs <> [] ->
  match rs with
  | [] => fallback
  | _ => App.delivery_mean rs
  end
  = mean (map (fun r => inject_Z (snd r)) rs).
Proof. destruct rs; [congruence | reflexivity]. Qed.

(** X13: the delivery card of [create_bottom_cards] shows "N/A" exactly
    when no row has [delivery_days]; otherwise its average, the mean of
    [delivery_days] over the rows that have it, and its trend are numbers,
    never infinite or NaN.  The trend compares two means of
    [delivery_days]: that of the rows purchased in the latest month, and
    that of the rows purchased in the calendar month before it, for which
    the overall average stands in when that month has no row.  It is
    [(previous - current) / previous * 100] when the previous mean is
    positive, so then positive exactly when the latest month was faster,
    and 0 when the previous mean is 0 or negative.  It is also 0 when no
    row with [delivery_days] has a purchase time, or all of them were
    purchased in one calendar month. *)
Theorem delivery_card_numbers (data : SalesFrame) :
  let days_of (keep : option Timestamp -> bool) :=
    flat_map (fun r => match SalesRow.delivery_days r with
                       | Some d =>
                           if keep (SalesRow.order_purchase_timestamp r)
                           then [inject_Z d] else []
                       | None => []
                       end) (rows data) in
  let purchased_in (m : Period) (purchased : option Timestamp) :=
    match purchased with
    | Some t => to_period_M t =? m
    | None => false
    end in
  (App.delivery_card data = App.NoDeliveryData
   <-> Forall (fun r => SalesRow.delivery_days r = None) (rows data))
  /\ (Exists (fun r => SalesRow.delivery_days r <> None) (rows data) ->
      exists avg trend,
        App.delivery_card data = App.DeliveryTime (Fin avg) (Fin trend)
        /\ mean (days_of (fun _ => true)) = Fin avg
        /\ (forall latest,
              days_of (purchased_in latest) <> [] ->
              (forall m, days_of (purchased_in m) <> [] -> m <= latest) ->
              exists current previous,
                mean (days_of (purchased_in latest)) = Fin current
                /\ match days_of (purchased_in (latest - 1)) with
                   | [] => Fin avg
                   | compared => mean compared
                   end = Fin previous
                /\ trend = (if Qltb 0 previous
                            then ((previous - current) / previous * 100)%Q
                            else 0%Q)
                /\ ((0 < previous)%Q -> ((0 < trend)%Q <-> (current < previous)%Q))
                /\ (~ (0 < previous)%Q -> trend = 0%Q))
        /\ ((forall m, days_of (purchased_in m) = []) -> (trend == 0)%Q)
        /\ (forall m,
              Forall (fun r => SalesRow.delivery_days r <> None ->
                               exists t, SalesRow.order_purchase_timestamp r = Some t
                                         /\ to_period_M t = m) (rows data) ->
              (trend == 0)%Q)).
Proof.
  cbv zeta.
  unfold App.delivery_card, App.has_delivery.
  replace (App.has_column data "delivery_days") with true by reflexivity.
  replace (App.has_column data "order_purchase_timestamp") with true by reflexivity.
  cbn [andb].
  destruct (existsb _ (rows data)) eqn:Hany.
  - pose proof (dropna_delivery_nonempty _ Hany) as Hne.
    split.
    { split; [discriminate |]. intros Hall. apply dropna_delivery_none in Hall.
      congruence. }
    intros _.
    set (dwd := App.dropna_delivery (rows data)) in *.
    destruct (delivery_mean_nonempty dwd Hne) as [avg Havg].
    set (latest := App.max_period (map fst dwd)).
    set (cmd := filter (App.in_month latest) dwd).
    set (pmd := filter (App.in_month (option_map (fun m => m - 1) latest)) dwd).
    assert (Hc : exists c, match cmd with [] => App.delivery_mean dwd
                                   | _ => App.delivery_mean cmd end = Fin c
                           /\ (cmd = [] \/ cmd = dwd -> c = avg)).
    { destruct cmd as [| x xs] eqn:Hcmd.
      - exists avg. split; [assumption | reflexivity].
      - destruct (delivery_mean_nonempty (x :: xs)) as [c Hcq]; [discriminate |].
        exists c. split; [assumption |]. intros [Heq | Heq]; [discriminate |].
        rewrite Heq in Hcq. congruence. }
    assert (Hp : exists p, match pmd with [] => App.delivery_mean dwd
                                   | _ => App.delivery_mean pmd end = Fin p
                           /\ (pmd = [] -> p = avg)).
    { destruct pmd as [| x xs] eqn:Hpmd.
      - exists avg. split; [assumption | reflexivity].
      - destruct (delivery_mean_nonempty (x :: xs)) as [p Hpq]; [discriminate |].
        exists p. split; [assumption |]. discriminate. }
    destruct Hc as (c & Hc & Hcall). destruct Hp as (p & Hp & Hpnone).
    rewrite Hc, Hp, Havg.
    exists avg, (if Qltb 0 p then ((p - c) / p * 100)%Q else 0%Q).
    split.
    { f_equal. cbn [gt0 sub np_div mul].
      destruct (Qltb 0 p) eqn:Hpos; [| reflexivity].
      apply Qltb_true in Hpos. now rewrite (Qeq_bool_pos p Hpos). }
    split.
    { rewrite <- (delivery_days_all (rows data) (fun _ => true)) by reflexivity.
      exact Havg. }
    assert (Hsame : (c = avg -> p = avg ->
                     (if Qltb 0 p then (p - c) / p * 100 else 0) == 0)%Q).
    { intros -> ->. destruct (Qltb 0 avg) eqn:Hpos; [| reflexivity].
      apply Qltb_true in Hpos. field. lra. }
    split; [| split].
    + intros m Hm Hlast.
      rewrite <- delivery_days_in in Hm. apply map_nonempty in Hm.
      fold dwd in Hm.
      assert (Hlatest : latest = Some m).
      { subst latest. pose proof (max_period_spec (map fst dwd)) as Hspec.
        destruct (App.max_period (map fst dwd)) as [l |].
        - destruct Hspec as [Hin Hmax]. f_equal.
          assert (m <= l) by (apply Hmax; now apply month_of_delivery).
          assert (l <= m).
          { apply Hlast. rewrite <- delivery_days_in. apply map_nonempty.
            now apply month_of_delivery. }
          lia.
        - exfalso. apply (Hspec m). now apply month_of_delivery. }
      subst cmd pmd. rewrite Hlatest in *. cbn [option_map] in *.
      rewrite <- !delivery_days_in. unfold dwd in *.
      exists c, p. split; [| split; [| split; [reflexivity | split]]].
      * rewrite <- (nonempty_mean _ (App.delivery_mean dwd) Hm). exact Hc.
      * rewrite fallback_mean, <- Havg. exact Hp.
      * intros Hpos. pose proof Hpos as Hb. apply Qltb_true in Hb. rewrite Hb.
        assert (Hup : (c < p -> 0 < (p - c) / p)%Q).
        { intros Hlt. apply Qlt_shift_div_l; [assumption | lra]. }
        assert (Hdown : (p <= c -> (p - c) / p <= 0)%Q).
        { intros Hge. apply Qle_shift_div_r; [assumption | lra]. }
        set (x := ((p - c) / p)%Q) in *.
        split; intros H.
        -- destruct (Qlt_le_dec c p) as [Hlt | Hge]; [assumption |].
           specialize (Hdown Hge). lra.
        -- specialize (Hup H). lra.
      * intros Hneg. destruct (Qltb 0 p) eqn:Hb; [| reflexivity].
        apply Qltb_true in Hb. contradiction.
    + intros Hnone.
      assert (Hlatest : latest = None).
      { subst latest. pose proof (max_period_spec (map fst dwd)) as Hspec.
        destruct (App.max_period (map fst dwd)) as [l |]; [| reflexivity].
        destruct Hspec as [Hin _]. apply month_of_delivery in Hin.
        exfalso. apply Hin.
        apply (map_eq_nil (fun r : option Period * Z => inject_Z (snd r))).
        rewrite delivery_days_in. apply Hnone. }
      apply Hsame.
      * apply Hcall. left. subst cmd. rewrite Hlatest. apply no_month_no_rows.
      * apply Hpnone. subst pmd. rewrite Hlatest. apply no_month_no_rows.
    + intros m Hall.
      assert (Hdw : Forall (fun r => fst r = Some m) dwd).
      { subst dwd. unfold App.dropna_delivery. apply Forall_forall. intros x Hx.
        apply in_flat_map in Hx as (r & Hr & Hx).
        rewrite Forall_forall in Hall. specialize (Hall r Hr).
        destruct (SalesRow.delivery_days r); [| contradiction].
        destruct Hall as (t & Ht & Hm); [discriminate |].
        destruct Hx as [<- | []]. cbn [fst]. rewrite Ht. cbn [option_map].
        now rewrite Hm. }
      assert (Hlatest : latest = Some m).
      { subst latest. unfold App.max_period.
        rewrite (max_period_same m) by
          (try (left; reflexivity); apply Forall_forall; intros x Hx;
           apply in_map_iff in Hx as (y & <- & Hy);
           rewrite Forall_forall in Hdw; now apply Hdw).
        destruct dwd; [congruence | reflexivity]. }
      assert (Hcm : cmd = dwd).
      { subst cmd. rewrite Hlatest. clear - Hdw.
        induction Hdw as [| x l Hx _ IH]; [reflexivity |].
        cbn [filter]. unfold App.in_month at 1. rewrite Hx, Z.eqb_refl. now rewrite IH. }
      assert (Hpm : pmd = []).
      { subst pmd. rewrite Hlatest. cbn [option_map]. clear - Hdw.
        induction Hdw as [| x l Hx _ IH]; [reflexivity |].
        cbn [filter]. unfold App.in_month at 1. rewrite Hx.
        destruct (Z.eqb_spec (m - 1) m); [lia | exact IH]. }
      apply Hsame; [apply Hcall; now right | now apply Hpnone].
  - split.
    { split; [intros _; now apply dropna_delivery_none | reflexivity]. }
    intros Hex. exfalso. apply dropna_delivery_none in Hany.
    apply Exists_exists in Hex as (r & Hr & Hd).
    rewrite Forall_forall in Hany. now apply Hd, Hany.
Qed.

Lemma delivery_card_numbers_witness :
  exists avg trend,
    App.delivery_card two_orders = App.DeliveryTime (Fin avg) (Fin trend)
    /\ (avg == 17 # 2)%Q.
Proof.
  destruct (proj2 (delivery_card_numbers two_orders))
    as (avg & trend & Hcard & Havg & _).
  - apply Exists_cons_hd. discriminate.
  - exists avg, trend. split; [exact Hcard |].
    vm_compute in Havg. injection Havg as <-. reflexivity.
Defined.

(** *** The satisfaction chart: no data, empty bars *)

Lemma dropna_reviews_delivery_In (rs : list SalesRow.t) (d s : Z) :
  In (d, s) (App.dropna_reviews_delivery rs)
  <-> exists row, In row rs
                  /\ SalesRow.delivery_days row = Some d
                  /\ SalesRow.review_score row = Some s.
Proof.
  unfold App.dropna_reviews_delivery. rewrite in_flat_map. split.
  - intros (row & Hrow & Hin).
    destruct (SalesRow.delivery_days row) as [d' |] eqn:Hd; [| contradiction].
    destruct (SalesRow.review_score row) as [s' |] eqn:Hs; [| contradiction].
    destruct Hin as [Heq | []]. injection Heq as -> ->. eauto.
  - intros (row & Hrow & Hd & Hs). exists row. split; [assumption |].
    rewrite Hd, Hs. now left.
Qed.

Lemma mean_nan (xs : list Q) : mean xs = NaN <-> xs = [].
Proof. destruct xs; simpl; split; congruence. Qed.

Lemma bucket_rows (rs : list SalesRow.t) (label : string) :
  filter (App.in_bucket label) (App.dropna_reviews_delivery rs) = []
  <-> existsb (fun r => match SalesRow.delivery_days r, SalesRow.review_score r with
                        | Some d, Some _ =>
                            match App.cut_delivery_days d with
                            | Some l => String.eqb l label
                            | None => false
                            end
                        | _, _ => false
                        end) rs = false.
Proof.
  unfold App.dropna_reviews_delivery.
  induction rs as [| r rs IH]; [split; reflexivity |].
  cbn [flat_map existsb]. rewrite filter_app.
  destruct (SalesRow.delivery_days r) as [d |]; [| exact IH].
  destruct (SalesRow.review_score r) as [s |]; [| exact IH].
  cbn [filter]. unfold App.in_bucket at 1. cbn [fst].
  destruct (App.cut_delivery_days d) as [l |]; [| exact IH].
  destruct (String.eqb l label); [| exact IH].
  cbn [app orb]. split; discriminate.
Qed.

Lemma bucket_row_exists (rs : list SalesRow.t) (label : string) :
  filter (App.in_bucket label) (App.dropna_reviews_delivery rs) <> []
  <-> exists row d s,
        In row rs
        /\ SalesRow.delivery_days row = Some d
        /\ SalesRow.review_score row = Some s
        /\ App.cut_delivery_days d = Some label.
Proof.
  split.
  - intros Hne.
    destruct (filter (App.in_bucket label) (App.dropna_reviews_delivery rs))
      as [| [d s] rest] eqn:Hf; [congruence |].
    assert (Hin : In (d, s) (filter (App.in_bucket label)
                               (App.dropna_reviews_delivery rs)))
      by (rewrite Hf; now left).
    apply filter_In in Hin as [Hin Hb].
    apply dropna_reviews_delivery_In in Hin as (row & Hrow & Hd & Hs).
    exists row, d, s. repeat (split; [assumption |]).
    unfold App.in_bucket in Hb. cbn [fst] in Hb.
    destruct (App.cut_delivery_days d) as [l |]; [| discriminate].
    apply String.eqb_eq in Hb. now subst.
  - intros (row & d & s & Hrow & Hd & Hs & Hcut) Hempty.
    assert (Hin : In (d, s) (filter (App.in_bucket label)
                               (App.dropna_reviews_delivery rs))).
    { apply filter_In. split; [apply dropna_reviews_delivery_In; eauto |].
      unfold App.in_bucket. cbn [fst]. rewrite Hcut. apply String.eqb_refl. }
    rewrite Hempty in Hin. contradiction.
Qed.

(** X14: [create_satisfaction_delivery_chart] shows its "No data
    available with both delivery and review information" note exactly when
    no row has both a review score and delivery days.  Otherwise it draws
    bars for the buckets 1-3, 4-7, 8-14 and 15+ days, in this order.  The
    code leaves what to do with a bucket no such row falls in to pandas'
    default: where that is [observed=False] all four bars are drawn and
    the bar of such a bucket is NaN, where it is [observed=True] the bar is
    left out and no bar is NaN.  The bar of a bucket with a row is a
    number. *)
Theorem satisfaction_chart_no_data (observed : bool) (data : SalesFrame) :
  let falls_in (label : string) (r : SalesRow.t) :=
    match SalesRow.delivery_days r, SalesRow.review_score r with
    | Some d, Some _ =>
        match App.cut_delivery_days d with
        | Some l => String.eqb l label
        | None => false
        end
    | _, _ => false
    end in
  (App.create_satisfaction_delivery_chart observed data
   = App.Annotation "No data available with both delivery and review information"
   <-> Forall (fun r => SalesRow.delivery_days r = None
                        \/ SalesRow.review_score r = None) (rows data))
  /\ (Exists (fun r => SalesRow.delivery_days r <> None
                       /\ SalesRow.review_score r <> None) (rows data) ->
      exists bars,
        App.create_satisfaction_delivery_chart observed data = App.Bars bars
        /\ map fst bars
           = filter (fun label => negb observed || existsb (falls_in label) (rows data))
               ["1-3 days"; "4-7 days"; "8-14 days"; "15+ days"]
        /\ (observed = false ->
            map fst bars = ["1-3 days"; "4-7 days"; "8-14 days"; "15+ days"])
        /\ (forall label score,
              In (label, score) bars ->
              (score = NaN
               <-> ~ exists row d s,
                       In row (rows data)
                       /\ SalesRow.delivery_days row = Some d
                       /\ SalesRow.review_score row = Some s
                       /\ App.cut_delivery_days d = Some label))
        /\ (observed = true ->
            forall label score, In (label, score) bars -> score <> NaN)).
Proof.
  cbv zeta. unfold App.create_satisfaction_delivery_chart.
  replace (App.has_column data "review_score") with true by reflexivity.
  replace (App.has_column data "delivery_days") with true by reflexivity.
  cbn [negb orb].
  destruct (App.dropna_reviews_delivery (rows data)) as [| [d0 s0] kept] eqn:Hkept.
  - assert (Hnone : Forall (fun r => SalesRow.delivery_days r = None
                                     \/ SalesRow.review_score r = None) (rows data)).
    { apply Forall_forall. intros r Hr.
      destruct (SalesRow.delivery_days r) as [d |] eqn:Hd; [| now left].
      destruct (SalesRow.review_score r) as [s |] eqn:Hs; [| now right].
      exfalso.
      assert (Hin : In (d, s) (App.dropna_reviews_delivery (rows data)))
        by (apply dropna_reviews_delivery_In; eauto).
      rewrite Hkept in Hin. contradiction. }
    split; [split; auto |].
    intros Hex. exfalso. apply Exists_exists in Hex as (r & Hr & Hd & Hs).
    rewrite Forall_forall in Hnone. destruct (Hnone r Hr); contradiction.
  - split.
    { split; [discriminate |]. intros Hall. exfalso.
      assert (Hin : In (d0, s0) (App.dropna_reviews_delivery (rows data)))
        by (rewrite Hkept; now left).
      apply dropna_reviews_delivery_In in Hin as (row & Hrow & Hd & Hs).
      rewrite Forall_forall in Hall. destruct (Hall row Hrow); congruence. }
    intros _. eexists. split; [reflexivity |].
    rewrite <- Hkept. clear Hkept d0 s0 kept.
    assert (Hbar : forall label,
              map fst
                match filter (App.in_bucket label)
                        (App.dropna_reviews_delivery (rows data)) with
                | [] => if observed then [] else [(label, NaN)]
                | r :: group =>
                    [(label, mean (map (fun r => inject_Z (snd r)) (r :: group)))]
                end
              = if negb observed
                   || existsb (fun r => match SalesRow.delivery_days r,
                                              SalesRow.review_score r with
                                        | Some d, Some _ =>
                                            match App.cut_delivery_days d with
                                            | Some l => String.eqb l label
                                            | None => false
                                            end
                                        | _, _ => false
                                        end) (rows data)
                then [label] else []).
    { intros label. pose proof (bucket_rows (rows data) label) as Hrows.
      destruct (filter (App.in_bucket label) (App.dropna_reviews_delivery (rows data)))
        as [| r group].
      - rewrite (proj1 Hrows eq_refl). now destruct observed.
      - destruct (existsb _ (rows data)).
        + now rewrite orb_true_r.
        + now destruct Hrows as [_ Hrows]; specialize (Hrows eq_refl). }
    assert (Hentry : forall label score,
              In (label, score)
                (App.satisfaction_by_delivery observed
                   (App.dropna_reviews_delivery (rows data))) ->
              match filter (App.in_bucket label)
                      (App.dropna_reviews_delivery (rows data)) with
              | [] => observed = false /\ score = NaN
              | group => score = mean (map (fun r => inject_Z (snd r)) group)
              end).
    { intros label score Hin. unfold App.satisfaction_by_delivery in Hin.
      apply in_flat_map in Hin as (label' & _ & Hin).
      destruct (filter (App.in_bucket label')
                  (App.dropna_reviews_delivery (rows data))) as [| r group] eqn:Hf.
      - destruct observed; [contradiction |].
        destruct Hin as [Heq | []]. injection Heq as Hl Hs. subst label' score.
        rewrite Hf. now split.
      - destruct Hin as [Heq | []]. injection Heq as Hl Hs. subst label' score.
        rewrite Hf. reflexivity. }
    assert (Hlabels : map fst (App.satisfaction_by_delivery observed
                                 (App.dropna_reviews_delivery (rows data)))
                      = filter (fun label =>
                                  negb observed
                                  || existsb
                                       (fun r => match SalesRow.delivery_days r,
                                                       SalesRow.review_score r with
                                                 | Some d, Some _ =>
                                                     match App.cut_delivery_days d with
                                                     | Some l => String.eqb l label
                                                     | None => false
                                                     end
                                                 | _, _ => false
                                                 end) (rows data))
                          ["1-3 days"; "4-7 days"; "8-14 days"; "15+ days"]).
    { unfold App.satisfaction_by_delivery, App.delivery_bucket_labels.
      cbn [flat_map filter]. rewrite !map_app, !Hbar. cbn [map].
      repeat match goal with
             | |- context [if ?c then [?l] else []] => destruct c
             end; reflexivity. }
    split; [exact Hlabels |].
    split; [intros ->; rewrite Hlabels; reflexivity |].
    split.
    + intros label score Hin. apply Hentry in Hin.
      rewrite <- bucket_row_exists.
      destruct (filter (App.in_bucket label)
                  (App.dropna_reviews_delivery (rows data))) as [| r group].
      * destruct Hin as [_ ->]. split; [intros _ H; now apply H | reflexivity].
      * subst score. split; [discriminate |]. intros H. exfalso. apply H. discriminate.
    + intros -> label score Hin. apply Hentry in Hin.
      destruct (filter (App.in_bucket label)
                  (App.dropna_reviews_delivery (rows data))) as [| r group].
      * destruct Hin as [Hobs _]. discriminate.
      * subst score. discriminate.
Qed.

Lemma satisfaction_chart_no_data_witness :
  App.create_satisfaction_delivery_chart false two_orders
  = App.Bars [("1-3 days", Fin (2 / 1)); ("4-7 days", NaN);
              ("8-14 days", Fin (3 / 1)); ("15+ days", NaN)]
  /\ App.create_satisfaction_delivery_chart true two_orders
     = App.Bars [("1-3 days", Fin (2 / 1)); ("8-14 days", Fin (3 / 1))]
  /\ exists bars,
       App.create_satisfaction_delivery_chart true two_orders = App.Bars bars
       /\ map fst bars = ["1-3 days"; "8-14 days"].
Proof.
  split; [reflexivity |]. split; [reflexivity |].
  destruct (proj2 (satisfaction_chart_no_data true two_orders))
    as (bars & Hchart & Hlabels & _).
  - apply Exists_cons_hd. split; discriminate.
  - exists bars. split; [exact Hchart |]. rewrite Hlabels. reflexivity.
Defined.

(** *** [prepare_sales_data] and the loader's joins *)

Lemma matches_spec (wanted cell : option Z) :
  DataLoader.matches wanted cell = true
  <-> (forall w, wanted = Some w -> cell = Some w).
Proof.
  unfold DataLoader.matches. destruct wanted as [w |].
  - destruct cell as [c |].
    + rewrite Z.eqb_eq. split.
      * intros -> w' Hw. congruence.
      * intros H. specialize (H w eq_refl). congruence.
    + split; [discriminate |]. intros H. specialize (H w eq_refl). discriminate.
  - split; [intros _ w Hw; discriminate | reflexivity].
Qed.

(** X15: [prepare_sales_data] raises [ValueError] unless both the orders
    and the order items are loaded.  Otherwise its rows are exactly the
    pairs of an order item and an order with the same [order_id] whose
    order has the requested status (any status when it is empty) and was
    purchased in the requested year and month (any when not given); an
    order without a purchase time passes no year or month filter.  The
    [delivery_days] column is there only for the status ['delivered'];
    unlike the dashboard's fact table, a delivered order without a
    delivery date stays, with [delivery_days] missing. *)
Theorem prepare_sales_data_rows (self : DataLoader.EcommerceDataLoader)
    (year month : option Z) (status : string) :
  (DataLoader.orders self = None \/ DataLoader.order_items self = None ->
   DataLoader.prepare_sales_data self year month status
   = Raise (ValueError "Datasets must be loaded first. Call load_all_datasets()"))
  /\ (forall orders order_items,
        DataLoader.orders self = Some orders ->
        DataLoader.order_items self = Some order_items ->
        exists frame,
          DataLoader.prepare_sales_data self year month status = Ok frame
          /\ DataLoader.delivery_days_column frame = String.eqb status "delivered"
          /\ (forall row,
                In row (DataLoader.prepared_rows frame)
                <-> exists item order,
                      In item order_items /\ In order orders
                      /\ OrderItem.order_id item = Order.order_id order
                      /\ (status = "" \/ Order.order_status order = status)
                      /\ (forall y, year = Some y ->
                                    DataLoader.order_year order = Some y)
                      /\ (forall m, month = Some m ->
                                    DataLoader.order_month order = Some m)
                      /\ row = DataLoader.prepared_row (String.eqb status "delivered")
                                 (item, order))
          /\ (forall row,
                In row (DataLoader.prepared_rows frame) ->
                DataLoader.PreparedRow.delivery_days row
                = (if String.eqb status "delivered"
                   then match DataLoader.PreparedRow.order_delivered_customer_date row,
                              DataLoader.PreparedRow.order_purchase_timestamp row with
                        | Some d, Some p => Some (timedelta_days d p)
                        | _, _ => None
                        end
                   else None))).
Proof.
  split.
  - unfold DataLoader.prepare_sales_data.
    intros [-> | H]; [reflexivity |]. rewrite H.
    now destruct (DataLoader.orders self).
  - intros orders order_items Ho Hi.
    unfold DataLoader.prepare_sales_data. rewrite Ho, Hi. cbv zeta.
    eexists. split; [reflexivity |]. split; [reflexivity |].
    cbn [DataLoader.prepared_rows].
    assert (Hin : forall item order,
      In (item, order)
        (filter (fun r => DataLoader.matches month (DataLoader.order_month (snd r)))
           (filter (fun r => DataLoader.matches year (DataLoader.order_year (snd r)))
              (if String.eqb status ""
               then merge_inner OrderItem.order_id Order.order_id order_items orders
               else filter (fun r => String.eqb (Order.order_status (snd r)) status)
                      (merge_inner OrderItem.order_id Order.order_id order_items
                         orders))))
      <-> In item order_items /\ In order orders
          /\ OrderItem.order_id item = Order.order_id order
          /\ (status = "" \/ Order.order_status order = status)
          /\ (forall y, year = Some y -> DataLoader.order_year order = Some y)
          /\ (forall m, month = Some m -> DataLoader.order_month order = Some m)).
    { intros item order. rewrite !filter_In. cbn [snd]. rewrite !matches_spec.
      destruct (String.eqb_spec status "") as [-> | Hne].
      - rewrite merge_inner_In. intuition.
      - rewrite filter_In, merge_inner_In. cbn [snd]. rewrite String.eqb_eq.
        intuition. }
    split.
    + intros row. rewrite in_map_iff. split.
      * intros ([item order] & <- & H). apply Hin in H. exists item, order.
        intuition.
      * intros (item & order & H1 & H2 & H3 & H4 & H5 & H6 & ->).
        exists (item, order). split; [reflexivity |]. apply Hin. intuition.
    + intros row Hrow. apply in_map_iff in Hrow as ([item order] & <- & _).
      cbn. destruct (String.eqb status "delivered"); reflexivity.
Qed.

Lemma prepare_sales_data_rows_witness :
  exists frame,
    DataLoader.prepare_sales_data small_loader (Some 2023) (Some 2) "delivered"
    = Ok frame
    /\ DataLoader.delivery_days_column frame = true
    /\ map DataLoader.PreparedRow.order_id (DataLoader.prepared_rows frame) = ["o2"].
Proof.
  destruct (proj2 (prepare_sales_data_rows small_loader (Some 2023) (Some 2) "delivered")
              _ _ eq_refl eq_refl) as (frame & Hframe & Hcol & _).
  exists frame. split; [exact Hframe |]. split; [exact Hcol |].
  vm_compute in Hframe. injection Hframe as <-. reflexivity.
Defined.

(** X16: the loader's left joins keep every sales row.  In the results of
    [get_sales_with_products], [get_sales_with_customers] and
    [get_review_data] each row of the prepared sales appears, with the
    joined columns missing when nothing matches its key; when the keys of
    the joined table are unique, the result is the prepared sales row for
    row, none dropped and none repeated. *)
Theorem loader_left_joins_keep_rows (self : DataLoader.EcommerceDataLoader)
    (year month : option Z) (frame : DataLoader.PreparedFrame) :
  DataLoader.prepare_sales_data self year month "delivered" = Ok frame ->
  (forall products,
      DataLoader.products self = Some products ->
      exists result,
        DataLoader.get_sales_with_products self year month = Ok result
        /\ (forall row, In row (DataLoader.prepared_rows frame) ->
              exists p, In (row, p) result
                        /\ ((forall x, In x products ->
                               Product.product_id x
                               <> DataLoader.PreparedRow.product_id row) ->
                            p = None))
        /\ (NoDup (map Product.product_id products) ->
            map fst result = DataLoader.prepared_rows frame))
  /\ (forall customers,
        DataLoader.customers self = Some customers ->
        exists result,
          DataLoader.get_sales_with_customers self year month = Ok result
          /\ (forall row, In row (DataLoader.prepared_rows frame) ->
                exists c, In (row, c) result
                          /\ ((forall x, In x customers ->
                                 Customer.customer_id x
                                 <> DataLoader.PreparedRow.customer_id row) ->
                              c = None))
          /\ (NoDup (map Customer.customer_id customers) ->
              map fst result = DataLoader.prepared_rows frame))
  /\ (forall reviews,
        DataLoader.reviews self = Some reviews ->
        exists result,
          DataLoader.get_review_data DataLoader.PreparedRow.order_id self
            (DataLoader.prepared_rows frame) = Ok result
          /\ (forall row, In row (DataLoader.prepared_rows frame) ->
                exists score, In (row, score) result
                              /\ ((forall x, In x reviews ->
                                     Review.order_id x
                                     <> DataLoader.PreparedRow.order_id row) ->
                                  score = None))
          /\ (NoDup (map Review.order_id reviews) ->
              map fst result = DataLoader.prepared_rows frame))
  /\ (DataLoader.reviews self = None ->
      DataLoader.get_review_data DataLoader.PreparedRow.order_id self
        (DataLoader.prepared_rows frame)
      = Raise (ValueError "Reviews dataset not loaded.")).
Proof.
  intros Hframe.
  split; [| split; [| split]].
  - intros products Hp. unfold DataLoader.get_sales_with_products.
    rewrite Hframe, Hp. cbn [bind DataLoader.loaded].
    eexists. split; [reflexivity |]. split.
    + intros row Hrow. now apply merge_left_keeps.
    + apply merge_left_unique.
  - intros customers Hc. unfold DataLoader.get_sales_with_customers.
    rewrite Hframe, Hc. cbn [bind DataLoader.loaded].
    eexists. split; [reflexivity |]. split.
    + intros row Hrow. now apply merge_left_keeps.
    + apply merge_left_unique.
  - intros reviews Hr. unfold DataLoader.get_review_data. rewrite Hr.
    eexists. split; [reflexivity |]. split.
    + intros row Hrow.
      destruct (merge_left_keeps DataLoader.PreparedRow.order_id Review.order_id
                  (DataLoader.prepared_rows frame) reviews row Hrow) as (o & Hin & Hnone).
      exists (option_map Review.review_score o). split.
      * apply in_map_iff. exists (row, o). split; [reflexivity | assumption].
      * intros Hno. now rewrite (Hnone Hno).
    + intros Hnd. rewrite map_map. cbn [fst].
      change (fun x : DataLoader.PreparedRow.t * option Review.t => fst x)
        with (@fst DataLoader.PreparedRow.t (option Review.t)).
      now apply merge_left_unique.
  - intros Hr. unfold DataLoader.get_review_data. now rewrite Hr.
Qed.

Lemma loader_left_joins_keep_rows_witness :
  exists frame result,
    DataLoader.prepare_sales_data small_loader None None "delivered" = Ok frame
    /\ DataLoader.get_sales_with_products small_loader None None = Ok result
    /\ map fst result = DataLoader.prepared_rows frame
    /\ map (fun r => DataLoader.PreparedRow.price (fst r)) result = [100%Q; 50%Q].
Proof.
  destruct (proj1 (loader_left_joins_keep_rows small_loader None None _ eq_refl)
              _ eq_refl) as (result & Hresult & _ & Hsame).
  do 2 eexists. split; [reflexivity |]. split; [exact Hresult |].
  split.
  - apply Hsame. repeat constructor; simpl; tauto.
  - vm_compute in Hresult. injection Hresult as <-. reflexivity.
Defined.

(** *** What the inner joins keep *)

Lemma sum_app (xs ys : list Q) : (sum (xs ++ ys) == sum xs + sum ys)%Q.
Proof.
  induction xs as [| x xs IH]; simpl; [ring |].
  change (fold_right Qplus 0%Q ?l) with (sum l). rewrite IH. ring.
Qed.

Lemma sum_permutation (xs ys : list Q) :
  Permutation xs ys -> (sum xs == sum ys)%Q.
Proof.
  induction 1 as [| x xs ys _ IH | x y xs | xs ys zs _ IH1 _ IH2]; simpl.
  - reflexivity.
  - change (fold_right Qplus 0%Q ?l) with (sum l). now rewrite IH.
  - ring.
  - now rewrite IH1.
Qed.

(** With unique keys on the right, an inner join returns the left rows
    that have a partner, each once and in their order. *)
Lemma merge_inner_unique_right {L R : Type} (lkey : L -> string)
    (rkey : R -> string) (left : list L) (right : list R) :
  NoDup (map rkey right) ->
  map fst (merge_inner lkey rkey left right)
  = filter (fun l => existsb (fun r => String.eqb (lkey l) (rkey r)) right) left.
Proof.
  intros Hnd. unfold merge_inner.
  induction left as [| l ls IH]; [reflexivity |].
  cbn [flat_map filter]. rewrite map_app, IH, map_map. cbn [fst].
  pose proof (filter_unique_key rkey (lkey l) right Hnd) as Hlen.
  assert (Hex : existsb (fun r => String.eqb (lkey l) (rkey r)) right
                = match filter (fun r => String.eqb (lkey l) (rkey r)) right with
                  | [] => false
                  | _ => true
                  end).
  { clear. induction right as [| r rs IH]; [reflexivity |].
    cbn [existsb filter]. destruct (String.eqb (lkey l) (rkey r)); [reflexivity | exact IH]. }
  rewrite Hex.
  destruct (filter (fun r => String.eqb (lkey l) (rkey r)) right) as [| r [| r' rest]];
    simpl in *; [reflexivity | reflexivity | lia].
Qed.

Lemma filter_disjoint_app {A : Type} (f g : A -> bool) (l : list A) :
  (forall a, In a l -> f a = true -> g a = false) ->
  Permutation (filter f l ++ filter g l) (filter (fun a => f a || g a) l).
Proof.
  induction l as [| a l IH]; intros Hd; [constructor |].
  assert (IH' := IH (fun x Hx => Hd x (or_intror Hx))).
  cbn [filter]. destruct (f a) eqn:Hf; cbn [orb].
  - rewrite (Hd a (or_introl eq_refl) Hf). cbn [app]. now constructor.
  - destruct (g a).
    + symmetry. apply Permutation_cons_app. now symmetry.
    + exact IH'.
Qed.

(** With unique keys on the left, an inner join holds, in some order, the
    right rows that have a partner, each once. *)
Lemma merge_inner_unique_left {L R : Type} (lkey : L -> string)
    (rkey : R -> string) (left : list L) (right : list R) :
  NoDup (map lkey left) ->
  Permutation (map snd (merge_inner lkey rkey left right))
    (filter (fun r => existsb (fun l => String.eqb (lkey l) (rkey r)) left) right).
Proof.
  unfold merge_inner. induction left as [| l ls IH]; intros Hnd.
  - cbn [flat_map map existsb]. clear. induction right; simpl; auto.
  - cbn [map] in Hnd. apply NoDup_cons_iff in Hnd as [Hnotin Hnd].
    cbn [flat_map existsb]. rewrite map_app, map_map. cbn [snd]. rewrite map_id.
    eapply Permutation_trans;
      [apply Permutation_app_head; exact (IH Hnd) |].
    apply filter_disjoint_app.
    intros r _ Hl. apply String.eqb_eq in Hl.
    destruct (existsb (fun l0 => String.eqb (lkey l0) (rkey r)) ls) eqn:Hex;
      [| reflexivity].
    exfalso. apply Hnotin. apply existsb_exists in Hex as (l0 & Hl0 & Hk).
    apply String.eqb_eq in Hk. rewrite Hl, <- Hk. now apply in_map.
Qed.

Section InnerJoins.
Context {Row : Type}.
Variables (order_id product_id customer_id : Row -> string) (price : Row -> Q).

(** X17: [get_product_category_data] and [get_geographic_data] raise
    [ValueError] before their table is loaded.  With unique product
    (customer) ids, the result holds exactly the sales rows whose product
    (customer) is in the table, each once, so its prices add up to the
    revenue of those rows, and to the whole revenue when every product
    (customer) of the sales data is known. *)
Theorem inner_joins_keep_known (self : DataLoader.EcommerceDataLoader)
    (sales_data : list Row) :
  let known_product (products : list Product.t) (r : Row) :=
    existsb (fun p => String.eqb (Product.product_id p) (product_id r)) products in
  let known_customer (customers : list Customer.t) (r : Row) :=
    existsb (fun c => String.eqb (customer_id r) (Customer.customer_id c)) customers in
  (DataLoader.products self = None ->
   DataLoader.get_product_category_data product_id price self sales_data
   = Raise (ValueError "Products dataset not loaded."))
  /\ (DataLoader.customers self = None ->
      DataLoader.get_geographic_data order_id customer_id price self sales_data
      = Raise (ValueError "Customers dataset not loaded."))
  /\ (forall products,
        DataLoader.products self = Some products ->
        NoDup (map Product.product_id products) ->
        exists result,
          DataLoader.get_product_category_data product_id price self sales_data
          = Ok result
          /\ Permutation (map DataLoader.cat_price result)
               (map price (filter (known_product products) sales_data))
          /\ (sum (map DataLoader.cat_price result)
              == sum (map price (filter (known_product products) sales_data)))%Q
          /\ (forallb (known_product products) sales_data = true ->
              (sum (map DataLoader.cat_price result) == sum (map price sales_data))%Q))
  /\ (forall customers,
        DataLoader.customers self = Some customers ->
        NoDup (map Customer.customer_id customers) ->
        exists result,
          DataLoader.get_geographic_data order_id customer_id price self sales_data
          = Ok result
          /\ map DataLoader.geo_order_id result
             = map order_id (filter (known_customer customers) sales_data)
          /\ map DataLoader.geo_price result
             = map price (filter (known_customer customers) sales_data)
          /\ (forallb (known_customer customers) sales_data = true ->
              map DataLoader.geo_price result = map price sales_data)).
Proof.
  cbv zeta.
  assert (Hall : forall (f : Row -> bool) l, forallb f l = true -> filter f l = l).
  { intros f l. induction l as [| a l IH]; [reflexivity |].
    cbn [forallb filter]. intros H. apply andb_true_iff in H as [Ha Hl].
    rewrite Ha. now rewrite IH. }
  split; [| split; [| split]].
  - intros H. unfold DataLoader.get_product_category_data. now rewrite H.
  - intros H. unfold DataLoader.get_geographic_data. now rewrite H.
  - intros products Hp Hnd. unfold DataLoader.get_product_category_data. rewrite Hp.
    eexists. split; [reflexivity |].
    assert (Hperm : Permutation
              (map DataLoader.cat_price
                 (map (fun pr : Product.t * Row =>
                         DataLoader.mkcat (Product.product_id (fst pr))
                           (Product.product_category_name (fst pr)) (price (snd pr)))
                    (merge_inner Product.product_id product_id products sales_data)))
              (map price
                 (filter (fun r => existsb (fun p => String.eqb (Product.product_id p)
                                                       (product_id r)) products)
                    sales_data))).
    { rewrite map_map. cbn [DataLoader.cat_price].
      rewrite <- (map_map snd price). apply Permutation_map.
      now apply merge_inner_unique_left. }
    split; [exact Hperm |].
    split; [now apply sum_permutation |].
    intros Hknown. rewrite (sum_permutation _ _ Hperm). now rewrite (Hall _ _ Hknown).
  - intros customers Hc Hnd. unfold DataLoader.get_geographic_data. rewrite Hc.
    eexists. split; [reflexivity |].
    pose proof (merge_inner_unique_right customer_id Customer.customer_id
                  sales_data customers Hnd) as Hfst.
    rewrite !map_map. cbn [DataLoader.geo_order_id DataLoader.geo_price].
    rewrite <- (map_map fst order_id), <- (map_map fst price), Hfst.
    split; [reflexivity |]. split; [reflexivity |].
    intros Hknown. now rewrite (Hall _ _ Hknown).
Qed.
End InnerJoins.

Lemma inner_joins_keep_known_witness :
  exists result,
    DataLoader.get_geographic_data SalesRow.order_id SalesRow.customer_id
      SalesRow.price small_loader (rows two_orders) = Ok result
    /\ map DataLoader.geo_price result = [100%Q].
Proof.
  destruct (proj2 (proj2 (proj2
              (inner_joins_keep_known SalesRow.order_id SalesRow.product_id
                 SalesRow.customer_id SalesRow.price small_loader (rows two_orders))))
              _ eq_refl) as (result & Hresult & _ & Hprice & _).
  - repeat constructor; simpl; tauto.
  - exists result. split; [exact Hresult |]. rewrite Hprice. reflexivity.
Defined.

(** *** Order fulfilment rates *)

Lemma share_as_quotient (xs : list string) (x : string) :
  (BusinessMetrics.get (BusinessMetrics.value_counts_normalize xs) x 0
   == inject_Z (Z.of_nat (count_occ string_dec xs x))
      / inject_Z (Z.of_nat (List.length xs)))%Q.
Proof.
  unfold BusinessMetrics.get, BusinessMetrics.value_counts_normalize.
  destruct (count_occ string_dec xs x) eqn:Hc; [| reflexivity].
  unfold Qdiv. simpl inject_Z. ring.
Qed.

Lemma five_statuses_counted_once (xs : list string) :
  (count_occ string_dec xs "delivered" + count_occ string_dec xs "canceled"
   + count_occ string_dec xs "returned" + count_occ string_dec xs "pending"
   + count_occ string_dec xs "processing" <= List.length xs)%nat
  /\ (Forall (fun x => In x ["delivered"; "canceled"; "returned"; "pending";
                             "processing"]) xs ->
      (count_occ string_dec xs "delivered" + count_occ string_dec xs "canceled"
       + count_occ string_dec xs "returned" + count_occ string_dec xs "pending"
       + count_occ string_dec xs "processing" = List.length xs)%nat).
Proof.
  induction xs as [| x xs [IHle IHeq]]; [split; [simpl; lia | reflexivity] |].
  cbn [count_occ List.length].
  split.
  - destruct (string_dec x "delivered"), (string_dec x "canceled"),
      (string_dec x "returned"), (string_dec x "pending"),
      (string_dec x "processing"); subst; try discriminate; lia.
  - intros Hall. apply Forall_cons_iff in Hall as [Hx Hall].
    specialize (IHeq Hall).
    destruct (string_dec x "delivered"), (string_dec x "canceled"),
      (string_dec x "returned"), (string_dec x "pending"),
      (string_dec x "processing"); subst; try discriminate; try lia.
    exfalso. simpl in Hx. intuition congruence.
Qed.

Section FulfillmentRates.
Context {Row : Type}.
Variable order_status : Row -> string.

End FulfillmentRates.

(** *** The monthly trends table *)

Lemma map_nth_seq {A : Type} (l : list A) (d : A) :
  map (fun i => nth i l d) (seq 0 (List.length l)) = l.
Proof.
  induction l as [| a l IH]; [reflexivity |].
  cbn [List.length seq map nth]. rewrite <- seq_shift, map_map. cbn [nth].
  now rewrite IH.
Qed.

Lemma nth_pct_change_from (previous : float64) (xs : list float64) (i : nat)
    (d : float64) :
  (i < List.length xs)%nat ->
  nth i (BusinessMetrics.pct_change_from previous xs) d
  = sub (np_div (nth i xs d) (nth i (previous :: xs) d)) (Fin 1).
Proof.
  revert previous i. induction xs as [| x xs IH]; intros previous i Hi;
    [simpl in Hi; lia |].
  destruct i as [| i]; [reflexivity |].
  cbn [BusinessMetrics.pct_change_from nth]. simpl in Hi.
  rewrite IH by lia. reflexivity.
Qed.

Lemma nth_pct_change (xs : list float64) (i : nat) (d : float64) :
  (S i < List.length xs)%nat ->
  nth (S i) (BusinessMetrics.pct_change xs) d
  = sub (np_div (nth (S i) xs d) (nth i xs d)) (Fin 1).
Proof.
  destruct xs as [| x xs]; [simpl; lia |]. intros Hi. simpl in Hi.
  cbn [BusinessMetrics.pct_change nth]. rewrite nth_pct_change_from by lia.
  reflexivity.
Qed.

Lemma length_pct_change (xs : list float64) :
  List.length (BusinessMetrics.pct_change xs) = List.length xs.
Proof.
  destruct xs as [| x xs]; [reflexivity |]. cbn. f_equal.
  revert x. induction xs as [| y ys IH]; intros x; [reflexivity |].
  cbn. now rewrite IH.
Qed.

Lemma nth_percent (xs : list float64) (i : nat) :
  nth i (map (fun g => mul g (Fin 100)) xs) NaN = mul (nth i xs NaN) (Fin 100).
Proof. exact (map_nth (fun g => mul g (Fin 100)) xs NaN i). Qed.

Lemma growth_between (xs : list float64) (i : nat) (d : float64) :
  (S i < List.length xs)%nat ->
  nth (S i) (map (fun g => mul g (Fin 100)) (BusinessMetrics.pct_change xs)) NaN
  = mul (sub (np_div (nth (S i) xs d) (nth i xs d)) (Fin 1)) (Fin 100).
Proof.
  intros Hi. rewrite nth_percent, nth_pct_change by exact Hi.
  rewrite (nth_indep xs NaN d) by exact Hi.
  rewrite (nth_indep xs NaN d) by lia. reflexivity.
Qed.

Lemma growth_first (xs : list float64) :
  nth 0 (map (fun g => mul g (Fin 100)) (BusinessMetrics.pct_change xs)) NaN = NaN.
Proof. destruct xs; reflexivity. Qed.

Section MonthlyTrends.
Context {Row : Type}.
Variables (month : Row -> option Z) (order_id : Row -> string) (price : Row -> Q).

Local Abbreviation trends_of := (BusinessMetrics.calculate_monthly_trends month order_id price).
Local Abbreviation rows_of := (BusinessMetrics.in_month month).

Lemma monthly_revenue_months (sales_data : list Row) (m : Z) :
  In m (map fst (BusinessMetrics.monthly_revenue month price sales_data))
  <-> exists r, In r sales_data /\ month r = Some m.
Proof.
  unfold BusinessMetrics.monthly_revenue.
  destruct (groupby_sum_spec
              (flat_map (fun r => match month r with
                                  | Some m => [(m, price r)]
                                  | None => []
                                  end) sales_data)) as (_ & Hk & _).
  rewrite Hk, in_map_iff. split.
  - intros ([k v] & <- & Hin). apply in_flat_map in Hin as (r & Hr & Hin).
    exists r. split; [exact Hr |]. destruct (month r); [| contradiction].
    destruct Hin as [Heq | []]. now injection Heq as -> _.
  - intros (r & Hr & Hm). exists (m, price r). split; [reflexivity |].
    apply in_flat_map. exists r. split; [exact Hr |]. rewrite Hm. now left.
Qed.

Lemma monthly_revenue_entry (sales_data : list Row) (m : Z) (s : Q) :
  In (m, s) (BusinessMetrics.monthly_revenue month price sales_data) ->
  (s == sum (map price (rows_of m sales_data)))%Q.
Proof.
  intros Hin. rewrite (groupby_sum_entry _ _ _ Hin).
  unfold BusinessMetrics.in_month. clear Hin.
  induction sales_data as [| r rs IH]; [reflexivity |].
  cbn [flat_map filter]. destruct (month r) as [k |]; [| exact IH].
  cbn [app filter fst]. destruct (k =? m); [| exact IH].
  cbn [map snd]. unfold sum in *. cbn [fold_right]. now rewrite IH.
Qed.

Lemma in_month_nonempty (sales_data : list Row) (m : Z) :
  (exists r, In r sales_data /\ month r = Some m) -> rows_of m sales_data <> [].
Proof.
  intros (r & Hr & Hm) Hnil.
  assert (Hin : In r (rows_of m sales_data)).
  { apply filter_In. split; [exact Hr |]. rewrite Hm. apply Z.eqb_refl. }
  rewrite Hnil in Hin. contradiction.
Qed.

(** Row [i] of the table, column by column. *)
Lemma monthly_trends_row (sales_data : list Row) (i : nat) (t : BusinessMetrics.Trend.t) :
  nth_error (trends_of sales_data) i = Some t ->
  let mr := BusinessMetrics.monthly_revenue month price sales_data in
  let orders := map (fun m => nunique (map order_id (rows_of m sales_data))) (map fst mr) in
  let aov :=
    map (fun m => mean (group_sums order_id price (rows_of m sales_data))) (map fst mr) in
  let percent := map (fun g => mul g (Fin 100)) in
  (i < List.length mr)%nat
  /\ BusinessMetrics.Trend.month t = nth i (map fst mr) 0
  /\ BusinessMetrics.Trend.revenue t = nth i (map snd mr) 0%Q
  /\ BusinessMetrics.Trend.orders t = nth i orders 0
  /\ BusinessMetrics.Trend.avg_order_value t = nth i aov NaN
  /\ BusinessMetrics.Trend.revenue_growth t
     = nth i (percent (BusinessMetrics.pct_change (map Fin (map snd mr)))) NaN
  /\ BusinessMetrics.Trend.order_growth t
     = nth i (percent (BusinessMetrics.pct_change (map of_int orders))) NaN
  /\ BusinessMetrics.Trend.aov_growth t
     = nth i (percent (BusinessMetrics.pct_change aov)) NaN.
Proof.
  unfold BusinessMetrics.calculate_monthly_trends.
  set (mr := BusinessMetrics.monthly_revenue month price sales_data).
  intros Hnth. cbv zeta.
  assert (Hi : (i < List.length mr)%nat).
  { assert (Hsome : nth_error
                      (map (fun i => BusinessMetrics.Trend.mk
                         (nth i (map fst mr) 0) (nth i (map snd mr) 0%Q)
                         (nth i (map (fun m => nunique (map order_id (rows_of m sales_data))) (map fst mr)) 0)
                         (nth i (map (fun m => mean (group_sums order_id price (rows_of m sales_data))) (map fst mr)) NaN)
                         (nth i (map (fun g => mul g (Fin 100)) (BusinessMetrics.pct_change (map Fin (map snd mr)))) NaN)
                         (nth i (map (fun g => mul g (Fin 100)) (BusinessMetrics.pct_change (map of_int (map (fun m => nunique (map order_id (rows_of m sales_data))) (map fst mr))))) NaN)
                         (nth i (map (fun g => mul g (Fin 100)) (BusinessMetrics.pct_change (map (fun m => mean (group_sums order_id price (rows_of m sales_data))) (map fst mr)))) NaN))
                         (seq 0 (List.length (map fst mr)))) i <> None)
      by (rewrite Hnth; discriminate).
    apply nth_error_Some in Hsome.
    now rewrite length_map, length_seq, length_map in Hsome. }
  rewrite nth_error_map in Hnth.
  rewrite (nth_error_nth' _ 0%nat) in Hnth by (now rewrite length_seq, length_map).
  rewrite seq_nth in Hnth by (now rewrite length_map).
  cbn [option_map Nat.add] in Hnth. injection Hnth as <-.
  cbn. repeat split; try reflexivity. exact Hi.
Qed.

Lemma nth_map_in_range {A B : Type} (f : A -> B) (l : list A) (i : nat) (d : B) (d' : A) :
  (i < List.length l)%nat -> nth i (map f l) d = f (nth i l d').
Proof.
  intros Hi. rewrite (nth_indep _ d (f d')) by (now rewrite length_map).
  apply map_nth.
Qed.

Lemma aov_of_nonempty (df : list Row) :
  df <> [] ->
  nunique (map order_id df) > 0
  /\ exists a,
       mean (group_sums order_id price df) = Fin a
       /\ (a == sum (map price df) / inject_Z (nunique (map order_id df)))%Q.
Proof.
  intros Hne. pose proof (nunique_positive order_id df Hne) as Hn.
  split; [exact Hn |].
  assert (Hgs : group_sums order_id price df <> []).
  { unfold group_sums, nunique in *.
    destruct (nodup string_dec (map order_id df)); simpl in *; [lia | discriminate]. }
  rewrite (mean_nonempty _ Hgs). eexists. split; [reflexivity |].
  rewrite group_sums_total. unfold group_sums, nunique.
  rewrite length_map. reflexivity.
Qed.

Lemma monthly_trends_months (sales_data : list Row) :
  map BusinessMetrics.Trend.month (trends_of sales_data)
  = map fst (BusinessMetrics.monthly_revenue month price sales_data).
Proof.
  unfold BusinessMetrics.calculate_monthly_trends. rewrite map_map.
  cbn [BusinessMetrics.Trend.month]. apply map_nth_seq.
Qed.

Lemma monthly_trends_revenues (sales_data : list Row) :
  map BusinessMetrics.Trend.revenue (trends_of sales_data)
  = map snd (BusinessMetrics.monthly_revenue month price sales_data).
Proof.
  unfold BusinessMetrics.calculate_monthly_trends. rewrite map_map.
  cbn [BusinessMetrics.Trend.revenue].
  rewrite length_map, <- (length_map snd). apply map_nth_seq.
Qed.

Lemma rows_with_month_total (sales_data : list Row) :
  (sum (map snd (flat_map (fun r => match month r with
                                    | Some m => [(m, price r)]
                                    | None => []
                                    end) sales_data))
   == sum (map price (filter (fun r => match month r with
                                       | Some _ => true
                                       | None => false
                                       end) sales_data)))%Q.
Proof.
  unfold sum. induction sales_data as [| r rs IH]; [reflexivity |].
  cbn [flat_map filter]. destruct (month r); [| exact IH].
  cbn [app map snd fold_right]. now rewrite IH.
Qed.


End MonthlyTrends.

(** *** Customer experience by delivery speed *)

Lemma delivery_category_cases (x : option Z) :
  BusinessMetrics.delivery_category x = "1-3 days"
  \/ BusinessMetrics.delivery_category x = "4-7 days"
  \/ BusinessMetrics.delivery_category x = "8+ days".
Proof.
  destruct x as [d |]; cbn; [| tauto].
  destruct (d <=? 3); [tauto |]. destruct (d <=? 7); tauto.
Qed.

Lemma mean_times_count (xs : list Q) :
  (match mean xs with
   | Fin a => a * inject_Z (Z.of_nat (List.length xs))
   | _ => 0
   end == sum xs)%Q.
Proof.
  destruct xs as [| x xs]; [reflexivity |]. cbn [mean].
  field. change 0%Q with (inject_Z 0). rewrite inject_Z_injective.
  simpl List.length. lia.
Qed.

Section ExperienceBySpeed.
Context {Row : Type}.
Variables (review_score delivery_days : Row -> option Z).

Local Abbreviation category_of r :=
  (BusinessMetrics.delivery_category (delivery_days r)).
Local Abbreviation in_category c :=
  (filter (fun r => String.eqb (category_of r) c)).
Local Abbreviation scores rows :=
  (flat_map (fun x => match x with Some z => [inject_Z z] | None => [] end)
     (map review_score rows)).

Lemma scores_by_category (review_data : list Row) :
  (sum (scores (in_category "1-3 days" review_data))
   + sum (scores (in_category "4-7 days" review_data))
   + sum (scores (in_category "8+ days" review_data))
   == sum (scores review_data))%Q.
Proof.
  induction review_data as [| r rs IH]; [reflexivity |].
  cbn [filter map flat_map]. rewrite sum_app, <- IH.
  destruct (delivery_category_cases (delivery_days r)) as [-> | [-> | ->]];
    cbn [String.eqb Ascii.eqb Bool.eqb]; cbn [map flat_map];
    rewrite sum_app; ring.
Qed.

Lemma scores_in (rows : list Row) (q : Q) :
  In q (scores rows) <-> exists r s, In r rows /\ review_score r = Some s /\ q = inject_Z s.
Proof.
  rewrite in_flat_map. split.
  - intros (x & Hx & Hq). apply in_map_iff in Hx as (r & <- & Hr).
    destruct (review_score r) as [s |] eqn:Hs; [| contradiction].
    destruct Hq as [<- | []]. now exists r, s.
  - intros (r & s & Hr & Hs & ->). exists (Some s). split; [| now left].
    rewrite <- Hs. now apply in_map.
Qed.

Lemma mean_bounds (xs : list Q) (lo hi : Q) :
  (forall q, In q xs -> lo <= q <= hi)%Q ->
  mean xs = NaN \/ exists a, mean xs = Fin a /\ (lo <= a <= hi)%Q.
Proof.
  intros Hall. destruct xs as [| x xs]; [now left |]. right.
  eexists. split; [reflexivity |].
  set (l := x :: xs) in *.
  assert (Hlen : (0 < inject_Z (Z.of_nat (List.length l)))%Q).
  { change 0%Q with (inject_Z 0). rewrite <- Zlt_Qlt. subst l. simpl List.length. lia. }
  assert (Hsum : (lo * inject_Z (Z.of_nat (List.length l)) <= sum l
                  /\ sum l <= hi * inject_Z (Z.of_nat (List.length l)))%Q).
  { clear Hlen. induction l as [| y ys IH].
    - unfold sum. simpl. split; unfold Qle; simpl; lia.
    - destruct IH as [IHlo IHhi]; [intros q Hq; apply Hall; now right |].
      destruct (Hall y (or_introl eq_refl)) as [Hylo Hyhi].
      replace (Z.of_nat (List.length (y :: ys)))
        with (Z.of_nat (List.length ys) + 1) by (simpl List.length; lia).
      rewrite inject_Z_plus. unfold sum in *. cbn [fold_right].
      change (inject_Z 1) with 1%Q. split; lra. }
  destruct Hsum as [Hlo Hhi]. split.
  - apply Qle_shift_div_l; assumption.
  - apply Qle_shift_div_r; assumption.
Qed.


End ExperienceBySpeed.

(** *** Revenue by name: states and categories *)

Lemma label_compare_lt_gt (a b : string) :
  String_as_OT.compare a b = Gt -> String_as_OT.lt b a.
Proof.
  intros Hgt. destruct (String_as_OT.compare_spec a b); try discriminate.
  assumption.
Qed.

Lemma label_compare_eq (a b : string) : String_as_OT.compare a b = Eq -> a = b.
Proof.
  intros Heq. destruct (String_as_OT.compare_spec a b); try discriminate.
  assumption.
Qed.

Lemma label_lt_neq (a b : string) : String_as_OT.lt a b -> a <> b.
Proof.
  intros Hlt ->. exact (StrictOrder_Irreflexive (R := String_as_OT.lt) b Hlt).
Qed.

Lemma add_to_label_group_keys (k : string) (v : Q) (groups : list (string * Q))
    (k' : string) :
  In k' (map fst (add_to_label_group k v groups)) <-> k' = k \/ In k' (map fst groups).
Proof.
  induction groups as [| [k0 s] rest IH]; simpl.
  - intuition.
  - destruct (String_as_OT.compare k k0) eqn:Hc; simpl.
    + apply label_compare_eq in Hc. subst k0. intuition.
    + intuition.
    + rewrite IH. intuition.
Qed.

Lemma add_to_label_group_sorted (k : string) (v : Q) (groups : list (string * Q)) :
  StronglySorted String_as_OT.lt (map fst groups) ->
  StronglySorted String_as_OT.lt (map fst (add_to_label_group k v groups)).
Proof.
  induction groups as [| [k0 s] rest IH]; simpl; intros Hs.
  - repeat constructor.
  - apply StronglySorted_inv in Hs as [Hrest Hall].
    destruct (String_as_OT.compare k k0) eqn:Hc; simpl.
    + constructor; assumption.
    + constructor; [constructor; assumption |].
      constructor; [exact Hc |].
      eapply Forall_impl; [| exact Hall]. intros a Ha. cbn in *.
      exact (StrictOrder_Transitive (R := String_as_OT.lt) _ _ _ Hc Ha).
    + constructor; [now apply IH |].
      apply Forall_forall. intros a Ha.
      apply add_to_label_group_keys in Ha as [-> | Ha];
        [now apply label_compare_lt_gt |].
      rewrite Forall_forall in Hall. now apply Hall.
Qed.

Lemma add_to_label_group_lookup (k : string) (v : Q) (groups : list (string * Q))
    (k0 : string) :
  (sum (map snd (filter (fun kv => String.eqb (fst kv) k0)
                   (add_to_label_group k v groups)))
   == (if String.eqb k k0 then v else 0)
      + sum (map snd (filter (fun kv => String.eqb (fst kv) k0) groups)))%Q.
Proof.
  unfold sum. induction groups as [| [k' s] rest IH].
  - cbn. destruct (String.eqb k k0); cbn; ring.
  - cbn [add_to_label_group].
    destruct (String_as_OT.compare k k') eqn:Hc.
    + apply label_compare_eq in Hc. subst k'.
      cbn [filter fst]. destruct (String.eqb k k0); cbn [map snd fold_right]; ring.
    + cbn [filter fst]. destruct (String.eqb k k0), (String.eqb k' k0);
        cbn [map snd fold_right]; ring.
    + cbn [filter fst]. destruct (String.eqb k' k0); cbn [map snd fold_right];
        rewrite IH; destruct (String.eqb k k0); ring.
Qed.

Lemma groupby_label_sum_from (kvs groups : list (string * Q)) :
  let result :=
    fold_left (fun g kv => add_to_label_group (fst kv) (snd kv) g) kvs groups in
  (StronglySorted String_as_OT.lt (map fst groups) ->
   StronglySorted String_as_OT.lt (map fst result))
  /\ (forall k, In k (map fst result) <-> In k (map fst kvs) \/ In k (map fst groups))
  /\ (forall k,
        sum (map snd (filter (fun kv => String.eqb (fst kv) k) result))
        == sum (map snd (filter (fun kv => String.eqb (fst kv) k) kvs))
           + sum (map snd (filter (fun kv => String.eqb (fst kv) k) groups)))%Q.
Proof.
  revert groups. induction kvs as [| [k v] kvs IH]; intros groups; cbn zeta.
  - cbn [fold_left map filter]. split; [auto |]. split; [simpl; intuition |].
    intros k. unfold sum at 2. cbn [fold_right]. ring.
  - cbn [fold_left fst snd].
    destruct (IH (add_to_label_group k v groups)) as (Hs & Hk & Hsum).
    split; [| split].
    + intros Hg. apply Hs. now apply add_to_label_group_sorted.
    + intros k'. rewrite Hk, add_to_label_group_keys. simpl. intuition.
    + intros k'. rewrite Hsum, add_to_label_group_lookup.
      cbn [filter fst]. unfold sum.
      destruct (String.eqb k k'); cbn [map snd fold_right]; ring.
Qed.

Lemma label_sorted_lookup (groups : list (string * Q)) (k : string) (s : Q) :
  StronglySorted String_as_OT.lt (map fst groups) ->
  In (k, s) groups ->
  (sum (map snd (filter (fun kv => String.eqb (fst kv) k) groups)) == s)%Q.
Proof.
  induction groups as [| [k' s'] rest IH]; [contradiction |].
  cbn [map fst]. intros Hs Hin. apply StronglySorted_inv in Hs as [Hrest Hall].
  rewrite Forall_forall in Hall.
  destruct Hin as [Heq | Hin].
  - injection Heq as Hk Hv. subst k' s'. cbn [filter fst]. rewrite String.eqb_refl.
    assert (Hnone : filter (fun kv : string * Q => String.eqb (fst kv) k) rest = []).
    { clear - Hall. induction rest as [| [a b] rest IH]; [reflexivity |].
      cbn [filter fst].
      assert (Hlt : String_as_OT.lt k a) by (apply Hall; now left).
      destruct (String.eqb_spec a k) as [-> | _];
        [now apply label_lt_neq in Hlt |].
      apply IH. intros x Hx. apply Hall. now right. }
    rewrite Hnone. unfold sum. cbn [map snd fold_right]. ring.
  - assert (Hlt : String_as_OT.lt k' k)
      by (apply Hall; apply (in_map fst) in Hin; exact Hin).
    cbn [filter fst]. destruct (String.eqb_spec k' k) as [-> | _];
      [now apply label_lt_neq in Hlt |].
    now apply IH.
Qed.

Lemma sum_filtered_total (kvs : list (string * Q)) (keys : list string) :
  NoDup keys ->
  (forall kv, In kv kvs -> In (fst kv) keys) ->
  (sum (map (fun k => sum (map snd (filter (fun kv => String.eqb (fst kv) k) kvs)))
          keys)
   == sum (map snd kvs))%Q.
Proof.
  intros Hnd Hin.
  rewrite <- (group_sums_over fst snd keys kvs Hnd Hin).
  reflexivity.
Qed.

Lemma add_to_label_group_sum (k : string) (v : Q) (groups : list (string * Q)) :
  (sum (map snd (add_to_label_group k v groups)) == v + sum (map snd groups))%Q.
Proof.
  unfold sum. induction groups as [| [k0 s] rest IH]; [reflexivity |].
  cbn [add_to_label_group]. destruct (String_as_OT.compare k k0);
    cbn [map snd fold_right]; [ring | ring | rewrite IH; ring].
Qed.

Lemma groupby_label_sum_total_from (kvs groups : list (string * Q)) :
  (sum (map snd (fold_left (fun g kv => add_to_label_group (fst kv) (snd kv) g)
                   kvs groups))
   == sum (map snd kvs) + sum (map snd groups))%Q.
Proof.
  revert groups. induction kvs as [| [k v] kvs IH]; intros groups.
  - cbn [fold_left map]. change (sum []) with 0%Q. ring.
  - cbn [fold_left fst snd]. rewrite IH, add_to_label_group_sum.
    unfold sum. cbn [map snd fold_right]. ring.
Qed.

(** [groupby(...).sum()] over names: one entry per name, names ascending,
    each entry the sum over the rows of its name. *)
Lemma groupby_label_sum_spec (kvs : list (string * Q)) :
  StronglySorted String_as_OT.lt (map fst (groupby_label_sum kvs))
  /\ (forall k, In k (map fst (groupby_label_sum kvs)) <-> In k (map fst kvs))
  /\ (forall k s, In (k, s) (groupby_label_sum kvs) ->
        s == sum (map snd (filter (fun kv => String.eqb (fst kv) k) kvs)))%Q
  /\ (sum (map snd (groupby_label_sum kvs)) == sum (map snd kvs))%Q.
Proof.
  unfold groupby_label_sum.
  destruct (groupby_label_sum_from kvs []) as (Hs & Hk & Hlook).
  specialize (Hs (SSorted_nil _)).
  split; [exact Hs |]. split; [intros k; rewrite Hk; simpl; intuition |].
  split.
  - intros k s Hin. rewrite <- (label_sorted_lookup _ _ _ Hs Hin), Hlook.
    cbn [filter map]. change (sum []) with 0%Q. ring.
  - rewrite groupby_label_sum_total_from. cbn [map]. change (sum []) with 0%Q. ring.
Qed.

Section Labelled.
Context {Row : Type}.
Variables (name : Row -> option string) (value : Row -> Q).

Local Abbreviation named n :=
  (fun r => match name r with
            | Some n' => String.eqb n' n
            | None => false
            end).

Lemma labelled_names (df : list Row) (n : string) :
  In n (map fst (labelled name value df)) <-> exists r, In r df /\ name r = Some n.
Proof.
  unfold labelled. rewrite in_map_iff. split.
  - intros ([k v] & <- & Hin). apply in_flat_map in Hin as (r & Hr & Hin).
    exists r. split; [exact Hr |]. destruct (name r); [| contradiction].
    destruct Hin as [Heq | []]. injection Heq as Hk _. now subst.
  - intros (r & Hr & Hn). exists (n, value r). split; [reflexivity |].
    apply in_flat_map. exists r. split; [exact Hr |]. rewrite Hn. now left.
Qed.

Lemma labelled_lookup (df : list Row) (n : string) :
  (sum (map snd (filter (fun kv => String.eqb (fst kv) n) (labelled name value df)))
   == sum (map value (filter (named n) df)))%Q.
Proof.
  unfold sum, labelled. induction df as [| r rs IH]; [reflexivity |].
  cbn [flat_map filter]. destruct (name r) as [k |]; [| exact IH].
  cbn [app filter fst]. destruct (String.eqb k n); [| exact IH].
  cbn [map snd fold_right]. now rewrite IH.
Qed.

Lemma labelled_total (df : list Row) :
  (sum (map snd (labelled name value df))
   == sum (map value (filter (fun r => match name r with
                                       | Some _ => true
                                       | None => false
                                       end) df)))%Q.
Proof.
  unfold sum, labelled. induction df as [| r rs IH]; [reflexivity |].
  cbn [flat_map filter]. destruct (name r); [| exact IH].
  cbn [app map snd fold_right]. now rewrite IH.
Qed.
End Labelled.


(** *** The ten names of the highest revenue *)

Lemma StronglySorted_app_inv {A : Type} (R : A -> A -> Prop) (l1 l2 : list A) :
  StronglySorted R (l1 ++ l2) ->
  StronglySorted R l1 /\ forall x y, In x l1 -> In y l2 -> R x y.
Proof.
  induction l1 as [| a l1 IH]; cbn [app]; intros Hs.
  - split; [constructor | contradiction].
  - apply StronglySorted_inv in Hs as [Hrest Hall].
    destruct (IH Hrest) as [Hs1 Hcross]. rewrite Forall_forall in Hall. split.
    + constructor; [exact Hs1 |]. apply Forall_forall. intros x Hx.
      apply Hall, in_or_app. now left.
    + intros x y [<- | Hx] Hy; [apply Hall, in_or_app; now right | now apply Hcross].
Qed.

Lemma sorted_labels_NoDup (groups : list (string * Q)) :
  StronglySorted String_as_OT.lt (map fst groups) -> NoDup (map fst groups).
Proof.
  induction (map fst groups) as [| k ks IH]; intros Hs; [constructor |].
  apply StronglySorted_inv in Hs as [Hrest Hall]. rewrite Forall_forall in Hall.
  constructor; [| now apply IH].
  intros Hin. exact (label_lt_neq _ _ (Hall k Hin) eq_refl).
Qed.

Lemma insert_descending_spec (x : string * Q) (sorted : list (string * Q)) :
  Permutation (x :: sorted) (insert_descending x sorted)
  /\ (StronglySorted (fun a b => (snd b <= snd a)%Q) sorted ->
      StronglySorted (fun a b => (snd b <= snd a)%Q) (insert_descending x sorted)).
Proof.
  induction sorted as [| y rest [IHp IHs]]; cbn [insert_descending].
  - split; [reflexivity | repeat constructor].
  - destruct (Qle_bool (snd y) (snd x)) eqn:Hle.
    + split; [reflexivity |]. intros Hs. constructor; [exact Hs |].
      apply Qle_bool_iff in Hle.
      pose proof (StronglySorted_inv Hs) as [_ Hall].
      constructor; [exact Hle |].
      eapply Forall_impl; [| exact Hall]. intros a Ha. cbn in *. lra.
    + split.
      * rewrite perm_swap. now apply perm_skip.
      * intros Hs. apply StronglySorted_inv in Hs as [Hrest Hall].
        constructor; [now apply IHs |].
        apply Forall_forall. intros a Ha.
        apply (Permutation_in _ (Permutation_sym IHp)) in Ha as [<- | Ha].
        -- assert (Hlt : ~ (snd y <= snd x)%Q)
             by (rewrite <- Qle_bool_iff; congruence).
           apply Qnot_le_lt in Hlt. now apply Qlt_le_weak.
        -- rewrite Forall_forall in Hall. now apply Hall.
Qed.

Lemma insertion_sort_values_sorts : sorts_descending insertion_sort_values.
Proof.
  intros series. unfold insertion_sort_values.
  induction series as [| x rest [IHp IHs]]; cbn [fold_right].
  - split; [reflexivity | constructor].
  - destruct (insert_descending_spec x (fold_right insert_descending [] rest))
      as [Hp Hs].
    split; [| now apply Hs].
    rewrite <- Hp. now apply perm_skip.
Qed.

(** X22: the ranking by revenue that [analyze_product_performance],
    [analyze_geographic_performance] and [create_category_chart] cut to ten
    entries.  However [sort_values] orders entries of equal revenue: at
    most ten names are shown, none twice, revenues descending, each the sum
    of [price] over the rows of that name; a name of the data that is not
    shown means that ten are, and none of them has a lower revenue.  Rows
    without a name count for nothing. *)
Theorem top_ten_by_revenue {Row : Type}
    (sort_values : list (string * Q) -> list (string * Q))
    (name : Row -> option string) (price : Row -> Q) (data : list Row) :
  sorts_descending sort_values ->
  let top := BusinessMetrics.top_by_revenue sort_values name price data in
  let revenue_of n :=
    sum (map price (filter (fun r => match name r with
                                     | Some n' => String.eqb n' n
                                     | None => false
                                     end) data)) in
  (List.length top <= 10)%nat
  /\ NoDup (map fst top)
  /\ StronglySorted (fun a b => (snd b <= snd a)%Q) top
  /\ (forall n v, In (n, v) top ->
        (exists r, In r data /\ name r = Some n) /\ (v == revenue_of n)%Q)
  /\ (forall r n, In r data -> name r = Some n -> ~ In n (map fst top) ->
        List.length top = 10%nat
        /\ forall n' v, In (n', v) top -> (revenue_of n <= v)%Q)
  /\ (forall frame,
        App.create_category_chart sort_values frame
        = BusinessMetrics.top_by_revenue sort_values SalesRow.product_category_name
            SalesRow.price (rows frame)).
Proof.
  intros Hsort. cbv zeta.
  unfold BusinessMetrics.top_by_revenue, BusinessMetrics.revenue_ranking.
  set (kvs := labelled name price data).
  destruct (groupby_label_sum_spec kvs) as (Hs & Hk & Hlook & _).
  destruct (Hsort (groupby_label_sum kvs)) as [Hperm Hdesc].
  set (ranking := sort_values (groupby_label_sum kvs)) in *.
  pose proof (firstn_skipn 10 ranking) as Hsplit.
  rewrite <- Hsplit in Hdesc.
  apply StronglySorted_app_inv in Hdesc as [Htop Hcross].
  assert (Hin : forall n v, In (n, v) (firstn 10 ranking) ->
            In (n, v) (groupby_label_sum kvs)).
  { intros n v H. apply (Permutation_in _ (Permutation_sym Hperm)).
    rewrite <- Hsplit. apply in_or_app. now left. }
  assert (Hrev : forall n v, In (n, v) (groupby_label_sum kvs) ->
            (v == sum (map price (filter (fun r => match name r with
                                                   | Some n' => String.eqb n' n
                                                   | None => false
                                                   end) data)))%Q).
  { intros n v H. rewrite (Hlook n v H). apply labelled_lookup. }
  split; [apply firstn_le_length |].
  split.
  { assert (Hnd : NoDup (map fst ranking)).
    { apply (Permutation_NoDup (Permutation_map fst Hperm)).
      now apply sorted_labels_NoDup. }
    rewrite <- Hsplit, map_app in Hnd. now apply NoDup_app_remove_r in Hnd. }
  split; [exact Htop |].
  split.
  { intros n v H. apply Hin in H. split; [| now apply Hrev].
    apply (labelled_names name price). apply Hk.
    apply (in_map fst) in H. exact H. }
  split; [| reflexivity].
  intros r n Hr Hn Hnot.
  assert (Hkey : In n (map fst (groupby_label_sum kvs))).
  { apply Hk. apply (labelled_names name price). now exists r. }
  apply in_map_iff in Hkey as ([n0 v0] & Hfst & Hentry). cbn in Hfst. subst n0.
  assert (Hrest : In (n, v0) (skipn 10 ranking)).
  { pose proof (Permutation_in _ Hperm Hentry) as H. rewrite <- Hsplit in H.
    apply in_app_or in H as [H | H]; [| exact H].
    exfalso. apply Hnot. apply (in_map fst) in H. exact H. }
  split.
  - rewrite length_firstn. apply Nat.min_l.
    destruct (Nat.le_gt_cases 10 (List.length ranking)) as [Hle | Hgt]; [exact Hle |].
    rewrite skipn_all2 in Hrest by lia. contradiction.
  - intros n' v H. rewrite <- (Hrev n v0 Hentry).
    exact (Hcross (n', v) (n, v0) H Hrest).
Qed.

Lemma top_ten_by_revenue_witness :
  BusinessMetrics.top_by_revenue insertion_sort_values SalesRow.product_category_name
    SalesRow.price (rows three_sales)
  = [("books", 30%Q); ("toys", 10 + 5)%Q]
  /\ NoDup (map fst
              (BusinessMetrics.top_by_revenue insertion_sort_values
                 SalesRow.product_category_name SalesRow.price (rows three_sales))).
Proof.
  split; [reflexivity |].
  exact (proj1 (proj2 (top_ten_by_revenue insertion_sort_values
                         SalesRow.product_category_name SalesRow.price
                         (rows three_sales) insertion_sort_values_sorts))).
Defined.

(** *** The business summary *)

(** X23: the top performer [generate_business_summary] names, from the
    ranking of [analyze_product_performance] or
    [analyze_geographic_performance].  It is [None] exactly when no row has
    a name; otherwise it is a name of the data whose revenue no other name
    exceeds, however [sort_values] orders entries of equal revenue. *)
Theorem top_performer_leads {Row : Type}
    (sort_values : list (string * Q) -> list (string * Q))
    (name : Row -> option string) (price : Row -> Q) (data : list Row) :
  sorts_descending sort_values ->
  let revenue_of n :=
    sum (map price (filter (fun r => match name r with
                                     | Some n' => String.eqb n' n
                                     | None => false
                                     end) data)) in
  (BusinessMetrics.top_performer sort_values name price data = None
   <-> forall r, In r data -> name r = None)
  /\ (forall n,
        BusinessMetrics.top_performer sort_values name price data = Some n ->
        (exists r, In r data /\ name r = Some n)
        /\ forall r n', In r data -> name r = Some n' ->
                        (revenue_of n' <= revenue_of n)%Q).
Proof.
  intros Hsort. cbv zeta.
  unfold BusinessMetrics.top_performer, BusinessMetrics.top_by_revenue,
    BusinessMetrics.revenue_ranking.
  set (kvs := labelled name price data).
  destruct (groupby_label_sum_spec kvs) as (_ & Hk & Hlook & _).
  destruct (Hsort (groupby_label_sum kvs)) as [Hperm Hdesc].
  assert (Hrev : forall n v, In (n, v) (groupby_label_sum kvs) ->
            (v == sum (map price (filter (fun r => match name r with
                                                   | Some n' => String.eqb n' n
                                                   | None => false
                                                   end) data)))%Q).
  { intros n v H. rewrite (Hlook n v H). apply labelled_lookup. }
  assert (Hentry : forall r n, In r data -> name r = Some n ->
            exists v, In (n, v) (sort_values (groupby_label_sum kvs))
                      /\ In (n, v) (groupby_label_sum kvs)).
  { intros r n Hr Hn.
    assert (Hkey : In n (map fst (groupby_label_sum kvs)))
      by (apply Hk; apply (labelled_names name price); now exists r).
    apply in_map_iff in Hkey as ([n0 v0] & Hfst & Hin). cbn in Hfst. subst n0.
    exists v0. split; [exact (Permutation_in _ Hperm Hin) | exact Hin]. }
  destruct (sort_values (groupby_label_sum kvs)) as [| [n v] rest] eqn:Hranking;
    cbn [firstn BusinessMetrics.first_key].
  - split.
    + split; [| reflexivity]. intros _ r Hr.
      destruct (name r) as [n |] eqn:Hn; [| reflexivity].
      destruct (Hentry r n Hr Hn) as (v & [] & _).
    + intros n Hn. discriminate.
  - assert (Hhead : In (n, v) (groupby_label_sum kvs))
      by (apply (Permutation_in _ (Permutation_sym Hperm)); now left).
    split.
    + split; [discriminate |]. intros Hnone. exfalso.
      assert (Hkey : In n (map fst kvs))
        by (apply Hk; apply (in_map fst) in Hhead; exact Hhead).
      apply (labelled_names name price) in Hkey as (r & Hr & Hn).
      rewrite (Hnone r Hr) in Hn. discriminate.
    + intros n0 Hn0. injection Hn0 as <-. split.
      * apply (labelled_names name price). apply Hk.
        apply (in_map fst) in Hhead. exact Hhead.
      * intros r n' Hr Hn'. destruct (Hentry r n' Hr Hn') as (v' & Hin' & Hg').
        rewrite <- (Hrev n v Hhead), <- (Hrev n' v' Hg').
        destruct Hin' as [Heq | Hin'].
        -- injection Heq as _ ->. apply Qle_refl.
        -- apply StronglySorted_inv in Hdesc as [_ Hall].
           rewrite Forall_forall in Hall. exact (Hall (n', v') Hin').
Qed.

Lemma top_performer_leads_witness :
  BusinessMetrics.top_performer insertion_sort_values SalesRow.product_category_name
    SalesRow.price (rows three_sales) = Some "books"
  /\ exists r, In r (rows three_sales)
               /\ SalesRow.product_category_name r = Some "books".
Proof.
  split; [reflexivity |].
  exact (proj1 (proj2 (top_performer_leads insertion_sort_values
                         SalesRow.product_category_name SalesRow.price
                         (rows three_sales) insertion_sort_values_sorts)
                  "books" eq_refl)).
Defined.

Lemma count_fast_deliveries {Row : Type} (delivery_days : Row -> option Z)
    (review_data : list Row) :
  count_occ string_dec
    (map (fun r => BusinessMetrics.delivery_category (delivery_days r)) review_data)
    "1-3 days"
  = List.length (filter (fun r => match delivery_days r with
                                  | Some d => d <=? 3
                                  | None => false
                                  end) review_data).
Proof.
  induction review_data as [| r rs IH]; [reflexivity |].
  cbn [map count_occ filter]. rewrite IH.
  destruct (delivery_days r) as [d |]; cbn [BusinessMetrics.delivery_category].
  - destruct (d <=? 3); [reflexivity |]. destruct (d <=? 7); reflexivity.
  - reflexivity.
Qed.

Section FastDelivery.
Context {Row : Type}.
Variable delivery_days : Row -> option Z.

(** X24: the fast delivery rate of the business summary is the share of
    the rows delivered within three days among all rows, those without
    [delivery_days] included in the total: it is 0 for no rows at all
    (nothing is divided), lies between 0 and 1, and is 1 exactly when
    there are rows and each was delivered within three days. *)
Theorem fast_delivery_rate_share (review_data : list Row) :
  let rate := BusinessMetrics.fast_delivery_rate delivery_days review_data in
  let fast r := match delivery_days r with
                | Some d => d <=? 3
                | None => false
                end in
  (rate * inject_Z (Z.of_nat (List.length review_data))
   == inject_Z (Z.of_nat (List.length (filter fast review_data))))%Q
  /\ (review_data = [] -> rate = 0%Q)
  /\ (0 <= rate <= 1)%Q
  /\ ((rate == 1)%Q
      <-> review_data <> [] /\ forall r, In r review_data -> fast r = true).
Proof.
  cbv zeta. unfold BusinessMetrics.fast_delivery_rate,
    BusinessMetrics.delivery_speed_distribution.
  set (fast := fun r => match delivery_days r with
                        | Some d => d <=? 3
                        | None => false
                        end).
  set (rate := BusinessMetrics.get _ _ _).
  assert (Hrate : (rate == inject_Z (Z.of_nat (List.length (filter fast review_data)))
                           / inject_Z (Z.of_nat (List.length review_data)))%Q).
  { subst rate. rewrite share_as_quotient, count_fast_deliveries, length_map.
    reflexivity. }
  pose proof (filter_length_le fast review_data) as Hle.
  destruct review_data as [| r0 rs] eqn:Hdata.
  - split; [rewrite Hrate; reflexivity |]. split; [reflexivity |].
    split; [rewrite Hrate; split; discriminate |].
    split; [intros H; rewrite Hrate in H; discriminate | intros [H _]; congruence].
  - rewrite <- Hdata in *.
    assert (Hn : (0 < inject_Z (Z.of_nat (List.length review_data)))%Q).
    { change 0%Q with (inject_Z 0). rewrite <- Zlt_Qlt. rewrite Hdata.
      simpl List.length. lia. }
    assert (Hk : (0 <= inject_Z (Z.of_nat (List.length (filter fast review_data)))
                  <= inject_Z (Z.of_nat (List.length review_data)))%Q).
    { change 0%Q with (inject_Z 0). rewrite <- !Zle_Qle. lia. }
    split; [rewrite Hrate; field; lra |].
    split; [rewrite Hdata; discriminate |].
    split.
    { rewrite Hrate. split.
      - apply Qle_shift_div_l; [exact Hn | lra].
      - apply Qle_shift_div_r; [exact Hn | lra]. }
    rewrite Hrate. split.
    + intros Hone. split; [rewrite Hdata; discriminate |].
      assert (Heq : List.length (filter fast review_data) = List.length review_data).
      { assert (H : (inject_Z (Z.of_nat (List.length (filter fast review_data)))
                     == inject_Z (Z.of_nat (List.length review_data)))%Q).
        { rewrite <- (Qmult_1_l (inject_Z (Z.of_nat (List.length review_data)))),
            <- Hone. field. lra. }
        rewrite inject_Z_injective in H. lia. }
      clear - Heq. induction review_data as [| r rs IH]; [contradiction |].
      cbn [filter List.length] in Heq.
      pose proof (filter_length_le fast rs) as Hle.
      destruct (fast r) eqn:Hr; cbn [List.length] in Heq; [| lia].
      intros r' [<- | Hin]; [exact Hr | apply IH; [lia | exact Hin]].
    + intros [_ Hall].
      assert (Heq : filter fast review_data = review_data).
      { clear - Hall. induction review_data as [| r rs IH]; [reflexivity |].
        pose proof (Hall r (or_introl eq_refl)) as Hr. change (fast r = true) in Hr.
        cbn [filter]. rewrite Hr. f_equal.
        apply IH. intros r' Hr'. apply Hall. now right. }
      rewrite Heq. field. lra.
Qed.

End FastDelivery.
